(** * The chunk / merge / sample / chapter pipeline of the podcast scripts

    A shallow embedding of the algorithmic core of
    [scripts/split_podcast.py], [scripts/transcribe_podcast.py] and
    [scripts/generate_chapters.py], with the properties the specification
    states about them.

    Conventions of the embedding:
    - Python [float] and [int] values that carry seconds, budgets and
      averages are exact rationals ([Q]); rounding of IEEE doubles is not
      modelled.  Where the code compares, it compares with the boolean
      tests below; where it truncates with [int(...)], it uses [py_int].
    - A Python exception is a value of [exn]; a call that may raise returns
      a [result].
    - [print] appends a line to an explicit log. *)

From Stdlib Require Import ZArith QArith Qround Qabs Lia Lqa List Bool.
From Stdlib Require Import String Ascii DecimalString Permutation Sorted.
Import ListNotations.

Set Warnings "-register-all".

(** ** Python primitives used by the scripts *)

Module Py.

Inductive exn : Type :=
| ZeroDivisionError
| JSONDecodeError
| AttributeError
| TypeError
| KeyError
| IndexError
| ValueError
| APIError.

Inductive result (A : Type) : Type :=
| Ok (a : A)
| Raise (e : exn).

Arguments Ok {A} a.
Arguments Raise {A} e.

Definition bind {A B : Type} (r : result A) (k : A -> result B) : result B :=
  match r with
  | Ok a => k a
  | Raise e => Raise e
  end.

(** [x < y] on numbers. *)
Definition ltb (x y : Q) : bool := negb (Qle_bool y x).

(** [x / y]: true division, raising on a zero divisor. *)
Definition div (x y : Q) : result Q :=
  if Qeq_bool y 0 then Raise ZeroDivisionError else Ok (x / y)%Q.

(** [int(x)]: truncation towards zero. *)
Definition py_int (x : Q) : Z :=
  if Qle_bool 0 x then Qfloor x else Qceiling x.

(** [math.ceil(x)]. *)
Definition ceil (x : Q) : Z := Qceiling x.

(** [range(n)]: empty when [n <= 0]. *)
Definition range (n : Z) : list nat := seq 0 (Z.to_nat n).

(** [enumerate(l)]. *)
Definition enumerate {A : Type} (l : list A) : list (nat * A) :=
  combine (seq 0 (List.length l)) l.

(** [l[idx]]: a negative index counts from the end; out of range raises. *)
Definition getitem {A : Type} (l : list A) (idx : Z) : result A :=
  let n := Z.of_nat (List.length l) in
  let pos := if (idx <? 0)%Z then (n + idx)%Z else idx in
  if (pos <? 0)%Z then Raise IndexError
  else match nth_error l (Z.to_nat pos) with
       | Some a => Ok a
       | None => Raise IndexError
       end.

(** Every [k]-th element from the front, [k >= 1]. *)
Fixpoint stride_from {A : Type} (k skip : nat) (l : list A) : list A :=
  match l with
  | [] => []
  | a :: r =>
      match skip with
      | O => a :: stride_from k (k - 1) r
      | S j => stride_from k j r
      end
  end.

(** [l[::step]]: a zero step raises; a negative step walks from the end. *)
Definition slice_step {A : Type} (l : list A) (step : Z) : result (list A) :=
  if (step =? 0)%Z then Raise ValueError
  else if (0 <? step)%Z then Ok (stride_from (Z.to_nat step) 0 l)
  else Ok (stride_from (Z.to_nat (- step)) 0 (rev l)).

(** [list.sort(key=...)]: a stable sort on a numeric key, comparing keys
    with [<] only.  The head of the list is placed in front of the first
    element of the sorted tail whose key is not smaller than its own. *)
Section Sort.
Variable A : Type.
Variable key : A -> Q.

Fixpoint insert (x : A) (l : list A) : list A :=
  match l with
  | [] => [x]
  | y :: r => if ltb (key y) (key x) then y :: insert x r else x :: y :: r
  end.

Definition sort (l : list A) : list A := fold_right insert [] l.
End Sort.

Arguments insert {A} key x l.
Arguments sort {A} key l.

(** [sep.join(l)]. *)
Fixpoint join (sep : string) (l : list string) : string :=
  match l with
  | [] => EmptyString
  | [s] => s
  | s :: r => (s ++ sep ++ join sep r)%string
  end.

(** The effect of [print] and of [try]/[except] around fallible calls: a
    computation yields the lines it printed, in order, and either a value
    or the exception it raised. *)
Definition io (E A : Type) : Type := (list E * result A)%type.

Definition ret {E A : Type} (a : A) : io E A := ([], Ok a).

Definition iobind {E A B : Type} (m : io E A) (k : A -> io E B) : io E B :=
  match m with
  | (l, Ok a) => let (l', r) := k a in (l ++ l', r)
  | (l, Raise e) => (l, Raise e)
  end.

Definition print {E : Type} (e : E) : io E unit := ([e], Ok tt).

Definition lift {E A : Type} (r : result A) : io E A := ([], r).

(** [try: m  except Exception as e: handler e]. *)
Definition try_except {E A : Type} (m : io E A) (handler : exn -> io E A)
  : io E A :=
  match m with
  | (l, Ok a) => (l, Ok a)
  | (l, Raise e) => let (l', r) := handler e in (l ++ l', r)
  end.

End Py.

Notation "x <- r ;; k" := (Py.bind r (fun x => k))
  (at level 61, r at next level, right associativity).
Notation "x <~ m ;; k" := (Py.iobind m (fun x => k))
  (at level 61, m at next level, right associativity).

(** ** [split_podcast.py]: the chunker *)

Module SplitPodcast.

Import Py.
Local Open Scope Q_scope.

(** What the script observes of the outside world: whether the input file
    exists, the duration [ffprobe] reports, and whether the [ffmpeg]
    invocation for loop index [i] returns code 0. *)
Record world : Type := {
  file_exists : bool;
  total_duration : Q;
  ffmpeg_ok : nat -> bool
}.

(** One [chunk_info] dictionary; the ['file'] entry is the path
    [chunk_{i+1:03d}.mp3], determined by [index]. *)
Record chunk_info : Type := {
  index : nat;
  start_offset_seconds : Q;
  duration_seconds : Q;
  actual_start_time : Q
}.

Definition of_nat (i : nat) : Q := inject_Z (Z.of_nat i).

(** [start_time] of loop iteration [i]. *)
Definition start_time (L O : Q) (i : nat) : Q :=
  if Nat.eqb i 0 then 0 else of_nat i * L - O.

(** [duration] of loop iteration [i]. *)
Definition duration (D L O : Q) (num_chunks : Z) (i : nat) : Q :=
  if (Z.of_nat i <? num_chunks - 1)%Z then L + O
  else D - start_time L O i.

(** One iteration of the [for i in range(num_chunks)] loop, on the list
    [chunks] built so far. *)
Definition loop_body (w : world) (L O : Q) (num_chunks : Z)
    (chunks : list chunk_info) (i : nat) : list chunk_info :=
  let st := start_time L O i in
  let du := duration (total_duration w) L O num_chunks i in
  if ltb du 1 then chunks
  else if ffmpeg_ok w i then
    chunks ++ [ {| index := i;
                   start_offset_seconds :=
                     if (0 <? i)%nat then of_nat i * L else 0;
                   duration_seconds := du;
                   actual_start_time := st |} ]
  else chunks.

Definition split_audio (w : world) (chunk_duration_seconds overlap_seconds : Q)
  : result (list chunk_info) :=
  if negb (file_exists w) then Ok []
  else
    q <- div (total_duration w) chunk_duration_seconds ;;
    let num_chunks := ceil q in
    Ok (fold_left (loop_body w chunk_duration_seconds overlap_seconds num_chunks)
                  (range num_chunks) []).

(** End of a produced window. *)
Definition chunk_end (c : chunk_info) : Q :=
  actual_start_time c + duration_seconds c.

End SplitPodcast.

(** ** Text: f-string formatting and the timestamp pattern *)

Module Text.

Import Py.
Local Open Scope string_scope.

Definition nl : string := String "010"%char EmptyString.
Definition dq : string := String "034"%char EmptyString.

(** [str(z)] / [f"{z}"] of an integer. *)
Definition dec (z : Z) : string := NilZero.string_of_int (Z.to_int z).

(** [len(s)]; one character per code point. *)
Definition len (s : string) : Z := Z.of_nat (String.length s).

(** Rounding of a non-negative number to the nearest integer, ties to
    even, as [format] rounds the last printed digit. *)
Definition round_half_even (x : Q) : Z :=
  let f := Qfloor x in
  let r := (x - inject_Z f)%Q in
  if ltb r (1 # 2) then f
  else if ltb (1 # 2) r then (f + 1)%Z
  else if Z.even f then f else (f + 1)%Z.

(** [f"{x:.1f}"]: sign, integer part and one decimal of the rounded
    value. *)
Definition format_1f (x : Q) : string :=
  let t := round_half_even (Qabs x * 10)%Q in
  (if ltb x 0 then "-" else "") ++ dec (t / 10) ++ "." ++ dec (t mod 10).

Definition is_digit (c : ascii) : bool :=
  let n := nat_of_ascii c in (48 <=? n)%nat && (n <=? 57)%nat.

(** The longest prefix of digits, and what follows it. *)
Fixpoint span_digits (s : string) : string * string :=
  match s with
  | String c r =>
      if is_digit c then let (d, t) := span_digits r in (String c d, t)
      else (EmptyString, s)
  | EmptyString => (EmptyString, EmptyString)
  end.

(** A match of [\d+\.\d+] at the head of [s]: the matched text and the
    rest.  Each [\d+] is greedy and is followed by a non-digit in the
    pattern, so the longest run of digits is the only candidate. *)
Definition match_number (s : string) : option (string * string) :=
  let (a, r) := span_digits s in
  match a, r with
  | String _ _, String "." r' =>
      let (b, t) := span_digits r' in
      match b with
      | String _ _ => Some (a ++ "." ++ b, t)
      | EmptyString => None
      end
  | _, _ => None
  end.

(** A match of [\[\d+\.\d+-\d+\.\d+\]] at the head of [s]: the two numbers
    and the length of the matched text. *)
Definition match_stamp (s : string) : option (string * string * nat) :=
  match s with
  | String "[" r =>
      match match_number r with
      | Some (a, String "-" r') =>
          match match_number r' with
          | Some (b, String "]" _) =>
              Some (a, b, (String.length a + String.length b + 3)%nat)
          | _ => None
          end
      | _ => None
      end
  | _ => None
  end.

(** Left-to-right scan for non-overlapping matches; [skip] characters of
    the match found last are still to be passed over. *)
Fixpoint scan_stamps (s : string) (skip : nat) : list (string * string) :=
  match s with
  | EmptyString => []
  | String _ r =>
      match skip with
      | S k => scan_stamps r k
      | O =>
          match match_stamp s with
          | Some (a, b, n) => (a, b) :: scan_stamps r (n - 1)
          | None => scan_stamps r 0
          end
      end
  end.

(** [re.findall(r'\[(\d+\.\d+)-\d+\.\d+\]', s)]. *)
Definition findall_start (s : string) : list string :=
  map fst (scan_stamps s 0).

(** [re.findall(r'\[\d+\.\d+-(\d+\.\d+)\]', s)]. *)
Definition findall_end (s : string) : list string :=
  map snd (scan_stamps s 0).

Definition digit_value (c : ascii) : Z := Z.of_nat (nat_of_ascii c) - 48.

Fixpoint digits_value (s : string) (acc : Z) : Z :=
  match s with
  | EmptyString => acc
  | String c r => digits_value r (10 * acc + digit_value c)
  end.

(** [float(s)] on a text of the shape [\d+\.\d+], the only texts the
    scripts pass to it (groups of the pattern above); a text of another
    shape is answered with [ValueError]. *)
Definition float (s : string) : result Q :=
  match match_number s with
  | Some (_, EmptyString) =>
      let (a, r) := span_digits s in
      match r with
      | String _ b =>
          Ok (inject_Z (digits_value a 0)
              + inject_Z (digits_value b 0)
                / inject_Z (10 ^ Z.of_nat (String.length b)))%Q
      | EmptyString => Raise ValueError
      end
  | _ => Raise ValueError
  end.

(** [needle in s]. *)
Fixpoint contains (needle s : string) : bool :=
  prefix needle s ||
  match s with
  | EmptyString => false
  | String _ r => contains needle r
  end.

End Text.

(** ** Transcript segments and their rendering *)

Module Segments.

Import Py Text.
Local Open Scope string_scope.

(** A segment dictionary [{"start": .., "end": .., "text": ..}]. *)
Record segment : Type := {
  start : Q;
  end_ : Q;
  text : string
}.

(** [f"[{seg['start']:.1f}-{seg['end']:.1f}] {seg['text']}\n"]. *)
Definition line (seg : segment) : string :=
  "[" ++ format_1f (start seg) ++ "-" ++ format_1f (end_ seg) ++ "] "
      ++ text seg ++ nl.

(** The loop that renders every segment, on the pair
    [(full_text, total_length)]. *)
Definition render_body (acc : list string * Z) (seg : segment)
  : list string * Z :=
  let (full_text, total_length) := acc in
  ((full_text ++ [line seg])%list, (total_length + len (line seg))%Z).

Definition render_all (segments : list segment) : list string * Z :=
  fold_left render_body segments ([], 0%Z).

(** The note that opens a sampled rendering. *)
Definition note (segments_to_include : Z) (segment_count : nat) : string :=
  "[NOTE: Sampled " ++ dec segments_to_include ++ " of "
    ++ dec (Z.of_nat segment_count)
    ++ " segments evenly across the podcast]" ++ nl ++ nl.

(** [sampled_indices], given the number of segments to include. *)
Definition sampled_indices (step : Q) (segments_to_include : Z) : list Z :=
  map (fun i => py_int (inject_Z (Z.of_nat i) * step)%Q)
      (range segments_to_include).

(** The loop over [sampled_indices], appending to [result]. *)
Definition sample_body (segments : list segment)
    (acc : result (list string)) (idx : Z) : result (list string) :=
  result <- acc ;;
  if (idx <? Z.of_nat (List.length segments))%Z then
    seg <- getitem segments idx ;;
    Ok (result ++ [line seg])%list
  else Ok result.

(** The even sampling both scripts apply once the full rendering is over
    the budget (the two copies differ in their [print] calls only).  The
    value is the list [result] and the list [sampled_indices]. *)
Definition sample_evenly (segments : list segment) (max_chars total_length : Z)
  : result (list string * list Z) :=
  avg_line_length <-
    div (inject_Z total_length) (inject_Z (Z.of_nat (List.length segments))) ;;
  q <- div (inject_Z max_chars) avg_line_length ;;
  let segments_to_include := py_int q in
  step <- div (inject_Z (Z.of_nat (List.length segments)))
              (inject_Z segments_to_include) ;;
  let indices := sampled_indices step segments_to_include in
  result <- fold_left (sample_body segments) indices
              (Ok [note segments_to_include (List.length segments)]) ;;
  Ok (result, indices).

End Segments.

(** ** JSON values, as [json.loads] returns them *)

Module Json.

Import Py.
Local Open Scope string_scope.

Inductive json : Type :=
| JNull
| JBool (b : bool)
| JNum (q : Q)
| JStr (s : string)
| JArr (l : list json)
| JObj (l : list (string * json)).

(** A [dict] with string keys, as the list of its items. *)
Fixpoint lookup (key : string) (l : list (string * json)) : option json :=
  match l with
  | [] => None
  | (k, v) :: r => if String.eqb k key then Some v else lookup key r
  end.

(** [v.get(key, default)]: only a [dict] has the method. *)
Definition get (v : json) (key : string) (default : json) : result json :=
  match v with
  | JObj l =>
      Ok (match lookup key l with Some x => x | None => default end)
  | _ => Raise AttributeError
  end.

(** [len(v)]. *)
Definition length (v : json) : result Z :=
  match v with
  | JArr l => Ok (Z.of_nat (List.length l))
  | JStr s => Ok (Z.of_nat (String.length s))
  | JObj l => Ok (Z.of_nat (List.length l))
  | _ => Raise TypeError
  end.

(** [bool(v)], the test of [if v:]. *)
Definition truthy (v : json) : bool :=
  match v with
  | JNull => false
  | JBool b => b
  | JNum q => negb (Qeq_bool q 0)
  | JStr s => negb (String.eqb s "")
  | JArr l => negb (Nat.eqb (List.length l) 0)
  | JObj l => negb (Nat.eqb (List.length l) 0)
  end.

(** [v[i]] for an integer [i]: a [dict] with string keys has no such key. *)
Definition at_index (v : json) (i : Z) : result json :=
  match v with
  | JArr l => getitem l i
  | JStr s =>
      c <- getitem (list_ascii_of_string s) i ;;
      Ok (JStr (String c EmptyString))
  | JObj _ => Raise KeyError
  | _ => Raise TypeError
  end.

(** [v[key]] for a string [key]. *)
Definition at_key (v : json) (key : string) : result json :=
  match v with
  | JObj l =>
      match lookup key l with
      | Some x => Ok x
      | None => Raise KeyError
      end
  | _ => Raise TypeError
  end.

(** [v / 60]. *)
Definition div60 (v : json) : result Q :=
  match v with
  | JNum q => Ok (q / 60)%Q
  | JBool b => Ok ((if b then 1 else 0) / 60)%Q
  | _ => Raise TypeError
  end.

End Json.

(** ** [transcribe_podcast.py]: the segment merger and its chapter call *)

Module TranscribePodcast.

Import Py Text Segments Json.
Local Open Scope string_scope.

(** One entry of [chunks_data]: its ['start_offset_seconds'] and the
    ['segments'] of its ['transcript']. *)
Record chunk_data : Type := {
  start_offset_seconds : Q;
  transcript_segments : list segment
}.

(** The merged transcript [{"text": .., "segments": ..}]. *)
Record transcript : Type := {
  merged_text : string;
  segments : list segment
}.

(** Body of [for seg in segments], on [merged_segments]. *)
Definition segment_body (i : nat) (chunk_offset overlap_seconds : Q)
    (merged_segments : list segment) (seg : segment) : list segment :=
  let adjusted_start := (start seg + chunk_offset)%Q in
  let adjusted_end := (end_ seg + chunk_offset)%Q in
  if (0 <? i)%nat && ltb (start seg) overlap_seconds then merged_segments
  else
    (merged_segments
       ++ [ {| start := adjusted_start;
               end_ := adjusted_end;
               text := text seg |} ])%list.

(** Body of [for i, chunk_data in enumerate(chunks_data)]. *)
Definition chunk_body (overlap_seconds : Q)
    (merged_segments : list segment) (ic : nat * chunk_data) : list segment :=
  let (i, chunk) := ic in
  fold_left (segment_body i (start_offset_seconds chunk) overlap_seconds)
            (transcript_segments chunk) merged_segments.

(** [merged_segments] before the sort: the arrival order. *)
Definition collect (chunks_data : list chunk_data) (overlap_seconds : Q)
  : list segment :=
  fold_left (chunk_body overlap_seconds) (enumerate chunks_data) [].

Definition merge_transcripts (chunks_data : list chunk_data)
    (overlap_seconds : Q) : transcript :=
  let merged_segments := sort start (collect chunks_data overlap_seconds) in
  {| merged_text := join " " (map text merged_segments);
     segments := merged_segments |}.

(** Lines this part of the script prints. *)
Inductive printed : Type :=
| GeneratingChapters
| TranscriptTooLong (total_length : Z)
| ErrorGeneratingChapters (e : exn).

Definition _prepare_segments_for_gpt (segs : list segment) (max_chars : Z)
  : io printed string :=
  let (full_text, total_length) := render_all segs in
  if (total_length <=? max_chars)%Z then ret (join "" full_text)
  else
    _ <~ print (TranscriptTooLong total_length) ;;
    r <~ lift (sample_evenly segs max_chars total_length) ;;
    ret (join "" (fst r)).

Definition _build_chapters_prompt (segments_text : string) : result string :=
  let timestamps := findall_start segments_text in
  last_timestamp <-
    match timestamps with
    | [] => Ok 3000%Q
    | _ :: _ => s <- getitem timestamps (-1) ;; float s
    end ;;
  let duration_minutes := py_int (last_timestamp / 60)%Q in
  Ok (nl ++ join nl [
     "Analyze this podcast transcript and create meaningful chapters that cover the ENTIRE " ++ dec duration_minutes ++ "-minute episode.";
     EmptyString;
     "Return a JSON object with this exact structure:";
     "{";
     "  " ++ dq ++ "chapters" ++ dq ++ ": [";
     "    {";
     "      " ++ dq ++ "title" ++ dq ++ ": " ++ dq ++ "Introduction and Welcome" ++ dq ++ ",";
     "      " ++ dq ++ "start_seconds" ++ dq ++ ": 0,";
     "      " ++ dq ++ "end_seconds" ++ dq ++ ": 180,";
     "      " ++ dq ++ "summary" ++ dq ++ ": " ++ dq ++ "Brief introduction to the podcast and today's topics" ++ dq;
     "    },";
     "    // more chapters...";
     "  ]";
     "}";
     EmptyString;
     "IMPORTANT Guidelines:";
     "- Create 8-15 chapters that span the FULL " ++ dec duration_minutes ++ " minutes of content";
     "- Each chapter should be AT LEAST 5 minutes (300 seconds) long";
     "- The first chapter should start at 0 seconds";
     "- The last chapter should extend to approximately " ++ dec (py_int last_timestamp) ++ " seconds";
     "- Chapter titles should be clear and descriptive";
     "- Timestamps should not overlap";
     "- Include a brief summary for each chapter";
     "- Base boundaries on natural topic transitions";
     "- Even if you only see samples from the transcript, infer reasonable chapter breaks for the entire duration";
     EmptyString;
     "Transcript with timestamps (may be sampled if long):";
     segments_text ] ++ nl).

Definition system_message : string :=
  "You are an expert at analyzing podcast transcripts and creating clear, helpful chapters.".

Section Services.
(** The chat-completion call, from model, temperature, system message and
    user prompt to the content of the first choice, and [json.loads]. *)
Variable create : string -> Q -> string -> string -> result string.
Variable json_loads : string -> result json.

Definition generate_chapters (transcript_data : transcript)
  : io printed json :=
  _ <~ print GeneratingChapters ;;
  segments_text <~
    _prepare_segments_for_gpt (segments transcript_data) 50000 ;;
  prompt <~ lift (_build_chapters_prompt segments_text) ;;
  try_except
    (content <~ lift (create "gpt-4o-mini" (2 # 10) system_message prompt) ;;
     result <~ lift (json_loads content) ;;
     lift (get result "chapters" (JArr [])))
    (fun e => _ <~ print (ErrorGeneratingChapters e) ;; ret (JArr [])).
End Services.

End TranscribePodcast.

(** ** [generate_chapters.py]: the budget sampler and the chapter planner *)

Module GenerateChapters.

Import Py Text Segments Json.
Local Open Scope string_scope.

(** Lines [ChapterGenerator] prints. *)
Inductive printed : Type :=
| SamplingEvery (step : Z) (used : nat)
| UsingFullTranscript (total_length : Z) (segment_count : nat)
| TranscriptTooLong (total_length : Z)
| SampledSegments (count : nat)
| GeneratingChaptersWith (model : string)
| MinimumChapterLength (min_chapter_minutes : Z)
| GeneratedChapters (count : Z)
| Coverage (first_start last_end : json) (minutes : Q)
| ErrorGeneratingChapters (e : exn).

Definition prepare_segments_for_gpt (segs : list segment) (max_chars : Z)
    (sample_rate : Q) : io printed string :=
  segs <~
    (if ltb sample_rate 1 then
       d <~ lift (div 1 sample_rate) ;;
       let step := py_int d in
       sliced <~ lift (slice_step segs step) ;;
       _ <~ print (SamplingEvery step (List.length sliced)) ;;
       ret sliced
     else ret segs) ;;
  let (full_text, total_length) := render_all segs in
  if (total_length <=? max_chars)%Z then
    _ <~ print (UsingFullTranscript total_length (List.length segs)) ;;
    ret (join "" full_text)
  else
    _ <~ print (TranscriptTooLong total_length) ;;
    r <~ lift (sample_evenly segs max_chars total_length) ;;
    _ <~ print (SampledSegments (List.length (snd r))) ;;
    ret (join "" (fst r)).

(** [duration_seconds] and [duration_minutes], as the prompt builder
    obtains them from the rendered transcript. *)
Definition duration_of_text (segments_text : string) : result (Q * Z) :=
  let timestamps := findall_start segments_text in
  match timestamps with
  | [] => Ok (3000%Q, 50%Z)
  | _ :: _ =>
      let all_timestamps := findall_end segments_text in
      s <- match all_timestamps with
           | [] => getitem timestamps (-1)
           | _ :: _ => getitem all_timestamps (-1)
           end ;;
      duration_seconds <- float s ;;
      Ok (duration_seconds, py_int (duration_seconds / 60)%Q)
  end.

(** [min_chapters] and [ideal_chapters]. *)
Definition chapter_counts (duration_minutes min_chapter_minutes max_chapters : Z)
  : result (Z * Z) :=
  a <- div (inject_Z duration_minutes) (inject_Z (min_chapter_minutes * 3)) ;;
  let min_chapters := Z.max 3 (py_int a) in
  b <- div (inject_Z duration_minutes) (inject_Z min_chapter_minutes) ;;
  let ideal_chapters := Z.min max_chapters (Z.max min_chapters (py_int b)) in
  Ok (min_chapters, ideal_chapters).

(** The lines of the prompt, between its first and last newline. *)
Definition prompt_lines (segments_text : string) (duration_seconds : Q)
    (duration_minutes min_chapter_minutes ideal_chapters : Z) : list string :=
  [ "Analyze this podcast transcript and create meaningful chapters that cover the ENTIRE " ++ dec duration_minutes ++ "-minute episode.";
    EmptyString;
    "Return a JSON object with this exact structure:";
    "{";
    "  " ++ dq ++ "chapters" ++ dq ++ ": [";
    "    {";
    "      " ++ dq ++ "title" ++ dq ++ ": " ++ dq ++ "Introduction and Welcome" ++ dq ++ ",";
    "      " ++ dq ++ "start_seconds" ++ dq ++ ": 0,";
    "      " ++ dq ++ "end_seconds" ++ dq ++ ": 300,";
    "      " ++ dq ++ "summary" ++ dq ++ ": " ++ dq ++ "Brief introduction to the podcast and today's topics" ++ dq;
    "    },";
    "    // more chapters...";
    "  ]";
    "}";
    EmptyString;
    "CRITICAL REQUIREMENTS:";
    "- Create " ++ dec (ideal_chapters - 2) ++ " to " ++ dec (ideal_chapters + 2) ++ " chapters that span the FULL " ++ dec duration_minutes ++ " minutes";
    "- Each chapter MUST be AT LEAST " ++ dec min_chapter_minutes ++ " minutes (" ++ dec (min_chapter_minutes * 60) ++ " seconds) long";
    "- The first chapter MUST start at 0 seconds";
    "- The last chapter MUST extend to approximately " ++ dec (py_int duration_seconds) ++ " seconds";
    "- Chapters must be continuous with no gaps (each chapter starts where the previous ends)";
    "- Chapter titles should be specific and descriptive (not generic like " ++ dq ++ "Part 1" ++ dq ++ ")";
    "- Include a 1-2 sentence summary for each chapter";
    "- Base boundaries on natural topic transitions in the conversation";
    EmptyString;
    "IMPORTANT: Even if you only see samples from the transcript, you must still create chapters";
    "that cover the ENTIRE " ++ dec duration_minutes ++ "-minute duration. Use context clues to infer reasonable";
    "topic breaks for parts you haven't seen.";
    EmptyString;
    "Transcript with timestamps (may be sampled if long):";
    segments_text ].

Definition build_chapters_prompt (segments_text : string)
    (actual_duration_seconds : option Q)
    (min_chapter_minutes max_chapters : Z) : result string :=
  d <- duration_of_text segments_text ;;
  let (duration_seconds, duration_minutes) := d in
  c <- chapter_counts duration_minutes min_chapter_minutes max_chapters ;;
  let (min_chapters, ideal_chapters) := c in
  Ok (nl ++ join nl (prompt_lines segments_text duration_seconds
                       duration_minutes min_chapter_minutes ideal_chapters)
         ++ nl).

Definition system_message : string :=
  "You are an expert at analyzing podcast transcripts and creating clear, meaningful chapters that help listeners navigate the content.".

Section Services.
(** The chat-completion call, from model, temperature, system message and
    user prompt to the content of the first choice, and [json.loads]. *)
Variable create : string -> Q -> string -> string -> result string.
Variable json_loads : string -> result json.

(** The statements under [try:]. *)
Definition request_chapters (model : string) (temperature : Q)
    (prompt : string) : io printed json :=
  content <~ lift (create model temperature system_message prompt) ;;
  result <~ lift (json_loads content) ;;
  chapters <~ lift (get result "chapters" (JArr [])) ;;
  n <~ lift (Json.length chapters) ;;
  _ <~ print (GeneratedChapters n) ;;
  _ <~ (if truthy chapters then
          first <~ lift (at_index chapters 0) ;;
          first_start <~ lift (at_key first "start_seconds") ;;
          last <~ lift (at_index chapters (-1)) ;;
          last_end <~ lift (at_key last "end_seconds") ;;
          minutes <~ lift (div60 last_end) ;;
          print (Coverage first_start last_end minutes)
        else ret tt) ;;
  ret chapters.

(** In the call of [build_chapters_prompt] the second positional argument
    is [min_chapter_minutes]: it lands in [actual_duration_seconds], and
    [min_chapter_minutes] and [max_chapters] keep their defaults. *)
Definition generate_chapters (segs : list segment) (model : string)
    (temperature : Q) (min_chapter_minutes max_chars : Z)
    (actual_duration_seconds : option Q) : io printed json :=
  _ <~ print (GeneratingChaptersWith model) ;;
  _ <~ print (MinimumChapterLength min_chapter_minutes) ;;
  segments_text <~ prepare_segments_for_gpt segs max_chars 1 ;;
  prompt <~ lift (build_chapters_prompt segments_text
                    (Some (inject_Z min_chapter_minutes)) 5 15) ;;
  try_except
    (request_chapters model temperature prompt)
    (fun e => _ <~ print (ErrorGeneratingChapters e) ;; ret (JArr [])).
End Services.

End GenerateChapters.

(** ** Vocabulary of the statements *)

Module Spec.

Import Py Text Segments.
Local Open Scope Q_scope.

(** [sub] occurs in [s]. *)
Definition occurs_in (sub s : string) : Prop :=
  exists pre post : string, s = (pre ++ sub ++ post)%string.

(** The [chunk_info] the chunker appends at loop index [i]. *)
Definition window (w : SplitPodcast.world) (L O : Q) (num_chunks : Z) (i : nat)
  : SplitPodcast.chunk_info :=
  {| SplitPodcast.index := i;
     SplitPodcast.start_offset_seconds :=
       if (0 <? i)%nat then SplitPodcast.of_nat i * L else 0;
     SplitPodcast.duration_seconds :=
       SplitPodcast.duration (SplitPodcast.total_duration w) L O num_chunks i;
     SplitPodcast.actual_start_time := SplitPodcast.start_time L O i |}.

(** Loop index [i] yields a chunk: its duration is not below one second and
    the media invocation succeeds. *)
Definition kept (w : SplitPodcast.world) (L O : Q) (num_chunks : Z) (i : nat)
  : bool :=
  negb (ltb (SplitPodcast.duration (SplitPodcast.total_duration w) L O
               num_chunks i) 1)
  && SplitPodcast.ffmpeg_ok w i.

(** Consecutive produced windows leave no gap. *)
Definition no_gap (chunks : list SplitPodcast.chunk_info) : Prop :=
  forall (i : nat) (c1 c2 : SplitPodcast.chunk_info),
    nth_error chunks i = Some c1 ->
    nth_error chunks (S i) = Some c2 ->
    SplitPodcast.actual_start_time c2 <= SplitPodcast.chunk_end c1.

(** The last produced window ends at [D]. *)
Definition ends_at (D : Q) (chunks : list SplitPodcast.chunk_info) : Prop :=
  exists c : SplitPodcast.chunk_info,
    nth_error chunks (List.length chunks - 1) = Some c /\
    chunks <> [] /\
    SplitPodcast.chunk_end c == D.

(** The chunker returns windows that cover [[0, D]]: no gap between
    consecutive windows and the final window ends at [D]. *)
Definition covers (w : SplitPodcast.world) (L O : Q) : Prop :=
  exists chunks : list SplitPodcast.chunk_info,
    SplitPodcast.split_audio w L O = Ok chunks /\
    no_gap chunks /\
    ends_at (SplitPodcast.total_duration w) chunks.

(** A raw segment re-expressed in episode time. *)
Definition shift (chunk_offset : Q) (seg : segment) : segment :=
  {| start := start seg + chunk_offset;
     end_ := end_ seg + chunk_offset;
     text := text seg |}.

(** A raw segment of the chunk at position [i] survives the merge: the chunk
    is the first, or the chunk-local start is not below the overlap. *)
Definition survives (overlap_seconds : Q) (i : nat) (seg : segment) : bool :=
  negb ((0 <? i)%nat && ltb (start seg) overlap_seconds).

(** What the chunk at position [i] contributes to the merge. *)
Definition contribution (overlap_seconds : Q)
    (ic : nat * TranscribePodcast.chunk_data) : list segment :=
  map (shift (TranscribePodcast.start_offset_seconds (snd ic)))
      (filter (survives overlap_seconds (fst ic))
              (TranscribePodcast.transcript_segments (snd ic))).

(** Segments with the start [k]. *)
Definition starting_at (k : Q) (l : list segment) : list segment :=
  filter (fun seg => Qeq_bool (start seg) k) l.

(** No two segments of the list have the same start. *)
Definition distinct_starts (l : list segment) : Prop :=
  forall (i j : nat) (a b : segment),
    nth_error l i = Some a -> nth_error l j = Some b -> i <> j ->
    ~ start a == start b.

(** Order of two elements by their sort key. *)
Definition key_le {A : Type} (key : A -> Q) (a b : A) : Prop :=
  key a <= key b.

(** The full rendering: one line per segment. *)
Definition full_rendering (segs : list segment) : string :=
  join "" (map line segs).

(** Total rendered length, as the renderer sums it. *)
Definition total_length (segs : list segment) : Z := snd (render_all segs).

(** [avg_line_length] of the sampler. *)
Definition average_line_length (segs : list segment) : Q :=
  inject_Z (total_length segs) / inject_Z (Z.of_nat (List.length segs)).

(** The line of the segment at a sampled index, if the index is in range. *)
Definition pick (segs : list segment) (idx : Z) : list string :=
  match nth_error segs (Z.to_nat idx) with
  | Some seg => [line seg]
  | None => []
  end.

(** [segments_to_include] of the sampler. *)
Definition segments_to_include (segs : list segment) (max_chars : Z) : Z :=
  py_int (inject_Z max_chars / average_line_length segs).

(** The indices the sampler selects. *)
Definition selected (segs : list segment) (max_chars : Z) : list Z :=
  sampled_indices
    (inject_Z (Z.of_nat (List.length segs))
     / inject_Z (segments_to_include segs max_chars))
    (segments_to_include segs max_chars).

(** The planner of [generate_chapters.py] printed its error line. *)
Definition generator_reported (log : list GenerateChapters.printed) : Prop :=
  exists e, In (GenerateChapters.ErrorGeneratingChapters e) log.

(** The planner of [transcribe_podcast.py] printed its error line. *)
Definition transcriber_reported (log : list TranscribePodcast.printed)
  : Prop :=
  exists e, In (TranscribePodcast.ErrorGeneratingChapters e) log.

End Spec.

(** ** Inputs used as witnesses and counterexamples *)

Module Inputs.

Import Py Segments.
Local Open Scope Q_scope.

(** A 25-minute episode, every media invocation succeeding. *)
Definition world_1500 : SplitPodcast.world :=
  {| SplitPodcast.file_exists := true;
     SplitPodcast.total_duration := 1500;
     SplitPodcast.ffmpeg_ok := fun _ => true |}.

(** An episode of 600.5 seconds. *)
Definition world_half : SplitPodcast.world :=
  {| SplitPodcast.file_exists := true;
     SplitPodcast.total_duration := 1201 # 2;
     SplitPodcast.ffmpeg_ok := fun _ => true |}.

(** Two chunks with the offsets [process_podcast] assigns for an overlap of
    3 seconds, [0] and [1 * 600 - 3]. *)
Definition boundary_chunks : list TranscribePodcast.chunk_data :=
  [ {| TranscribePodcast.start_offset_seconds := 0;
       TranscribePodcast.transcript_segments :=
         [ {| start := 600; end_ := 602; text := "so"%string |} ] |};
    {| TranscribePodcast.start_offset_seconds := 597;
       TranscribePodcast.transcript_segments :=
         [ {| start := 3 # 2; end_ := 3; text := "and"%string |};
           {| start := 3; end_ := 5; text := "so"%string |} ] |} ].

Definition two_short_segments : list segment :=
  [ {| start := 0; end_ := 4; text := "Welcome back."%string |};
    {| start := 4; end_ := 9; text := "Today: chapters."%string |} ].

Definition one_segment : list segment :=
  [ {| start := 0; end_ := 1; text := "hello there"%string |} ].

Definition thousand_and_one_segments : list segment :=
  repeat {| start := 0; end_ := 1;
            text := "0123456789012345678901234567890123456789"%string |}
         1001.

Definition short_episode : list segment :=
  [ {| start := 0; end_ := 90; text := "Intro"%string |} ].

Definition empty_transcript : TranscribePodcast.transcript :=
  {| TranscribePodcast.merged_text := ""%string;
     TranscribePodcast.segments := [] |}.

(** A chat service whose answer is always the empty JSON object. *)
Definition create_empty_object (model : string) (temperature : Q)
    (system user : string) : result string :=
  Ok "{}"%string.

(** A chat service whose answer is not JSON. *)
Definition create_prose (model : string) (temperature : Q)
    (system user : string) : result string :=
  Ok "Here are your chapters:"%string.

(** [json.loads] restricted to the two answers above: it parses the text
    of the empty object and raises on the prose. *)
Definition loads_empty_object (s : string) : result Json.json :=
  if String.eqb s "{}" then Ok (Json.JObj []) else Raise JSONDecodeError.

End Inputs.

(** ** [transcribe_podcast.py]: [process_podcast] and what it calls *)

Module Pipeline.

Import Py Text Segments Json TranscribePodcast.
Local Open Scope string_scope.

(** [c.isspace()] for a character below 256. *)
Definition is_space (c : ascii) : bool :=
  let n := nat_of_ascii c in
  ((9 <=? n)%nat && (n <=? 13)%nat)
  || ((28 <=? n)%nat && (n <=? 32)%nat)
  || (n =? 133)%nat || (n =? 160)%nat.

Fixpoint lstrip_chars (l : list ascii) : list ascii :=
  match l with
  | c :: r => if is_space c then lstrip_chars r else l
  | [] => []
  end.

(** [s.strip()]. *)
Definition strip (s : string) : string :=
  string_of_list_ascii
    (rev (lstrip_chars (rev (lstrip_chars (list_ascii_of_string s))))).

(** What the transcription service answers: [response.text], the
    [response.segments] when the attribute is there, and the optional
    [language] and [duration]. *)
Record whisper_response : Type := {
  response_text : string;
  response_segments : option (list segment);
  response_language : option string;
  response_duration : option Q
}.

(** The dictionary [transcribe_chunk] returns. *)
Record chunk_transcript : Type := {
  ct_text : string;
  ct_segments : list segment;
  ct_language : string;
  ct_duration : option Q
}.

(** One entry of [chunks_data] as [process_podcast] builds it. *)
Record chunk_entry : Type := {
  file : string;
  index : nat;
  offset : Q;
  transcript_of : chunk_transcript
}.

(** The two keys [merge_transcripts] reads of an entry. *)
Definition to_chunk_data (c : chunk_entry) : chunk_data :=
  {| start_offset_seconds := offset c;
     transcript_segments := ct_segments (transcript_of c) |}.

(** One record of the [transcript_segments] table. *)
Record segment_record : Type := {
  rec_episode_id : string;
  rec_start_seconds : Q;
  rec_end_seconds : Q;
  rec_text : string
}.

(** The local files, by what is dumped into them. *)
Inductive document : Type :=
| TranscriptFull (episode_id : string) (merged : transcript)
    (chunks_processed : nat) (timestamp : string)
| TranscriptFullUpdated (episode_id : string) (merged : transcript)
    (chunks_processed : nat) (timestamp : string)
    (chapters : json) (segments_saved_to_db : nat) (db_save_successful : bool)
| ChaptersFile (chapters : json)
| ChunkTranscripts (episode_id : string) (chunks : list chunk_entry)
    (timestamp : string).

(** Lines printed outside [generate_chapters]. *)
Inductive said : Type :=
| FoundChunks (n : nat)
| ProcessingChunk (i n : nat)
| TranscribingChunk (i : nat) (file : string)
| ErrorTranscribing (i : nat) (e : exn)
| MergingTranscripts
| SavingLocally
| SavedFullTranscript
| NoChaptersToSave
| SavedChapters (n : Z)
| SavedChunkTranscripts
| AttemptingDatabase
| SavingSegments
| SavedSegments (n : nat)
| DatabaseSuccess (n : nat)
| DatabaseFailed (e : exn)
| SafelySavedLocally
| Complete
| SummaryEpisode (episode_id : string)
| SummaryLocalSegments (n : nat)
| SummaryDatabaseSegments (n : nat)
| SummaryChapters (n : Z)
| SummaryFiles.

(** What a run does that can be observed from outside, in order. *)
Inductive effect : Type :=
| Say (l : said)
| Planner (l : printed)
| Sleep (seconds : Z)
| Write (file : string) (content : document)
| Insert (records : list segment_record).

(** The log of a sub-computation inside a larger one. *)
Definition embed {E F A : Type} (f : E -> F) (m : io E A) : io F A :=
  (map f (fst m), snd m).

Definition raise {E A : Type} (e : exn) : io E A := ([], Raise e).

(** A [for] loop with a body that prints and may raise, on the state it
    updates. *)
Fixpoint for_each {E A S : Type} (body : S -> A -> io E S) (l : list A)
    (s : S) : io E S :=
  match l with
  | [] => ret s
  | a :: r => s' <~ body s a ;; for_each body r s'
  end.

Section Services.
(** The transcription call on a chunk file, the chat call and [json.loads]
    of the planner, the insertion into the segment table (its
    [result.data]) and the two readings of the clock. *)
Variable whisper : string -> result whisper_response.
Variable create : string -> Q -> string -> string -> result string.
Variable json_loads : string -> result json.
Variable insert : list segment_record -> result (list json).
Variables now1 now2 : string.

Definition transcribe_chunk (audio_file_path : string) (chunk_index : nat)
  : io effect chunk_transcript :=
  _ <~ print (Say (TranscribingChunk chunk_index audio_file_path)) ;;
  try_except
    (response <~ lift (whisper audio_file_path) ;;
     let segs :=
       match response_segments response with
       | Some l =>
           map (fun seg => {| start := start seg;
                              end_ := end_ seg;
                              text := strip (text seg) |}) l
       | None => []
       end in
     ret {| ct_text := response_text response;
            ct_segments := segs;
            ct_language :=
              match response_language response with
              | Some l => l
              | None => "en"
              end;
            ct_duration := response_duration response |})
    (fun e =>
       _ <~ print (Say (ErrorTranscribing chunk_index e)) ;;
       raise e).

Definition save_to_supabase (episode_id : string) (transcript_data : transcript)
  : io effect (list json) :=
  _ <~ print (Say SavingSegments) ;;
  let segment_records :=
    map (fun seg => {| rec_episode_id := episode_id;
                       rec_start_seconds := start seg;
                       rec_end_seconds := end_ seg;
                       rec_text := text seg |})
        (segments transcript_data) in
  match segment_records with
  | _ :: _ =>
      _ <~ print (Insert segment_records) ;;
      data <~ lift (insert segment_records) ;;
      _ <~ print (Say (SavedSegments (List.length segment_records))) ;;
      ret data
  | [] => ret []
  end.

Definition save_chapters_locally (chapters : json) : io effect unit :=
  if negb (truthy chapters) then print (Say NoChaptersToSave)
  else
    _ <~ print (Write "chapters.json" (ChaptersFile chapters)) ;;
    n <~ lift (Json.length chapters) ;;
    print (Say (SavedChapters n)).

(** The offset [process_podcast] gives the chunk file at position [i]. *)
Definition start_offset (overlap_seconds : Q) (i : nat) : Q :=
  let chunk_duration := 600%Q in
  if Nat.eqb i 0 then (inject_Z (Z.of_nat i) * chunk_duration)%Q
  else (inject_Z (Z.of_nat i) * chunk_duration - overlap_seconds)%Q.

(** Body of the loop over the chunk files. *)
Definition chunk_loop_body (count : nat) (overlap_seconds : Q)
    (chunks_data : list chunk_entry) (ic : nat * string)
  : io effect (list chunk_entry) :=
  let (i, chunk_file) := ic in
  _ <~ print (Say (ProcessingChunk (i + 1) count)) ;;
  let start_offset := start_offset overlap_seconds i in
  transcript <~ transcribe_chunk chunk_file i ;;
  let chunks_data :=
    (chunks_data ++ [ {| file := chunk_file;
                         index := i;
                         offset := start_offset;
                         transcript_of := transcript |} ])%list in
  _ <~ (if (i <? count - 1)%nat then print (Sleep 1) else ret tt) ;;
  ret chunks_data.

(** The dictionary [process_podcast] returns. *)
Record summary : Type := {
  summary_episode_id : string;
  segments_count : nat;
  chapters_count : Z
}.

(** [chunk_files] is the sorted result of the glob. *)
Definition process_podcast (episode_id : string) (chunk_files : list string)
    (overlap_seconds : Q) : io effect summary :=
  match chunk_files with
  | [] => raise ValueError
  | _ :: _ =>
      let count := List.length chunk_files in
      _ <~ print (Say (FoundChunks count)) ;;
      chunks_data <~
        for_each (chunk_loop_body count overlap_seconds)
                 (enumerate chunk_files) [] ;;
      _ <~ print (Say MergingTranscripts) ;;
      let merged_transcript :=
        merge_transcripts (map to_chunk_data chunks_data) overlap_seconds in
      _ <~ print (Say SavingLocally) ;;
      _ <~ print (Write "transcript_full.json"
                    (TranscriptFull episode_id merged_transcript
                       (List.length chunks_data) now1)) ;;
      _ <~ print (Say SavedFullTranscript) ;;
      chapters <~
        embed Planner (generate_chapters create json_loads merged_transcript) ;;
      _ <~ (if truthy chapters then save_chapters_locally chapters
            else ret tt) ;;
      _ <~ print (Write "chunk_transcripts.json"
                    (ChunkTranscripts episode_id chunks_data now2)) ;;
      _ <~ print (Say SavedChunkTranscripts) ;;
      segment_records <~
        try_except
          (_ <~ print (Say AttemptingDatabase) ;;
           records <~ save_to_supabase episode_id merged_transcript ;;
           _ <~ print (Say (DatabaseSuccess (List.length records))) ;;
           ret records)
          (fun e =>
             _ <~ print (Say (DatabaseFailed e)) ;;
             _ <~ print (Say SafelySavedLocally) ;;
             ret []) ;;
      let saved := List.length segment_records in
      _ <~ print (Write "transcript_full.json"
                    (TranscriptFullUpdated episode_id merged_transcript
                       (List.length chunks_data) now1 chapters saved
                       (0 <? saved)%nat)) ;;
      _ <~ print (Say Complete) ;;
      _ <~ print (Say (SummaryEpisode episode_id)) ;;
      _ <~ print (Say (SummaryLocalSegments
                         (List.length (segments merged_transcript)))) ;;
      _ <~ print (Say (SummaryDatabaseSegments saved)) ;;
      n <~ lift (Json.length chapters) ;;
      _ <~ print (Say (SummaryChapters n)) ;;
      _ <~ print (Say SummaryFiles) ;;
      n' <~ lift (Json.length chapters) ;;
      ret {| summary_episode_id := episode_id;
             segments_count := saved;
             chapters_count := n' |}
  end.
End Services.

End Pipeline.

(** ** [generate_chapters.py]: [save_chapters], [print_chapters], [main] *)

Module ChapterGeneratorMain.

Import Py Text Segments Json GenerateChapters.
Local Open Scope string_scope.

(** The parsed command line. *)
Record args : Type := {
  transcript_file : string;
  output : option string;
  model : string;
  temperature : Q;
  min_minutes : Z;
  max_chars : Z;
  sample_rate : Q
}.

(** Where the chapters go: the [--output] given, or [chapters.json] in the
    directory of the transcript file. *)
Inductive path : Type :=
| Given (output : string)
| BesideInput (transcript_file : string).

(** What [main] reads of the loaded transcript: whether it has a
    ['segments'] entry, and then the segments, a list of dictionaries with
    [start], [end] and [text]. *)
Inductive loaded : Type :=
| NoSegments
| Segments (segs : list segment).

(** Lines printed outside [generate_chapters]. *)
Inductive said : Type :=
| ErrorNoApiKey
| PleaseSetApiKey
| LoadingTranscript (transcript_file : string)
| ErrorNoSegments
| LoadedSegments (n : nat)
| Duration (seconds minutes : Q)
| FailedToGenerate
| SavedChapters (n : Z) (output_file : path)
| Rule
| GeneratedChaptersHeading
| ChapterTitle (i : nat) (title : json)
| ChapterTime (start_min end_min duration_min : Q)
| ChapterSummary (summary : json).

Inductive effect : Type :=
| Say (l : said)
| Generator (l : printed)
| Dump (output_file : path) (chapters : json).

(** [for x in v]: the elements of a list, the characters of a string, the
    keys of a dictionary. *)
Definition items (v : json) : result (list json) :=
  match v with
  | JArr l => Ok l
  | JStr s =>
      Ok (map (fun c => JStr (String c EmptyString)) (list_ascii_of_string s))
  | JObj l => Ok (map (fun kv => JStr (fst kv)) l)
  | _ => Raise TypeError
  end.

(** [key in v] for a string [key]. *)
Definition has_key (key : string) (v : json) : result bool :=
  match v with
  | JObj l => Ok (match lookup key l with Some _ => true | None => false end)
  | JArr l =>
      Ok (existsb (fun x => match x with
                            | JStr s => String.eqb s key
                            | _ => false
                            end) l)
  | JStr s => Ok (contains key s)
  | _ => Raise TypeError
  end.

(** A [for] loop whose body prints and may raise. *)
Fixpoint for_in {E A : Type} (l : list A) (body : A -> io E unit)
  : io E unit :=
  match l with
  | [] => ret tt
  | a :: r => _ <~ body a ;; for_in r body
  end.

Definition save_chapters (chapters : json) (output_file : path)
  : io effect unit :=
  _ <~ print (Dump output_file chapters) ;;
  n <~ lift (Json.length chapters) ;;
  print (Say (SavedChapters n output_file)).

(** Body of [for i, chapter in enumerate(chapters, 1)]. *)
Definition chapter_body (ic : nat * json) : io effect unit :=
  let (i, chapter) := ic in
  s <~ lift (at_key chapter "start_seconds") ;;
  start_min <~ lift (div60 s) ;;
  e <~ lift (at_key chapter "end_seconds") ;;
  end_min <~ lift (div60 e) ;;
  let duration_min := (end_min - start_min)%Q in
  title <~ lift (at_key chapter "title") ;;
  _ <~ print (Say (ChapterTitle i title)) ;;
  _ <~ print (Say (ChapterTime start_min end_min duration_min)) ;;
  b <~ lift (has_key "summary" chapter) ;;
  if b then
    summary <~ lift (at_key chapter "summary") ;;
    print (Say (ChapterSummary summary))
  else ret tt.

Definition print_chapters (chapters : json) : io effect unit :=
  _ <~ print (Say Rule) ;;
  _ <~ print (Say GeneratedChaptersHeading) ;;
  _ <~ print (Say Rule) ;;
  l <~ lift (items chapters) ;;
  _ <~ for_in (combine (seq 1 (List.length l)) l) chapter_body ;;
  print (Say Rule).

Definition output_file (a : args) : path :=
  match output a with
  | Some o => if String.eqb o "" then BesideInput (transcript_file a)
              else Given o
  | None => BesideInput (transcript_file a)
  end.

Section Services.
(** The [OPENAI_API_KEY] of the environment, the reading of the transcript
    file, the chat-completion call and [json.loads]. *)
Variable api_key : option string.
Variable load : string -> result loaded.
Variable create : string -> Q -> string -> string -> result string.
Variable json_loads : string -> result json.

Definition main (a : args) : io effect Z :=
  if match api_key with
     | Some k => String.eqb k ""
     | None => true
     end
  then
    _ <~ print (Say ErrorNoApiKey) ;;
    _ <~ print (Say PleaseSetApiKey) ;;
    ret 1%Z
  else
    let output_file := output_file a in
    _ <~ print (Say (LoadingTranscript (transcript_file a))) ;;
    transcript <~ lift (load (transcript_file a)) ;;
    match transcript with
    | NoSegments =>
        _ <~ print (Say ErrorNoSegments) ;;
        ret 1%Z
    | Segments segs =>
        _ <~ print (Say (LoadedSegments (List.length segs))) ;;
        _ <~ (match segs with
              | _ :: _ =>
                  last <~ lift (getitem segs (-1)) ;;
                  let duration := end_ last in
                  print (Say (Duration duration (duration / 60)%Q))
              | [] => ret tt
              end) ;;
        chapters <~
          Pipeline.embed Generator
            (generate_chapters create json_loads segs (model a)
               (temperature a) (min_minutes a) (max_chars a) None) ;;
        if negb (truthy chapters) then
          _ <~ print (Say FailedToGenerate) ;;
          ret 1%Z
        else
          _ <~ save_chapters chapters output_file ;;
          _ <~ print_chapters chapters ;;
          ret 0%Z
    end.
End Services.

End ChapterGeneratorMain.

(** ** Further vocabulary *)

Module Terms.

Import Py Text Segments.
Local Open Scope Q_scope.

(** The same world with every media invocation succeeding. *)
Definition all_ok (w : SplitPodcast.world) : SplitPodcast.world :=
  {| SplitPodcast.file_exists := SplitPodcast.file_exists w;
     SplitPodcast.total_duration := SplitPodcast.total_duration w;
     SplitPodcast.ffmpeg_ok := fun _ => true |}.

(** A 25-minute episode whose second media invocation fails. *)
Definition world_second_fails : SplitPodcast.world :=
  {| SplitPodcast.file_exists := true;
     SplitPodcast.total_duration := 1500;
     SplitPodcast.ffmpeg_ok := fun i => negb (Nat.eqb i 1) |}.

(** Five one-second segments with one word each. *)
Definition five_segments : list segment :=
  [ {| start := 0; end_ := 1; text := "one"%string |};
    {| start := 1; end_ := 2; text := "two"%string |};
    {| start := 2; end_ := 3; text := "three"%string |};
    {| start := 3; end_ := 4; text := "four"%string |};
    {| start := 4; end_ := 5; text := "five"%string |} ].

(** A chat service that always raises. *)
Definition create_failing (model : string) (temperature : Q)
    (system user : string) : result string :=
  Raise APIError.

(** The text of a JSON object whose [chapters] entry is the number 5. *)
Definition chapters_five : string :=
  ("{" ++ dq ++ "chapters" ++ dq ++ ": 5}")%string.

(** A chat service whose answer is [chapters_five]. *)
Definition create_five (model : string) (temperature : Q)
    (system user : string) : result string :=
  Ok chapters_five.

(** [json.loads] restricted to [chapters_five]. *)
Definition loads_five (s : string) : result Json.json :=
  if String.eqb s chapters_five
  then Ok (Json.JObj [("chapters"%string, Json.JNum 5)])
  else Raise JSONDecodeError.

(** The text of a JSON object whose [chapters] entry is [null]. *)
Definition chapters_null : string :=
  ("{" ++ dq ++ "chapters" ++ dq ++ ": null}")%string.

(** A chat service whose answer is [chapters_null]. *)
Definition create_null (model : string) (temperature : Q)
    (system user : string) : result string :=
  Ok chapters_null.

(** [json.loads] restricted to [chapters_null]. *)
Definition loads_null (s : string) : result Json.json :=
  if String.eqb s chapters_null
  then Ok (Json.JObj [("chapters"%string, Json.JNull)])
  else Raise JSONDecodeError.

(** A string in double quotes. *)
Definition quoted (s : string) : string := (dq ++ s ++ dq)%string.

(** The text of a JSON object with one well-formed chapter. *)
Definition one_chapter_text : string :=
  ("{" ++ quoted "chapters" ++ ": [{" ++ quoted "title" ++ ": "
     ++ quoted "Intro" ++ ", " ++ quoted "start_seconds" ++ ": 0, "
     ++ quoted "end_seconds" ++ ": 90, " ++ quoted "summary" ++ ": "
     ++ quoted "Opening" ++ "}]}")%string.

(** The value of [one_chapter_text]. *)
Definition one_chapter : Json.json :=
  Json.JArr
    [ Json.JObj [ ("title"%string, Json.JStr "Intro");
                  ("start_seconds"%string, Json.JNum 0);
                  ("end_seconds"%string, Json.JNum 90);
                  ("summary"%string, Json.JStr "Opening") ] ].

(** A chat service whose answer is [one_chapter_text]. *)
Definition create_one_chapter (model : string) (temperature : Q)
    (system user : string) : result string :=
  Ok one_chapter_text.

(** [json.loads] restricted to [one_chapter_text]. *)
Definition loads_one_chapter (s : string) : result Json.json :=
  if String.eqb s one_chapter_text
  then Ok (Json.JObj [("chapters"%string, one_chapter)])
  else Raise JSONDecodeError.

(** The dictionary [transcribe_chunk] builds from a response. *)
Definition chunk_of_response (r : Pipeline.whisper_response)
  : Pipeline.chunk_transcript :=
  {| Pipeline.ct_text := Pipeline.response_text r;
     Pipeline.ct_segments :=
       match Pipeline.response_segments r with
       | Some l =>
           map (fun seg => {| start := start seg;
                              end_ := end_ seg;
                              text := Pipeline.strip (text seg) |}) l
       | None => []
       end;
     Pipeline.ct_language :=
       match Pipeline.response_language r with
       | Some l => l
       | None => "en"%string
       end;
     Pipeline.ct_duration := Pipeline.response_duration r |}.

(** The entry [process_podcast] appends for the chunk file at position
    [i], given the response to its transcription. *)
Definition entry_at (overlap_seconds : Q)
    (responses : string -> Pipeline.whisper_response) (ic : nat * string)
  : Pipeline.chunk_entry :=
  {| Pipeline.file := snd ic;
     Pipeline.index := fst ic;
     Pipeline.offset := Pipeline.start_offset overlap_seconds (fst ic);
     Pipeline.transcript_of := chunk_of_response (responses (snd ic)) |}.

(** Effects that are neither the writing of a file nor a database call. *)
Definition quiet (ev : Pipeline.effect) : Prop :=
  match ev with
  | Pipeline.Write _ _ | Pipeline.Insert _ => False
  | _ => True
  end.

(** Effects other than a database call. *)
Definition no_insert (ev : Pipeline.effect) : Prop :=
  match ev with
  | Pipeline.Insert _ => False
  | _ => True
  end.

(** The pauses of a run, in seconds and in order. *)
Definition sleeps (log : list Pipeline.effect) : list Z :=
  flat_map (fun ev => match ev with
                      | Pipeline.Sleep seconds => [seconds]
                      | _ => []
                      end) log.

(** Effects other than a pause. *)
Definition no_sleep (ev : Pipeline.effect) : Prop :=
  match ev with
  | Pipeline.Sleep _ => False
  | _ => True
  end.

(** The table records of a merged transcript. *)
Definition records_of (episode_id : string)
    (merged : TranscribePodcast.transcript) : list Pipeline.segment_record :=
  map (fun seg => {| Pipeline.rec_episode_id := episode_id;
                     Pipeline.rec_start_seconds := start seg;
                     Pipeline.rec_end_seconds := end_ seg;
                     Pipeline.rec_text := text seg |})
      (TranscribePodcast.segments merged).

(** The chunk entries of a run in which every transcription answers. *)
Definition entries (overlap_seconds : Q)
    (responses : string -> Pipeline.whisper_response)
    (chunk_files : list string) : list Pipeline.chunk_entry :=
  map (entry_at overlap_seconds responses) (enumerate chunk_files).

(** The merged transcript of such a run. *)
Definition merged_of (overlap_seconds : Q)
    (responses : string -> Pipeline.whisper_response)
    (chunk_files : list string) : TranscribePodcast.transcript :=
  TranscribePodcast.merge_transcripts
    (map Pipeline.to_chunk_data (entries overlap_seconds responses chunk_files))
    overlap_seconds.

(** The number of rows the database stage reports: the length of the
    answer of the insertion, 0 when there is nothing to insert or the
    insertion raises. *)
Definition rows_saved
    (insert : list Pipeline.segment_record -> result (list Json.json))
    (records : list Pipeline.segment_record) : nat :=
  match records with
  | [] => 0
  | _ :: _ =>
      match insert records with
      | Ok data => List.length data
      | Raise _ => 0
      end
  end.

(** A transcription answer with one segment whose text carries white
    space on both sides. *)
Definition one_segment_response : Pipeline.whisper_response :=
  {| Pipeline.response_text := " So, welcome. "%string;
     Pipeline.response_segments :=
       Some [ {| start := 4; end_ := 6; text := " So, welcome. "%string |} ];
     Pipeline.response_language := None;
     Pipeline.response_duration := Some 603 |}.

(** A transcription service that fails on the second chunk file. *)
Definition whisper_second_fails (f : string)
  : result Pipeline.whisper_response :=
  if String.eqb f "chunk_002.mp3" then Raise APIError
  else Ok one_segment_response.

(** A transcription service that always answers. *)
Definition whisper_ok (f : string) : result Pipeline.whisper_response :=
  Ok one_segment_response.

(** A segment table that refuses every insertion. *)
Definition insert_failing (records : list Pipeline.segment_record)
  : result (list Json.json) :=
  Raise APIError.

(** A segment table that answers with one row per record. *)
Definition insert_ok (records : list Pipeline.segment_record)
  : result (list Json.json) :=
  Ok (map (fun _ => Json.JObj []) records).

Definition two_chunk_files : list string :=
  [ "chunk_001.mp3"%string; "chunk_002.mp3"%string ].

(** A value [/ 60] accepts. *)
Definition numeric (v : Json.json) : Prop :=
  match v with
  | Json.JNum _ | Json.JBool _ => True
  | _ => False
  end.

(** A chapter [print_chapters] can display: a dictionary with a title and
    numeric [start_seconds] and [end_seconds]. *)
Definition displayable (chapter : Json.json) : Prop :=
  exists s e t : Json.json,
    Json.at_key chapter "start_seconds" = Ok s /\ numeric s /\
    Json.at_key chapter "end_seconds" = Ok e /\ numeric e /\
    Json.at_key chapter "title" = Ok t.

(** Effects of [main] other than the writing of the chapters file. *)
Definition no_dump (ev : ChapterGeneratorMain.effect) : Prop :=
  match ev with
  | ChapterGeneratorMain.Dump _ _ => False
  | _ => True
  end.

(** A command line with the defaults of the parser. *)
Definition default_args (transcript_file : string)
  : ChapterGeneratorMain.args :=
  {| ChapterGeneratorMain.transcript_file := transcript_file;
     ChapterGeneratorMain.output := None;
     ChapterGeneratorMain.model := "gpt-4o-mini"%string;
     ChapterGeneratorMain.temperature := 3 # 10;
     ChapterGeneratorMain.min_minutes := 5;
     ChapterGeneratorMain.max_chars := 50000;
     ChapterGeneratorMain.sample_rate := 1 |}.

End Terms.

(** * Properties *)

(** ** Python primitives *)

Section PyFacts.
Import Py.

Lemma ltb_lt (x y : Q) : ltb x y = true <-> (x < y)%Q.
Proof.
  unfold ltb. rewrite negb_true_iff.
  split; intro H.
  - apply Qnot_le_lt. intro Hle. apply Qle_bool_iff in Hle. congruence.
  - destruct (Qle_bool y x) eqn:E; [|reflexivity].
    apply Qle_bool_iff in E. exfalso. apply (Qlt_not_le _ _ H E).
Qed.

Lemma ltb_ge (x y : Q) : ltb x y = false <-> (y <= x)%Q.
Proof.
  unfold ltb. rewrite negb_false_iff. apply Qle_bool_iff.
Qed.

Lemma div_ok (x y : Q) : ~ (y == 0)%Q -> div x y = Ok (x / y)%Q.
Proof.
  intro H. unfold div.
  destruct (Qeq_bool y 0) eqn:E; [|reflexivity].
  apply Qeq_bool_iff in E. contradiction.
Qed.

Lemma div_zero (x y : Q) : (y == 0)%Q -> div x y = Raise ZeroDivisionError.
Proof.
  intro H. unfold div. apply Qeq_bool_iff in H. now rewrite H.
Qed.

(** A [for] loop that only appends: the list built so far is a prefix of
    the result. *)
Lemma fold_left_app_filter {A B : Type} (keep : A -> bool) (mk : A -> B)
    (body : list B -> A -> list B) :
  (forall acc a, body acc a = if keep a then acc ++ [mk a] else acc) ->
  forall l acc, fold_left body l acc = acc ++ map mk (filter keep l).
Proof.
  intros Hbody l. induction l as [|a l IH]; intro acc; simpl.
  - now rewrite app_nil_r.
  - rewrite IH, Hbody. destruct (keep a); simpl.
    + now rewrite <- app_assoc.
    + reflexivity.
Qed.
End PyFacts.

(** ** The chunker *)

Section ChunkerFacts.
Import Py SplitPodcast Spec.
Local Open Scope Q_scope.

Lemma loop_body_kept (w : world) (L O : Q) (N : Z) (acc : list chunk_info)
    (i : nat) :
  loop_body w L O N acc i
  = if kept w L O N i then (acc ++ [window w L O N i])%list else acc.
Proof.
  unfold loop_body, kept, window.
  destruct (ltb (duration (total_duration w) L O N i) 1); simpl;
    [reflexivity|].
  destruct (ffmpeg_ok w i); reflexivity.
Qed.

(** The chunker returns the windows of the loop indices that are kept, in
    index order. *)
Lemma split_audio_windows (w : world) (L O : Q) :
  file_exists w = true -> ~ L == 0 ->
  split_audio w L O
  = Ok (map (window w L O (ceil (total_duration w / L)))
            (filter (kept w L O (ceil (total_duration w / L)))
                    (range (ceil (total_duration w / L))))).
Proof.
  intros Hex HL. unfold split_audio. rewrite Hex. simpl.
  rewrite (div_ok _ _ HL). simpl.
  rewrite (fold_left_app_filter (kept w L O (ceil (total_duration w / L)))
             (window w L O (ceil (total_duration w / L)))).
  - reflexivity.
  - intros acc a. apply loop_body_kept.
Qed.

Lemma split_audio_inv (w : world) (L O : Q) (chunks : list chunk_info) :
  split_audio w L O = Ok chunks ->
  chunks = [] \/
  (file_exists w = true /\ ~ L == 0 /\
   chunks = map (window w L O (ceil (total_duration w / L)))
              (filter (kept w L O (ceil (total_duration w / L)))
                      (range (ceil (total_duration w / L))))).
Proof.
  intro H. destruct (file_exists w) eqn:Hex.
  - destruct (Qeq_bool L 0) eqn:E.
    + unfold split_audio, div in H. rewrite Hex, E in H. discriminate.
    + right. assert (HL : ~ L == 0).
      { intro HL. apply Qeq_bool_iff in HL. congruence. }
      rewrite (split_audio_windows w L O Hex HL) in H.
      injection H as <-. auto.
  - left. unfold split_audio in H. rewrite Hex in H. simpl in H. congruence.
Qed.
End ChunkerFacts.

Import Py SplitPodcast Spec Inputs.
Local Open Scope Q_scope.

(** C2. With [D = 1500], [L = 600], [O = 3] and every media invocation
    succeeding, the chunker returns three chunks that start at 0, 597 and
    1197 and last 603, 603 and 303 seconds.  In general every returned chunk
    of loop index [i] starts at 0 when [i = 0] and at [i*L - O] otherwise,
    lasts [L + O] when it is not the last index and [D] minus its start when
    it is. *)
Theorem chunk_windows_1500_600_3 :
  (forall w : world,
      file_exists w = true ->
      total_duration w = 1500 ->
      (forall i, ffmpeg_ok w i = true) ->
      exists chunks,
        split_audio w 600 3 = Ok chunks /\
        map index chunks = [0; 1; 2]%nat /\
        map actual_start_time chunks = [0; 597; 1197] /\
        map duration_seconds chunks = [603; 603; 303])
  /\
  (forall (w : world) (L O : Q) (chunks : list chunk_info) (c : chunk_info),
      split_audio w L O = Ok chunks ->
      In c chunks ->
      let N := ceil (total_duration w / L) in
      (Z.of_nat (index c) < N)%Z /\
      actual_start_time c
      = (if Nat.eqb (index c) 0 then 0 else of_nat (index c) * L - O) /\
      duration_seconds c
      = (if (Z.of_nat (index c) <? N - 1)%Z then L + O
         else total_duration w - actual_start_time c)).
Proof.
  split.
  - intros w Hex HD Hff.
    rewrite split_audio_windows by (rewrite ?HD; (assumption || discriminate)).
    eexists. split; [reflexivity|].
    unfold range, ceil, kept, window, duration, start_time.
    rewrite HD.
    change (Z.to_nat (Qceiling (1500 / 600))) with 3%nat.
    cbn [seq filter]. rewrite !Hff.
    repeat split.
  - intros w L O chunks c H Hin N.
    destruct (split_audio_inv _ _ _ _ H) as [-> | (Hex & HL & ->)];
      [contradiction|].
    apply in_map_iff in Hin. destruct Hin as (i & <- & Hi).
    apply filter_In in Hi. destruct Hi as [Hi _].
    apply in_seq in Hi. fold N.
    split; [|split].
    + simpl. unfold range in Hi. lia.
    + reflexivity.
    + reflexivity.
Qed.

Lemma chunk_windows_1500_600_3_witness :
  (exists chunks,
      split_audio world_1500 600 3 = Ok chunks /\
      map index chunks = [0; 1; 2]%nat /\
      map actual_start_time chunks = [0; 597; 1197] /\
      map duration_seconds chunks = [603; 603; 303])
  /\
  (let c := {| index := 1; start_offset_seconds := 600;
               duration_seconds := 603; actual_start_time := 597 |} in
   (Z.of_nat (index c) < 3)%Z /\
   actual_start_time c = 1 * 600 - 3 /\
   duration_seconds c = 600 + 3).
Proof.
  destruct chunk_windows_1500_600_3 as [H1 H2].
  split.
  - apply (H1 world_1500); reflexivity.
  - apply (H2 world_1500 600 3
             [ {| index := 0; start_offset_seconds := 0;
                  duration_seconds := 603; actual_start_time := 0 |};
               {| index := 1; start_offset_seconds := 600;
                  duration_seconds := 603; actual_start_time := 597 |};
               {| index := 2; start_offset_seconds := 1200;
                  duration_seconds := 303; actual_start_time := 1197 |} ]).
    + reflexivity.
    + simpl. auto.
Defined.

Section CoverFacts.
Import Py SplitPodcast Spec.
Local Open Scope Q_scope.

Lemma of_nat_S (i : nat) : of_nat (S i) == of_nat i + 1.
Proof.
  unfold of_nat. rewrite Nat2Z.inj_succ. unfold Z.succ.
  rewrite inject_Z_plus. reflexivity.
Qed.

Lemma of_nat_nonneg (i : nat) : 0 <= of_nat i.
Proof.
  unfold of_nat. change 0 with (inject_Z 0). rewrite <- Zle_Qle. lia.
Qed.

Lemma filter_all {A : Type} (f : A -> bool) (l : list A) :
  (forall a, In a l -> f a = true) -> filter f l = l.
Proof.
  induction l as [|a l IH]; intro H; simpl; [reflexivity|].
  rewrite (H a) by (left; reflexivity).
  f_equal. apply IH. intros b Hb. apply H. right. exact Hb.
Qed.

Variable w : world.
Variables L O : Q.
Hypothesis Hex : file_exists w = true.
Hypothesis Hff : forall i, ffmpeg_ok w i = true.
Hypothesis HD : 0 < total_duration w.
Hypothesis HL : 0 < L.
Hypothesis HO : 0 <= O.
Hypothesis HLO : 1 <= L + O.

Let D := total_duration w.
Let N := ceil (D / L).

Lemma num_chunks_pos : (1 <= N)%Z.
Proof.
  assert (H : 0 < D / L).
  { apply Qlt_shift_div_l; [exact HL|]. rewrite Qmult_0_l. exact HD. }
  assert (H' : 0 < inject_Z N).
  { eapply Qlt_le_trans; [exact H|]. apply Qle_ceiling. }
  change 0 with (inject_Z 0) in H'. rewrite <- Zlt_Qlt in H'. lia.
Qed.

(** All the loop indices before the last lie strictly inside [D]. *)
Lemma before_last_inside : inject_Z (N - 1) * L < D.
Proof.
  assert (H : inject_Z (N - 1) < D / L) by apply Qceiling_lt.
  apply (Qmult_lt_r _ _ L HL) in H.
  assert (E : D / L * L == D).
  { rewrite Qmult_comm. apply Qmult_div_r.
    intro E. rewrite E in HL. discriminate. }
  rewrite E in H. exact H.
Qed.

Lemma kept_before_last (i : nat) : (Z.of_nat i < N - 1)%Z -> kept w L O N i = true.
Proof.
  intro Hi. unfold kept. rewrite Hff, andb_true_r.
  apply negb_true_iff, ltb_ge. unfold duration.
  apply Z.ltb_lt in Hi. fold D. fold N. rewrite Hi. exact HLO.
Qed.

(** The produced chunks are the windows of an initial run of loop indices:
    all of them, or all but the last. *)
Lemma produced_is_prefix :
  exists m : nat,
    split_audio w L O = Ok (map (window w L O N) (seq 0 m)) /\
    (m = Z.to_nat N \/ (m = Z.to_nat (N - 1) /\ kept w L O N (Z.to_nat (N - 1)) = false)) /\
    (kept w L O N (Z.to_nat (N - 1)) = true -> m = Z.to_nat N).
Proof.
  pose proof num_chunks_pos as HN.
  assert (HL0 : ~ L == 0) by (intro E; rewrite E in HL; discriminate).
  rewrite (split_audio_windows w L O Hex HL0). fold D. fold N.
  unfold range.
  replace (Z.to_nat N) with (S (Z.to_nat (N - 1))) by lia.
  rewrite seq_S, filter_app. simpl.
  rewrite (filter_all (kept w L O N)).
  2:{ intros a Ha. apply in_seq in Ha. apply kept_before_last. lia. }
  destruct (kept w L O N (Z.to_nat (N - 1))) eqn:E.
  - exists (S (Z.to_nat (N - 1))). rewrite seq_S. simpl. auto.
  - exists (Z.to_nat (N - 1)). rewrite app_nil_r. split; [reflexivity|].
    split; [right; auto|discriminate].
Qed.

Lemma nth_window (m i : nat) (c : chunk_info) :
  nth_error (map (window w L O N) (seq 0 m)) i = Some c ->
  (i < m)%nat /\ c = window w L O N i.
Proof.
  intro H. assert (Hi : (i < m)%nat).
  { assert (Hn : nth_error (map (window w L O N) (seq 0 m)) i <> None)
      by congruence.
    apply nth_error_Some in Hn. now rewrite length_map, length_seq in Hn. }
  split; [exact Hi|].
  rewrite nth_error_map, nth_error_seq in H.
  apply Nat.ltb_lt in Hi. rewrite Hi in H. simpl in H. congruence.
Qed.

Lemma windows_no_gap (m : nat) :
  (Z.of_nat m <= N)%Z -> no_gap (map (window w L O N) (seq 0 m)).
Proof.
  intros Hm i c1 c2 H1 H2.
  apply nth_window in H1. destruct H1 as [_ ->].
  apply nth_window in H2. destruct H2 as [Hi ->].
  unfold chunk_end, window, duration, start_time. simpl.
  assert (Hlt : (Z.of_nat i <? N - 1)%Z = true) by (apply Z.ltb_lt; lia).
  fold D. rewrite Hlt. rewrite of_nat_S.
  pose proof (of_nat_nonneg i) as Hi0.
  destruct i as [|i]; simpl.
  - unfold of_nat. simpl. change (inject_Z 0) with 0.
    lra.
  - lra.
Qed.

Lemma last_window_ends (m : nat) :
  m = Z.to_nat N -> ends_at D (map (window w L O N) (seq 0 m)).
Proof.
  pose proof num_chunks_pos as HN. intros ->.
  exists (window w L O N (Z.to_nat N - 1)).
  rewrite length_map, length_seq. split; [|split].
  - rewrite nth_error_map, nth_error_seq.
    replace (Z.to_nat N - 1 <? Z.to_nat N)%nat with true
      by (symmetry; apply Nat.ltb_lt; lia).
    reflexivity.
  - replace (Z.to_nat N) with (S (Z.to_nat N - 1)) by lia.
    rewrite seq_S, map_app. intro E. apply app_eq_nil in E.
    destruct E as [_ E]. discriminate.
  - unfold chunk_end, window, duration. simpl.
    replace (Z.of_nat (Z.to_nat N - 1) <? N - 1)%Z with false
      by (symmetry; apply Z.ltb_ge; lia).
    fold D. ring.
Qed.

(** With an overlap of at least one second the last window is never below
    one second. *)
Lemma last_window_long : 1 <= D -> 1 <= O -> kept w L O N (Z.to_nat (N - 1)) = true.
Proof.
  intros HD1 HO1. pose proof num_chunks_pos as HN.
  pose proof before_last_inside as Hin.
  unfold kept. rewrite Hff, andb_true_r.
  apply negb_true_iff, ltb_ge. unfold duration. fold D.
  replace (Z.of_nat (Z.to_nat (N - 1)) <? N - 1)%Z with false
    by (symmetry; apply Z.ltb_ge; lia).
  unfold start_time, of_nat.
  destruct (Nat.eqb (Z.to_nat (N - 1)) 0) eqn:E.
  - lra.
  - rewrite Z2Nat.id by lia. lra.
Qed.
(** A last window below one second is dropped: the produced chunks are the
    windows of all the loop indices before the last. *)
Lemma produced_when_dropped :
  kept w L O N (Z.to_nat (N - 1)) = false ->
  split_audio w L O = Ok (map (window w L O N) (seq 0 (Z.to_nat (N - 1)))).
Proof.
  intro E. pose proof num_chunks_pos as HN.
  assert (HL0 : ~ L == 0) by (intro E'; rewrite E' in HL; discriminate).
  rewrite (split_audio_windows w L O Hex HL0). fold D. fold N.
  unfold range.
  replace (Z.to_nat N) with (S (Z.to_nat (N - 1))) by lia.
  rewrite seq_S, filter_app. simpl.
  rewrite (filter_all (kept w L O N)).
  2:{ intros a Ha. apply in_seq in Ha. apply kept_before_last. lia. }
  rewrite E, app_nil_r. reflexivity.
Qed.

(** The windows before the last end at [D] in one case only: there are two
    windows and [D = L + O]. *)
Lemma before_last_ends :
  ends_at D (map (window w L O N) (seq 0 (Z.to_nat (N - 1))))
  <-> N = 2%Z /\ D == L + O.
Proof.
  pose proof num_chunks_pos as HN. pose proof before_last_inside as Hin.
  split.
  - intros (c & Hc & Hne & Hend).
    rewrite length_map, length_seq in Hc.
    apply nth_window in Hc. destruct Hc as [Hlt ->].
    unfold chunk_end, window, duration, start_time in Hend. simpl in Hend.
    fold D in Hend.
    replace (Z.of_nat (Z.to_nat (N - 1) - 1) <? N - 1)%Z with true in Hend
      by (symmetry; apply Z.ltb_lt; lia).
    destruct (Nat.eqb (Z.to_nat (N - 1) - 1) 0) eqn:E.
    + apply Nat.eqb_eq in E. split; [lia|]. rewrite <- Hend. ring.
    + apply Nat.eqb_neq in E. exfalso.
      assert (Hof : of_nat (Z.to_nat (N - 1) - 1) == inject_Z (N - 1) - 1).
      { unfold of_nat.
        replace (Z.of_nat (Z.to_nat (N - 1) - 1)) with (N - 1 + - (1))%Z
          by lia.
        rewrite inject_Z_plus. reflexivity. }
      rewrite Hof in Hend.
      assert (Hd : inject_Z (N - 1) * L == D) by (rewrite <- Hend; ring).
      rewrite Hd in Hin. apply (Qlt_irrefl D Hin).
  - intros [HN2 HDL].
    replace (Z.to_nat (N - 1)) with 1%nat by lia. simpl.
    exists (window w L O N 0). split; [reflexivity|].
    split; [discriminate|].
    unfold chunk_end, window, duration, start_time. simpl.
    replace (0 <? N - 1)%Z with true by (symmetry; apply Z.ltb_lt; lia).
    rewrite HDL. ring.
Qed.
End CoverFacts.

(** C5, as stated, fails: with [D = 600.5], [L = 600] and [O = 0] the
    second window lasts half a second and is dropped, so the only produced
    chunk ends at 600 and not at [D]. *)
Lemma chunker_cover_counterexample :
  0 < total_duration world_half /\
  split_audio world_half 600 0
  = Ok [ {| index := 0; start_offset_seconds := 0;
            duration_seconds := 600; actual_start_time := 0 |} ] /\
  ~ covers world_half 600 0.
Proof.
  split; [reflexivity|]. split; [reflexivity|].
  intros (chunks & H & _ & c & Hnth & _ & Hend).
  vm_compute in H. injection H as <-.
  simpl in Hnth. injection Hnth as <-.
  vm_compute in Hend. discriminate.
Qed.

(** C5, amended.  For [D > 0], [L > 0], [O >= 0] and [L + O >= 1], with
    every media invocation succeeding, the chunker returns a list of chunks
    in which the first chunk starts at 0 and every later chunk starts at or
    before the end of the chunk before it; when the last window lasts at
    least one second, which is the case whenever [D >= 1] and [O >= 1], it
    is produced and ends at [D] exactly, so the windows cover [[0, D]].
    When the last window is shorter than one second it is dropped: the
    chunks produced are the windows before it, and the last of them ends
    at [D] in one case only, that of two windows with [D = L + O]. *)
Theorem chunker_cover_amended (w : world) (L O : Q) :
  file_exists w = true ->
  (forall i, ffmpeg_ok w i = true) ->
  0 < total_duration w -> 0 < L -> 0 <= O -> 1 <= L + O ->
  let D := total_duration w in
  let N := ceil (D / L) in
  exists chunks : list chunk_info,
    split_audio w L O = Ok chunks /\
    no_gap chunks /\
    (forall c, nth_error chunks 0 = Some c -> actual_start_time c = 0) /\
    (1 <= duration D L O N (Z.to_nat (N - 1)) -> covers w L O) /\
    (1 <= D -> 1 <= O -> covers w L O) /\
    (duration D L O N (Z.to_nat (N - 1)) < 1 ->
     chunks = map (window w L O N) (seq 0 (Z.to_nat (N - 1))) /\
     (ends_at D chunks <-> N = 2%Z /\ D == L + O)).
Proof.
  intros Hex Hff HD HL HO HLO D N.
  destruct (produced_is_prefix w L O Hex Hff HD HL HLO) as (m & Hs & Hm & Hk).
  fold D in Hs, Hm, Hk. fold N in Hs, Hm, Hk.
  pose proof (num_chunks_pos w L HD HL) as HN. fold D in HN. fold N in HN.
  assert (Hgap : no_gap (map (window w L O N) (seq 0 m))).
  { apply windows_no_gap; try assumption. fold D. fold N.
    destruct Hm as [-> | [-> _]]; lia. }
  assert (Hcov : kept w L O N (Z.to_nat (N - 1)) = true -> covers w L O).
  { intro E. exists (map (window w L O N) (seq 0 m)).
    split; [exact Hs|]. split; [exact Hgap|].
    apply last_window_ends; try assumption. apply Hk, E. }
  exists (map (window w L O N) (seq 0 m)).
  split; [exact Hs|]. split; [exact Hgap|]. split; [|split; [|split]].
  - intros c Hc. apply nth_window in Hc. destruct Hc as [_ ->]. reflexivity.
  - intro Hdur. apply Hcov. unfold kept. rewrite Hff, andb_true_r.
    apply negb_true_iff, ltb_ge. exact Hdur.
  - intros HD1 HO1. apply Hcov.
    apply last_window_long; assumption.
  - intro Hshort.
    assert (E : kept w L O N (Z.to_nat (N - 1)) = false).
    { unfold kept. apply andb_false_iff. left.
      apply negb_false_iff, ltb_lt. exact Hshort. }
    pose proof (produced_when_dropped w L O Hex Hff HD HL HLO E) as Hd.
    fold D in Hd. fold N in Hd. rewrite Hs in Hd. injection Hd as Hd.
    rewrite Hd. split; [reflexivity|].
    apply (before_last_ends w L O HD HL).
Qed.

Lemma chunker_cover_amended_witness :
  exists chunks : list chunk_info,
    split_audio world_1500 600 3 = Ok chunks /\
    no_gap chunks /\
    (forall c, nth_error chunks 0 = Some c -> actual_start_time c = 0) /\
    (1 <= duration 1500 600 3 3 2 -> covers world_1500 600 3) /\
    (1 <= 1500 -> 1 <= 3 -> covers world_1500 600 3) /\
    (duration 1500 600 3 3 2 < 1 ->
     chunks = map (window world_1500 600 3 3) (seq 0 2) /\
     (ends_at 1500 chunks <-> 3%Z = 2%Z /\ 1500 == 600 + 3)).
Proof.
  apply (chunker_cover_amended world_1500 600 3).
  - reflexivity.
  - intro i. reflexivity.
  - reflexivity.
  - reflexivity.
  - discriminate.
  - discriminate.
Defined.

(** ** The stable sort *)

Section SortFacts.
Import Py Spec.
Local Open Scope Q_scope.

Variable A : Type.
Variable key : A -> Q.

Lemma insert_perm (x : A) (l : list A) : Permutation (insert key x l) (x :: l).
Proof.
  induction l as [|y r IH]; simpl; [reflexivity|].
  destruct (ltb (key y) (key x)).
  - rewrite IH. apply perm_swap.
  - reflexivity.
Qed.

Lemma sort_perm (l : list A) : Permutation (sort key l) l.
Proof.
  induction l as [|x l IH]; simpl; [reflexivity|].
  rewrite insert_perm. now constructor.
Qed.

Lemma insert_hd (x y : A) (l : list A) :
  key_le key y x -> HdRel (key_le key) y l -> HdRel (key_le key) y (insert key x l).
Proof.
  intros Hyx Hl. destruct l as [|z r]; simpl.
  - constructor. exact Hyx.
  - destruct (ltb (key z) (key x)); constructor.
    + inversion Hl; assumption.
    + exact Hyx.
Qed.

Lemma insert_sorted (x : A) (l : list A) :
  Sorted (key_le key) l -> Sorted (key_le key) (insert key x l).
Proof.
  induction 1 as [|y r Hr IH Hhd]; simpl.
  - repeat constructor.
  - destruct (ltb (key y) (key x)) eqn:E.
    + constructor; [exact IH|].
      apply insert_hd; [|exact Hhd].
      apply ltb_lt in E. apply Qlt_le_weak. exact E.
    + apply ltb_ge in E. repeat constructor; assumption.
Qed.

Lemma sort_sorted (l : list A) : Sorted (key_le key) (sort key l).
Proof.
  induction l as [|x l IH]; simpl; [constructor|].
  apply insert_sorted. exact IH.
Qed.

Lemma sort_strongly_sorted (l : list A) : StronglySorted (key_le key) (sort key l).
Proof.
  apply Sorted_StronglySorted; [|apply sort_sorted].
  intros a b c Hab Hbc. unfold key_le in *. eapply Qle_trans; eassumption.
Qed.

(** Insertion puts an element in front of the elements with an equal key. *)
Lemma insert_stable (k : Q) (x : A) (l : list A) :
  filter (fun a => Qeq_bool (key a) k) (insert key x l)
  = filter (fun a => Qeq_bool (key a) k) (x :: l).
Proof.
  induction l as [|y r IH]; [reflexivity|].
  simpl insert. destruct (ltb (key y) (key x)) eqn:E; [|reflexivity].
  apply ltb_lt in E.
  cbn [filter] in *. rewrite IH.
  destruct (Qeq_bool (key x) k) eqn:Ex; [|reflexivity].
  destruct (Qeq_bool (key y) k) eqn:Ey; [|reflexivity].
  apply Qeq_bool_iff in Ex, Ey. rewrite Ex, Ey in E.
  exfalso. apply (Qlt_irrefl k E).
Qed.

(** The sort is stable: the elements of any one key keep their order. *)
Lemma sort_stable (k : Q) (l : list A) :
  filter (fun a => Qeq_bool (key a) k) (sort key l)
  = filter (fun a => Qeq_bool (key a) k) l.
Proof.
  induction l as [|x l IH]; [reflexivity|].
  simpl sort. rewrite insert_stable. cbn [filter]. now rewrite IH.
Qed.
End SortFacts.

Section StableUnique.
Import Py Spec.
Local Open Scope Q_scope.
Variable A : Type.
Variable key : A -> Q.

Let at_key (k : Q) (l : list A) : list A :=
  filter (fun a => Qeq_bool (key a) k) l.

Lemma at_key_head (x : A) (l : list A) :
  at_key (key x) (x :: l) = x :: at_key (key x) l.
Proof.
  unfold at_key. cbn [filter].
  replace (Qeq_bool (key x) (key x)) with true; [reflexivity|].
  symmetry. apply Qeq_bool_iff. reflexivity.
Qed.

(** Two sorted lists in which the elements of every key appear in the same
    order are equal: a stable sort has only one possible result. *)
Lemma stable_sorted_unique (l1 l2 : list A) :
  StronglySorted (key_le key) l1 ->
  StronglySorted (key_le key) l2 ->
  (forall k, at_key k l1 = at_key k l2) ->
  l1 = l2.
Proof.
  intro H1. revert l2.
  induction H1 as [|x r1 Hr1 IH Hx]; intros l2 H2 Heq.
  - destruct l2 as [|y r2]; [reflexivity|].
    specialize (Heq (key y)). rewrite at_key_head in Heq. discriminate.
  - destruct l2 as [|y r2].
    { specialize (Heq (key x)). rewrite at_key_head in Heq. discriminate. }
    inversion H2 as [|? ? Hr2 Hy]; subst.
    destruct (Qeq_bool (key y) (key x)) eqn:E.
    + assert (Hxy : x = y).
      { pose proof (Heq (key x)) as Hk. rewrite at_key_head in Hk.
        unfold at_key in Hk. cbn [filter] in Hk. rewrite E in Hk.
        congruence. }
      subst y. f_equal. apply IH; [exact Hr2|].
      intro k. specialize (Heq k). unfold at_key in *. cbn [filter] in Heq.
      destruct (Qeq_bool (key x) k); congruence.
    + exfalso.
      assert (Hin : In x r2).
      { pose proof (Heq (key x)) as Hk. rewrite at_key_head in Hk.
        unfold at_key in Hk. cbn [filter] in Hk. rewrite E in Hk.
        assert (Hin : In x (filter (fun a => Qeq_bool (key a) (key x)) r2))
          by (rewrite <- Hk; left; reflexivity).
        apply filter_In in Hin. tauto. }
      assert (Hyx : key y <= key x).
      { rewrite Forall_forall in Hy. apply (Hy x Hin). }
      assert (Hin' : In y (x :: r1)).
      { pose proof (Heq (key y)) as Hk. rewrite (at_key_head y) in Hk.
        assert (Hin' : In y (at_key (key y) (x :: r1)))
          by (rewrite Hk; left; reflexivity).
        unfold at_key in Hin'. apply filter_In in Hin'. tauto. }
      destruct Hin' as [-> | Hin'].
      * assert (T : Qeq_bool (key y) (key y) = true)
          by (apply Qeq_bool_iff; reflexivity).
        congruence.
      * assert (Hxy : key x <= key y).
        { rewrite Forall_forall in Hx. apply (Hx y Hin'). }
        assert (T : Qeq_bool (key y) (key x) = true).
        { apply Qeq_bool_iff. apply Qle_antisym; assumption. }
        congruence.
Qed.

(** [sort] returns the one sorted list that keeps the order of the elements
    of every key. *)
Lemma sort_is_the_stable_sort (l l' : list A) :
  StronglySorted (key_le key) l' ->
  (forall k, at_key k l' = at_key k l) ->
  l' = sort key l.
Proof.
  intros Hs Hk. apply stable_sorted_unique; [exact Hs| |].
  - apply sort_strongly_sorted.
  - intro k. rewrite Hk. unfold at_key. symmetry. apply sort_stable.
Qed.
End StableUnique.

(** ** The segment merger *)

Section MergerFacts.
Import Py Segments TranscribePodcast Spec.
Local Open Scope Q_scope.

Lemma segment_body_survives (i : nat) (off O : Q) (acc : list segment)
    (seg : segment) :
  segment_body i off O acc seg
  = if survives O i seg then (acc ++ [shift off seg])%list else acc.
Proof.
  unfold segment_body, survives, shift.
  destruct ((0 <? i)%nat && ltb (start seg) O); reflexivity.
Qed.

Lemma chunk_body_contribution (O : Q) (acc : list segment)
    (ic : nat * chunk_data) :
  chunk_body O acc ic = (acc ++ contribution O ic)%list.
Proof.
  destruct ic as [i c]. unfold chunk_body, contribution. simpl.
  apply fold_left_app_filter. intros. apply segment_body_survives.
Qed.

Lemma fold_chunk_body (O : Q) (l : list (nat * chunk_data))
    (acc : list segment) :
  fold_left (chunk_body O) l acc = (acc ++ flat_map (contribution O) l)%list.
Proof.
  revert acc. induction l as [|ic l IH]; intro acc; simpl.
  - now rewrite app_nil_r.
  - rewrite IH, chunk_body_contribution. now rewrite <- app_assoc.
Qed.

(** The arrival order: the contributions of the chunks, in list order. *)
Lemma collect_contributions (chunks_data : list chunk_data) (O : Q) :
  collect chunks_data O = flat_map (contribution O) (enumerate chunks_data).
Proof. unfold collect. now rewrite fold_chunk_body. Qed.

Lemma in_enumerate {B : Type} (l : list B) (i : nat) (b : B) :
  In (i, b) (enumerate l) <-> nth_error l i = Some b.
Proof.
  unfold enumerate.
  assert (G : forall (n : nat) (l : list B),
             In (i, b) (combine (seq n (List.length l)) l)
             <-> (n <= i)%nat /\ nth_error l (i - n) = Some b).
  { clear l. intros n l. revert n.
    induction l as [|a l IH]; intro n; simpl.
    - split; [contradiction|]. intros [_ H].
      destruct (i - n)%nat; discriminate.
    - rewrite IH. split.
      + intros [H | [H1 H2]].
        * injection H as -> ->. rewrite Nat.sub_diag. auto.
        * split; [lia|]. replace (i - n)%nat with (S (i - S n)) by lia.
          exact H2.
      + intros [H1 H2]. destruct (Nat.eq_dec n i) as [-> | Hne].
        * rewrite Nat.sub_diag in H2. simpl in H2. left. congruence.
        * right. split; [lia|].
          replace (i - n)%nat with (S (i - S n)) in H2 by lia. exact H2. }
  rewrite G, Nat.sub_0_r. split; [tauto|]. split; [lia|assumption].
Qed.
End MergerFacts.

Import Segments TranscribePodcast.

(** C1. The merged segments are, up to the final ordering, the segments of
    every chunk shifted by that chunk's offset, where a chunk after the
    first contributes exactly its segments whose chunk-local start is not
    below the overlap: a segment is in the merged output if and only if it
    is the shifted copy of a segment of the first chunk, or of a segment of
    a later chunk with chunk-local start at least [overlap_seconds]. *)
Theorem merge_shifts_and_drops_overlap (chunks_data : list chunk_data)
    (overlap_seconds : Q) :
  Permutation
    (segments (merge_transcripts chunks_data overlap_seconds))
    (flat_map (contribution overlap_seconds) (enumerate chunks_data))
  /\
  (forall (i : nat) (c : chunk_data),
      contribution overlap_seconds (i, c)
      = map (shift (start_offset_seconds c))
          (if (0 <? i)%nat
           then filter (fun seg => negb (ltb (start seg) overlap_seconds))
                       (transcript_segments c)
           else transcript_segments c))
  /\
  (forall m : segment,
      In m (segments (merge_transcripts chunks_data overlap_seconds)) <->
      exists (i : nat) (c : chunk_data) (seg : segment),
        nth_error chunks_data i = Some c /\
        In seg (transcript_segments c) /\
        (i = 0%nat \/ overlap_seconds <= start seg) /\
        m = shift (start_offset_seconds c) seg).
Proof.
  assert (HP : Permutation
                 (segments (merge_transcripts chunks_data overlap_seconds))
                 (flat_map (contribution overlap_seconds)
                           (enumerate chunks_data))).
  { unfold merge_transcripts. simpl.
    rewrite sort_perm, collect_contributions. reflexivity. }
  split; [exact HP|]. split.
  - intros i c. unfold contribution, survives. simpl.
    destruct (0 <? i)%nat; simpl; [reflexivity|].
    f_equal. apply filter_all. reflexivity.
  - intro m. split.
    + intro Hin. apply (Permutation_in _ HP) in Hin.
      apply in_flat_map in Hin. destruct Hin as ([i c] & Hic & Hm).
      apply in_enumerate in Hic.
      unfold contribution in Hm. simpl in Hm.
      apply in_map_iff in Hm. destruct Hm as (seg & <- & Hseg).
      apply filter_In in Hseg. destruct Hseg as [Hseg Hsv].
      exists i, c, seg. repeat split; try assumption.
      unfold survives in Hsv. apply negb_true_iff, andb_false_iff in Hsv.
      destruct Hsv as [Hi | Hlt].
      * left. apply Nat.ltb_ge in Hi. lia.
      * right. apply ltb_ge. exact Hlt.
    + intros (i & c & seg & Hc & Hseg & Hkeep & ->).
      apply (Permutation_in _ (Permutation_sym HP)).
      apply in_flat_map. exists (i, c). split; [now apply in_enumerate|].
      unfold contribution. simpl. apply in_map. apply filter_In.
      split; [exact Hseg|]. unfold survives.
      apply negb_true_iff, andb_false_iff.
      destruct Hkeep as [-> | Hle]; [left; reflexivity|].
      right. apply ltb_ge. exact Hle.
Qed.

(** C1 on two chunks of offsets 0 and 597 with an overlap of 3: the
    segment of the second chunk that starts at chunk-local 3 is merged at
    600, the one that starts at chunk-local 1.5 is not merged. *)
Lemma merge_shifts_and_drops_overlap_witness :
  In {| start := 3 + 597; end_ := 5 + 597; text := "so"%string |}
     (segments (merge_transcripts boundary_chunks 3)) /\
  ~ In {| start := (3 # 2) + 597; end_ := 3 + 597; text := "and"%string |}
       (segments (merge_transcripts boundary_chunks 3)).
Proof.
  destruct (merge_shifts_and_drops_overlap boundary_chunks 3) as (_ & _ & H).
  split.
  - apply H.
    exists 1%nat,
      {| start_offset_seconds := 597;
         transcript_segments :=
           [ {| start := 3 # 2; end_ := 3; text := "and"%string |};
             {| start := 3; end_ := 5; text := "so"%string |} ] |},
      {| start := 3; end_ := 5; text := "so"%string |}.
    split; [reflexivity|]. split; [right; left; reflexivity|].
    split; [right; discriminate|reflexivity].
  - intro Hin. apply H in Hin.
    destruct Hin as (i & c & seg & Hc & Hseg & Hkeep & Hm).
    destruct i as [|[|i]]; simpl in Hc.
    + injection Hc as <-. simpl in Hseg.
      destruct Hseg as [<- | []]. discriminate Hm.
    + injection Hc as <-. simpl in Hseg.
      destruct Hseg as [<- | [<- | []]].
      * destruct Hkeep as [Hk | Hk]; [discriminate Hk|].
        apply Hk. reflexivity.
      * discriminate Hm.
    + destruct i; discriminate Hc.
Defined.

(** C8, as stated, fails on uniqueness: with the offsets the transcriber
    assigns (0 and 597 for an overlap of 3), a segment of the first chunk
    starting at 600 and a segment of the second starting at chunk-local 3
    both survive and both start at 600 after the merge. *)
Lemma merged_starts_not_distinct :
  segments (merge_transcripts boundary_chunks 3)
  = [ {| start := 600 + 0; end_ := 602 + 0; text := "so"%string |};
      {| start := 3 + 597; end_ := 5 + 597; text := "so"%string |} ] /\
  ~ distinct_starts (segments (merge_transcripts boundary_chunks 3)).
Proof.
  split; [reflexivity|].
  intro H.
  apply (H 0%nat 1%nat
           {| start := 600 + 0; end_ := 602 + 0; text := "so"%string |}
           {| start := 3 + 597; end_ := 5 + 597; text := "so"%string |});
    try reflexivity.
  discriminate.
Qed.

(** C8, amended.  The merged segments are in non-decreasing order of
    start; they are the surviving shifted segments in which segments of
    equal start keep the order in which they were appended; and the text
    is the texts of the segments in the final order, joined by spaces.
    Segments with identical starts may both remain. *)
Theorem merge_sorted_stable (chunks_data : list chunk_data)
    (overlap_seconds : Q) :
  let merged := merge_transcripts chunks_data overlap_seconds in
  StronglySorted (fun a b => start a <= start b) (segments merged) /\
  Permutation (segments merged) (collect chunks_data overlap_seconds) /\
  (forall k : Q,
      starting_at k (segments merged)
      = starting_at k (collect chunks_data overlap_seconds)) /\
  merged_text merged = join " " (map text (segments merged)).
Proof.
  unfold merge_transcripts. simpl. repeat split.
  - apply (sort_strongly_sorted segment start).
  - apply sort_perm.
  - intro k. apply (sort_stable segment start).
Qed.

(** ** The budget sampler *)

Section SamplerFacts.
Import Py Text Segments Spec.
Local Open Scope Q_scope.

Lemma len_append (a b : string) : len (a ++ b) = (len a + len b)%Z.
Proof.
  unfold len. induction a as [|c a IH]; simpl String.length.
  - reflexivity.
  - rewrite !Nat2Z.inj_succ in *. lia.
Qed.

Lemma append_nil_r (s : string) : (s ++ "")%string = s.
Proof. induction s as [|c s IH]; simpl; [reflexivity|now rewrite IH]. Qed.

Lemma join_empty_cons (s : string) (l : list string) :
  join "" (s :: l) = (s ++ join "" l)%string.
Proof.
  destruct l as [|t l]; simpl.
  - now rewrite append_nil_r.
  - reflexivity.
Qed.

Lemma join_empty_app (l1 l2 : list string) :
  join "" (l1 ++ l2) = (join "" l1 ++ join "" l2)%string.
Proof.
  induction l1 as [|s l1 IH].
  - reflexivity.
  - change ((s :: l1) ++ l2)%list with (s :: (l1 ++ l2))%list.
    rewrite !join_empty_cons, IH.
    clear IH. induction s as [|c s IHs]; simpl; [reflexivity|].
    now rewrite IHs.
Qed.

Lemma fold_render_body (segs : list segment) (acc : list string) (t : Z) :
  fold_left render_body segs (acc, t)
  = ((acc ++ map line segs)%list,
     (t + len (join "" (map line segs)))%Z).
Proof.
  revert acc t. induction segs as [|seg segs IH]; intros acc t.
  - simpl. rewrite app_nil_r. f_equal. unfold len. simpl. lia.
  - cbn [fold_left map]. unfold render_body at 2. rewrite IH.
    rewrite join_empty_cons, len_append, <- app_assoc.
    f_equal. lia.
Qed.

(** The renderer returns the lines of the segments and the length of the
    full rendering. *)
Lemma render_all_lines (segs : list segment) :
  render_all segs = (map line segs, len (full_rendering segs)).
Proof. unfold render_all. now rewrite fold_render_body. Qed.

Lemma total_length_full (segs : list segment) :
  total_length segs = len (full_rendering segs).
Proof. unfold total_length. now rewrite render_all_lines. Qed.

Lemma len_nonneg (s : string) : (0 <= len s)%Z.
Proof. unfold len. lia. Qed.

Lemma line_len_pos (seg : segment) : (1 <= len (line seg))%Z.
Proof.
  unfold line. rewrite len_append.
  pose proof (len_nonneg (format_1f (start seg) ++ "-"
                ++ format_1f (end_ seg) ++ "] " ++ text seg ++ nl)).
  change (len "[") with 1%Z. lia.
Qed.

(** Every line has at least one character, so the total is at least the
    number of segments. *)
Lemma total_length_ge_count (segs : list segment) :
  (Z.of_nat (List.length segs) <= total_length segs)%Z.
Proof.
  rewrite total_length_full. unfold full_rendering.
  induction segs as [|seg segs IH].
  - simpl. unfold len. simpl. lia.
  - cbn [map List.length]. rewrite join_empty_cons, len_append.
    pose proof (line_len_pos seg). lia.
Qed.

Lemma py_int_small (q : Q) : -1 < q -> q < 1 -> py_int q = 0%Z.
Proof.
  intros Hlo Hhi. unfold py_int.
  destruct (Qle_bool 0 q) eqn:E.
  - apply Qle_bool_iff in E.
    pose proof (Qfloor_le q) as H1. pose proof (Qlt_floor q) as H2.
    assert (G1 : inject_Z (Qfloor q) < inject_Z 1)
      by (eapply Qle_lt_trans; eassumption).
    assert (G2 : inject_Z 0 < inject_Z (Qfloor q + 1))
      by (eapply Qle_lt_trans; eassumption).
    rewrite <- Zlt_Qlt in G1, G2. lia.
  - assert (Hneg : q < 0).
    { apply Qnot_le_lt. intro H. apply Qle_bool_iff in H. congruence. }
    pose proof (Qle_ceiling q) as H1. pose proof (Qceiling_lt q) as H2.
    assert (G1 : inject_Z (-1) < inject_Z (Qceiling q))
      by (eapply Qlt_le_trans; eassumption).
    assert (G2 : inject_Z (Qceiling q - 1) < inject_Z 0)
      by (eapply Qlt_trans; eassumption).
    rewrite <- Zlt_Qlt in G1, G2. lia.
Qed.

Variable segs : list segment.
Hypothesis Hne : segs <> [].

Lemma count_pos : 0 < inject_Z (Z.of_nat (List.length segs)).
Proof.
  change 0 with (inject_Z 0). rewrite <- Zlt_Qlt.
  destruct segs; [contradiction|]. simpl List.length. lia.
Qed.

Lemma average_ge_one : 1 <= average_line_length segs.
Proof.
  unfold average_line_length.
  apply Qle_shift_div_l; [apply count_pos|].
  rewrite Qmult_1_l. rewrite <- Zle_Qle. apply total_length_ge_count.
Qed.

Lemma average_le_total :
  average_line_length segs <= inject_Z (total_length segs).
Proof.
  unfold average_line_length.
  apply Qle_shift_div_r; [apply count_pos|].
  pose proof (total_length_ge_count segs) as H.
  assert (H0 : 0 <= inject_Z (total_length segs)).
  { change 0 with (inject_Z 0). rewrite <- Zle_Qle.
    rewrite total_length_full. apply len_nonneg. }
  assert (H1 : 1 <= inject_Z (Z.of_nat (List.length segs))).
  { change 1 with (inject_Z 1). rewrite <- Zle_Qle.
    destruct segs; [contradiction|]. simpl List.length. lia. }
  nra.
Qed.

(** A budget below the average line length makes [segments_to_include]
    zero, and the division that computes [step] raises. *)
Lemma sample_evenly_small_budget (max_chars : Z) :
  (0 <= max_chars)%Z ->
  inject_Z max_chars < average_line_length segs ->
  sample_evenly segs max_chars (total_length segs) = Raise ZeroDivisionError.
Proof.
  intros H0 Hlt. unfold sample_evenly.
  pose proof count_pos as Hn. pose proof average_ge_one as Havg.
  rewrite div_ok by (intro E; lra).
  fold (average_line_length segs). cbn [bind].
  rewrite div_ok by (intro E; lra).
  cbn [bind].
  assert (Hq : py_int (inject_Z max_chars / average_line_length segs) = 0%Z).
  { apply py_int_small.
    - apply Qlt_le_trans with 0; [reflexivity|].
      apply Qle_shift_div_l; [lra|]. rewrite Qmult_0_l.
      change 0 with (inject_Z 0). rewrite <- Zle_Qle. exact H0.
    - apply Qlt_shift_div_r; [lra|]. rewrite Qmult_1_l. exact Hlt. }
  rewrite Hq. rewrite div_zero by reflexivity. reflexivity.
Qed.

Lemma small_budget_below_total (max_chars : Z) :
  inject_Z max_chars < average_line_length segs ->
  (max_chars < total_length segs)%Z.
Proof.
  intro H. rewrite Zlt_Qlt.
  eapply Qlt_le_trans; [exact H|apply average_le_total].
Qed.

Lemma small_budget_raises (max_chars : Z) (sample_rate : Q) :
  ltb sample_rate 1 = false ->
  (0 <= max_chars)%Z ->
  inject_Z max_chars < average_line_length segs ->
  snd (GenerateChapters.prepare_segments_for_gpt segs max_chars sample_rate)
  = Raise ZeroDivisionError /\
  snd (TranscribePodcast._prepare_segments_for_gpt segs max_chars)
  = Raise ZeroDivisionError.
Proof.
  intros Hr H0 Hlt.
  pose proof (small_budget_below_total _ Hlt) as Hover.
  pose proof (sample_evenly_small_budget _ H0 Hlt) as Hs.
  assert (Hle : (total_length segs <=? max_chars)%Z = false)
    by (apply Z.leb_gt; exact Hover).
  unfold total_length in *.
  split.
  - unfold GenerateChapters.prepare_segments_for_gpt. rewrite Hr.
    cbn [ret iobind app].
    destruct (render_all segs) as [full total] eqn:Er. simpl in Hle, Hs.
    rewrite Hle. cbn [print iobind lift]. rewrite Hs. reflexivity.
  - unfold TranscribePodcast._prepare_segments_for_gpt.
    destruct (render_all segs) as [full total] eqn:Er. simpl in Hle, Hs.
    rewrite Hle. cbn [print iobind lift]. rewrite Hs. reflexivity.
Qed.
End SamplerFacts.

Section EvenSample.
Import Py Text Segments Spec.
Local Open Scope Q_scope.

Variable segs : list segment.

Lemma getitem_in_range (idx : Z) :
  (0 <= idx < Z.of_nat (List.length segs))%Z ->
  exists seg, getitem segs idx = Ok seg /\
              nth_error segs (Z.to_nat idx) = Some seg.
Proof.
  intros [H0 H1]. unfold getitem.
  replace (idx <? 0)%Z with false by (symmetry; apply Z.ltb_ge; lia).
  replace (idx <? 0)%Z with false by (symmetry; apply Z.ltb_ge; lia).
  destruct (nth_error segs (Z.to_nat idx)) as [seg|] eqn:E.
  - exists seg. auto.
  - apply nth_error_None in E. lia.
Qed.

Lemma fold_sample_body (indices : list Z) (acc : list string) :
  Forall (fun idx => (0 <= idx < Z.of_nat (List.length segs))%Z) indices ->
  fold_left (sample_body segs) indices (Ok acc)
  = Ok (acc ++ flat_map (pick segs) indices)%list.
Proof.
  intro H. revert acc. induction H as [|idx l Hidx Hl IH]; intro acc.
  - simpl. now rewrite app_nil_r.
  - cbn [fold_left flat_map]. unfold sample_body at 2. cbn [bind].
    replace (idx <? Z.of_nat (List.length segs))%Z with true
      by (symmetry; apply Z.ltb_lt; lia).
    destruct (getitem_in_range idx Hidx) as (seg & -> & Hnth).
    cbn [bind]. rewrite IH.
    assert (Hp : pick segs idx = [line seg])
      by (unfold pick; now rewrite Hnth).
    rewrite Hp. now rewrite <- app_assoc.
Qed.

Hypothesis Hne : segs <> [].
Variable max_chars : Z.
Hypothesis Hfit : average_line_length segs <= inject_Z max_chars.
Hypothesis Hover : (max_chars < total_length segs)%Z.

Let n : Q := inject_Z (Z.of_nat (List.length segs)).
Let q : Q := inject_Z max_chars / average_line_length segs.
Let s : Z := py_int q.

Lemma quota_ge_one : 1 <= q.
Proof.
  pose proof (average_ge_one segs Hne) as Havg.
  unfold q. apply Qle_shift_div_l; [lra|]. rewrite Qmult_1_l. exact Hfit.
Qed.

Lemma include_floor : s = Qfloor q.
Proof.
  pose proof quota_ge_one as Hq. unfold s, py_int.
  replace (Qle_bool 0 q) with true; [reflexivity|].
  symmetry. apply Qle_bool_iff. lra.
Qed.

Lemma include_ge_one : (1 <= s)%Z.
Proof.
  rewrite include_floor. change 1%Z with (Qfloor 1).
  apply Qfloor_resp_le, quota_ge_one.
Qed.

Lemma include_le_quota : inject_Z s <= q.
Proof. rewrite include_floor. apply Qfloor_le. Qed.

Lemma index_in_range (k : nat) :
  (Z.of_nat k < s)%Z ->
  (0 <= py_int (inject_Z (Z.of_nat k) * (n / inject_Z s))
   < Z.of_nat (List.length segs))%Z.
Proof.
  intro Hk. pose proof include_ge_one as Hs.
  pose proof (count_pos segs Hne) as Hn. fold n in Hn.
  assert (Hs' : 0 < inject_Z s).
  { change 0 with (inject_Z 0). rewrite <- Zlt_Qlt. lia. }
  assert (Hk0 : 0 <= inject_Z (Z.of_nat k)).
  { change 0 with (inject_Z 0). rewrite <- Zle_Qle. lia. }
  assert (Hk' : inject_Z (Z.of_nat k) < inject_Z s)
    by (rewrite <- Zlt_Qlt; exact Hk).
  set (x := inject_Z (Z.of_nat k) * (n / inject_Z s)).
  assert (Hx : x == inject_Z (Z.of_nat k) * n / inject_Z s).
  { unfold x. field. intro E. rewrite E in Hs'. discriminate. }
  assert (Hx0 : 0 <= x).
  { rewrite Hx. apply Qle_shift_div_l; [exact Hs'|]. rewrite Qmult_0_l.
    apply Qmult_le_0_compat; [exact Hk0|lra]. }
  assert (Hxn : x < n).
  { rewrite Hx. apply Qlt_shift_div_r; [exact Hs'|].
    rewrite (Qmult_comm n). apply Qmult_lt_r; assumption. }
  unfold py_int. replace (Qle_bool 0 x) with true
    by (symmetry; apply Qle_bool_iff; exact Hx0).
  split.
  - change 0%Z with (Qfloor 0). apply Qfloor_resp_le. exact Hx0.
  - rewrite Zlt_Qlt. eapply Qle_lt_trans; [apply Qfloor_le|exact Hxn].
Qed.

(** When the budget is at least one average line and below the total, the
    sampler returns the note followed by the lines at the sampled indices;
    there are [segments_to_include <= max_chars / avg_line_length] indices,
    the first is 0 and all lie in [[0, segment_count)]. *)
Lemma sample_evenly_in_range :
  let indices := sampled_indices (n / inject_Z s) s in
  sample_evenly segs max_chars (total_length segs)
  = Ok (note s (List.length segs) :: flat_map (pick segs) indices, indices)
  /\ List.length indices = Z.to_nat s
  /\ (1 <= s)%Z
  /\ inject_Z s <= inject_Z max_chars / average_line_length segs
  /\ nth_error indices 0 = Some 0%Z
  /\ Forall (fun idx => (0 <= idx < Z.of_nat (List.length segs))%Z) indices.
Proof.
  intro indices.
  pose proof include_ge_one as Hs. pose proof include_le_quota as Hsq.
  pose proof (count_pos segs Hne) as Hn.
  pose proof (average_ge_one segs Hne) as Havg.
  assert (Hall : Forall (fun idx => (0 <= idx < Z.of_nat (List.length segs))%Z)
                        indices).
  { apply Forall_forall. intros idx Hin. unfold indices, sampled_indices in Hin.
    apply in_map_iff in Hin. destruct Hin as (k & <- & Hk).
    apply in_seq in Hk. apply index_in_range. unfold range in Hk. lia. }
  split; [|split; [|split; [|split; [|split]]]].
  - unfold sample_evenly.
    rewrite div_ok by (intro E; lra).
    fold (average_line_length segs). cbn [bind].
    rewrite div_ok by (intro E; lra).
    cbn [bind]. fold q. fold s. fold n.
    rewrite div_ok.
    2:{ intro E. unfold Qeq in E. simpl in E. lia. }
    cbn [bind]. fold indices.
    rewrite (fold_sample_body indices _ Hall). reflexivity.
  - unfold indices, sampled_indices, range.
    now rewrite length_map, length_seq.
  - exact Hs.
  - exact Hsq.
  - unfold indices, sampled_indices, range.
    replace (Z.to_nat s) with (S (Z.to_nat s - 1)) by lia.
    cbn [seq map nth_error]. reflexivity.
  - exact Hall.
Qed.
End EvenSample.

Section SamplerResults.
Import Py Text Segments Spec.
Local Open Scope Q_scope.

Variable segs : list segment.
Variable max_chars : Z.
Variable sample_rate : Q.
Hypothesis Hrate : ltb sample_rate 1 = false.

(** A rendering within the budget is returned whole, by both scripts. *)
Lemma sampler_full_when_fits :
  (total_length segs <= max_chars)%Z ->
  snd (GenerateChapters.prepare_segments_for_gpt segs max_chars sample_rate)
  = Ok (full_rendering segs) /\
  snd (TranscribePodcast._prepare_segments_for_gpt segs max_chars)
  = Ok (full_rendering segs).
Proof.
  intro Hle. apply Z.leb_le in Hle. rewrite total_length_full in Hle.
  unfold GenerateChapters.prepare_segments_for_gpt,
    TranscribePodcast._prepare_segments_for_gpt.
  rewrite Hrate. cbn [ret iobind app]. rewrite render_all_lines, Hle.
  split; reflexivity.
Qed.

(** Over the budget, with a budget of at least one average line, both
    scripts return the note and the lines at the selected indices. *)
Lemma sampler_sampled_when_over :
  segs <> [] ->
  average_line_length segs <= inject_Z max_chars ->
  (max_chars < total_length segs)%Z ->
  let out :=
    join "" (note (segments_to_include segs max_chars) (List.length segs)
             :: flat_map (pick segs) (selected segs max_chars)) in
  snd (GenerateChapters.prepare_segments_for_gpt segs max_chars sample_rate)
  = Ok out /\
  snd (TranscribePodcast._prepare_segments_for_gpt segs max_chars) = Ok out.
Proof.
  intros Hne Hfit Hover out.
  destruct (sample_evenly_in_range segs Hne max_chars Hfit) as [Hs _].
  fold (segments_to_include segs max_chars) in Hs.
  fold (selected segs max_chars) in Hs.
  apply Z.leb_gt in Hover.
  unfold total_length in Hs, Hover.
  unfold GenerateChapters.prepare_segments_for_gpt,
    TranscribePodcast._prepare_segments_for_gpt.
  rewrite Hrate. cbn [ret iobind app].
  destruct (render_all segs) as [full total]. simpl in Hs, Hover.
  rewrite Hover. cbn [print iobind lift]. rewrite Hs.
  split; reflexivity.
Qed.
End SamplerResults.

Import Text.

(** C10. There is an input of the sampler, a non-empty segment list over
    the budget with the budget below the average line length, on which
    both copies of the sampler raise [ZeroDivisionError]. *)
Theorem sampler_raises_zero_division :
  exists (segs : list segment) (B : Z),
    segs <> [] /\
    (B < total_length segs)%Z /\
    inject_Z B < average_line_length segs /\
    segments_to_include segs B = 0%Z /\
    snd (GenerateChapters.prepare_segments_for_gpt segs B 1)
    = Py.Raise Py.ZeroDivisionError /\
    snd (TranscribePodcast._prepare_segments_for_gpt segs B)
    = Py.Raise Py.ZeroDivisionError.
Proof.
  exists two_short_segments, 20%Z.
  assert (Hne : two_short_segments <> []) by discriminate.
  assert (Hlt : inject_Z 20 < average_line_length two_short_segments)
    by reflexivity.
  split; [exact Hne|]. split; [reflexivity|]. split; [exact Hlt|].
  split; [reflexivity|].
  apply (small_budget_raises two_short_segments Hne 20 1);
    [reflexivity|lia|exact Hlt].
Qed.

(** C6 at a failing input: one segment rendered in 22 characters with a
    budget of 21 is over the budget, and the sampler raises instead of
    returning a sample that starts at index 0. *)
Theorem sampler_no_sample_below_average :
  (21 < total_length one_segment)%Z /\
  snd (GenerateChapters.prepare_segments_for_gpt one_segment 21 1)
  = Py.Raise Py.ZeroDivisionError.
Proof. split; reflexivity. Qed.

(** C4 at a failing input: 1001 segments of 51 characters each with the
    default budget of 50000 yield a sampled rendering of 50044
    characters. *)
Theorem sampler_exceeds_budget :
  exists out : string,
    snd (GenerateChapters.prepare_segments_for_gpt
           thousand_and_one_segments 50000 1) = Py.Ok out /\
    snd (TranscribePodcast._prepare_segments_for_gpt
           thousand_and_one_segments 50000) = Py.Ok out /\
    len out = 50044%Z /\
    (50000 < len out)%Z.
Proof.
  assert (Hne : thousand_and_one_segments <> []) by discriminate.
  assert (Hfit : average_line_length thousand_and_one_segments
                 <= inject_Z 50000)
    by (apply Qle_bool_iff; vm_compute; reflexivity).
  assert (Hover : (50000 < total_length thousand_and_one_segments)%Z)
    by (vm_compute; reflexivity).
  destruct (sampler_sampled_when_over thousand_and_one_segments 50000 1
              eq_refl Hne Hfit Hover) as [H1 H2].
  eexists. split; [exact H1|]. split; [exact H2|].
  assert (Hlen : len (join ""
                   (note (segments_to_include thousand_and_one_segments 50000)
                         (List.length thousand_and_one_segments)
                    :: flat_map (pick thousand_and_one_segments)
                         (selected thousand_and_one_segments 50000)))
                 = 50044%Z)
    by (vm_compute; reflexivity).
  rewrite Hlen. split; [reflexivity|lia].
Qed.

(** ** The chapter planner *)

Section PlannerFacts.
Import Py Text Segments Json Spec GenerateChapters.
Local Open Scope Q_scope.

Lemma string_app_assoc (a b c : string) :
  ((a ++ b) ++ c)%string = (a ++ (b ++ c))%string.
Proof. induction a as [|x a IH]; simpl; [reflexivity|now rewrite IH]. Qed.

Lemma occurs_in_refl (s : string) : occurs_in s s.
Proof. exists ""%string, ""%string. simpl. now rewrite append_nil_r. Qed.

Lemma occurs_in_prefix (a b : string) : occurs_in a (a ++ b).
Proof. exists ""%string, b. reflexivity. Qed.

Lemma occurs_in_app (sub s p q : string) :
  occurs_in sub s -> occurs_in sub (p ++ s ++ q).
Proof.
  intros (pre & post & ->). exists (p ++ pre)%string, (post ++ q)%string.
  now rewrite !string_app_assoc.
Qed.

Lemma occurs_in_join (sep sub : string) (l : list string) :
  (exists s, In s l /\ occurs_in sub s) -> occurs_in sub (join sep l).
Proof.
  intros (s & Hin & Hs). induction l as [|t l IH]; [contradiction|].
  destruct Hin as [-> | Hin].
  - destruct l as [|u l]; [exact Hs|].
    change (join sep (s :: u :: l))
      with (s ++ sep ++ join sep (u :: l))%string.
    apply (occurs_in_app sub s "" _ Hs).
  - specialize (IH Hin). destruct l as [|u l]; [contradiction|].
    change (join sep (t :: u :: l))
      with (t ++ sep ++ join sep (u :: l))%string.
    rewrite <- string_app_assoc.
    pose proof (occurs_in_app sub _ (t ++ sep) "" IH) as H.
    now rewrite append_nil_r in H.
Qed.

(** [int(a / b)] on integers is the floor quotient whenever the quotient
    is not negative, and is not positive otherwise. *)
Lemma py_int_quotient (a b : Z) :
  let x := inject_Z a / inject_Z b in
  (0 <= x -> py_int x = (a / b)%Z) /\
  (x < 0 -> (py_int x <= 0)%Z /\ (a / b < 0)%Z).
Proof.
  intro x. split.
  - intro H. unfold py_int.
    replace (Qle_bool 0 x) with true by (symmetry; now apply Qle_bool_iff).
    unfold x. now rewrite <- Zdiv_Qdiv.
  - intro H. unfold py_int.
    replace (Qle_bool 0 x) with false.
    2:{ symmetry. destruct (Qle_bool 0 x) eqn:E; [|reflexivity].
        apply Qle_bool_iff in E. lra. }
    split.
    + assert (G : inject_Z (Qceiling x - 1) < inject_Z 0).
      { eapply Qlt_trans; [apply Qceiling_lt|exact H]. }
      rewrite <- Zlt_Qlt in G. lia.
    + rewrite Zdiv_Qdiv. fold x.
      assert (G : inject_Z (Qfloor x) < inject_Z 0).
      { eapply Qle_lt_trans; [apply Qfloor_le|exact H]. }
      rewrite <- Zlt_Qlt in G. exact G.
Qed.

Lemma max_py_int_quotient (c a b : Z) :
  (0 <= c)%Z ->
  Z.max c (py_int (inject_Z a / inject_Z b)) = Z.max c (a / b).
Proof.
  intro Hc. destruct (py_int_quotient a b) as [Hpos Hneg].
  destruct (Qlt_le_dec (inject_Z a / inject_Z b) 0) as [H | H].
  - destruct (Hneg H) as [H1 H2]. lia.
  - now rewrite (Hpos H).
Qed.

(** The chapter-count heuristic, in integer arithmetic. *)
Lemma chapter_counts_formula (duration_minutes m X : Z) :
  m <> 0%Z ->
  chapter_counts duration_minutes m X
  = Ok (Z.max 3 (duration_minutes / (3 * m)),
        Z.min X (Z.max (Z.max 3 (duration_minutes / (3 * m)))
                       (duration_minutes / m))).
Proof.
  intro Hm. unfold chapter_counts.
  assert (H3 : ~ inject_Z (m * 3) == 0).
  { intro E. unfold Qeq in E. simpl in E. lia. }
  assert (H1 : ~ inject_Z m == 0).
  { intro E. unfold Qeq in E. simpl in E. lia. }
  rewrite (div_ok _ _ H3). cbn [bind]. rewrite (div_ok _ _ H1). cbn [bind].
  rewrite !max_py_int_quotient by lia.
  now rewrite (Z.mul_comm m 3).
Qed.
End PlannerFacts.

Import GenerateChapters.

(** C3. The chapter counts are a function of the duration in minutes, the
    minimum chapter length [m] and the cap [X]:
    [min_chapters = max(3, floor(minutes / (3*m)))] and
    [ideal_chapters = min(X, max(min_chapters, floor(minutes / m)))]; for
    60 minutes, [m = 5] and [X = 15] they are 4 and 12; and the prompt asks
    for [ideal_chapters - 2] to [ideal_chapters + 2] chapters. *)
Theorem chapter_count_heuristic :
  (forall duration_minutes m X : Z,
      m <> 0%Z ->
      chapter_counts duration_minutes m X
      = Py.Ok (Z.max 3 (duration_minutes / (3 * m)),
               Z.min X (Z.max (Z.max 3 (duration_minutes / (3 * m)))
                              (duration_minutes / m))))
  /\
  chapter_counts 60 5 15 = Py.Ok (4%Z, 12%Z)
  /\
  (forall (segments_text : string) (actual : option Q) (m X : Z)
          (duration_seconds : Q) (duration_minutes : Z),
      m <> 0%Z ->
      duration_of_text segments_text
      = Py.Ok (duration_seconds, duration_minutes) ->
      let ideal_chapters :=
        Z.min X (Z.max (Z.max 3 (duration_minutes / (3 * m)))
                       (duration_minutes / m)) in
      exists prompt : string,
        build_chapters_prompt segments_text actual m X = Py.Ok prompt /\
        occurs_in ("- Create " ++ dec (ideal_chapters - 2) ++ " to "
                     ++ dec (ideal_chapters + 2) ++ " chapters")%string
                  prompt).
Proof.
  split; [exact chapter_counts_formula|]. split; [reflexivity|].
  intros segments_text actual m X dsec dmin Hm Hd ideal.
  unfold build_chapters_prompt. rewrite Hd. cbn [Py.bind].
  rewrite (chapter_counts_formula dmin m X Hm). cbn [Py.bind].
  fold ideal. eexists. split; [reflexivity|].
  apply (occurs_in_app _ _ nl nl).
  apply occurs_in_join.
  eexists. split.
  - unfold prompt_lines. do 16 right. left. reflexivity.
  - exists ""%string,
      (" that span the FULL " ++ dec dmin ++ " minutes")%string.
    rewrite !string_app_assoc. reflexivity.
Qed.

Lemma chapter_count_heuristic_witness :
  chapter_counts 60 5 15
  = Py.Ok (Z.max 3 (60 / (3 * 5)),
           Z.min 15 (Z.max (Z.max 3 (60 / (3 * 5))) (60 / 5)))
  /\
  exists prompt : string,
    build_chapters_prompt
      (line {| start := 0; end_ := 3600; text := "x"%string |}) None 5 15
    = Py.Ok prompt /\
    occurs_in "- Create 10 to 14 chapters"%string prompt.
Proof.
  destruct chapter_count_heuristic as (H1 & _ & H3).
  split.
  - apply (H1 60%Z 5%Z 15%Z). discriminate.
  - apply (H3 (line {| start := 0; end_ := 3600; text := "x"%string |})
              None 5%Z 15%Z
              (inject_Z 3600 + inject_Z 0 / inject_Z (10 ^ 1))%Q 60%Z).
    + discriminate.
    + reflexivity.
Defined.

(** The prompt carries the rendered transcript and the instruction to
    cover the entire episode even when only a sample is shown. *)
Lemma prompt_embeds_rendering_and_instruction (segments_text : string)
    (actual : option Q) (m X : Z) (prompt : string) :
  build_chapters_prompt segments_text actual m X = Py.Ok prompt ->
  occurs_in segments_text prompt /\
  occurs_in
    "IMPORTANT: Even if you only see samples from the transcript, you must still create chapters"
    prompt.
Proof.
  unfold build_chapters_prompt. intro H.
  destruct (duration_of_text segments_text) as [[dsec dmin]|e];
    [|discriminate H].
  cbn [Py.bind] in H.
  destruct (chapter_counts dmin m X) as [[minc ideal]|e]; [|discriminate H].
  cbn [Py.bind] in H.
  pose proof (f_equal (fun r => match r with
                                | Py.Ok p => p
                                | Py.Raise _ => prompt
                                end) H) as E.
  cbv beta iota in E. rewrite <- E. clear H E.
  split; apply (occurs_in_app _ _ nl nl); apply occurs_in_join;
    eexists; (split; [|apply occurs_in_refl]); unfold prompt_lines.
  - do 30 right. left. reflexivity.
  - do 25 right. left. reflexivity.
Qed.

(** C9 at a failing input.  The prompt builder never reads
    [actual_duration_seconds], and the planner's result does not depend on
    it: for a transcript whose only segment ends at 90 seconds and a true
    duration of 3600 seconds, the prompt speaks of a 1-minute episode that
    extends to approximately 90 seconds and mentions neither 3600 nor 60
    minutes. *)
Theorem prompt_ignores_true_duration :
  (forall (segments_text : string) (a1 a2 : option Q) (m X : Z),
      build_chapters_prompt segments_text a1 m X
      = build_chapters_prompt segments_text a2 m X)
  /\
  (forall create json_loads segs model temperature m B (a1 a2 : option Q),
      generate_chapters create json_loads segs model temperature m B a1
      = generate_chapters create json_loads segs model temperature m B a2)
  /\
  (exists prompt : string,
      build_chapters_prompt (full_rendering short_episode) (Some 3600%Q) 5 15
      = Py.Ok prompt /\
      contains "ENTIRE 1-minute episode" prompt = true /\
      contains "approximately 90 seconds" prompt = true /\
      contains "3600" prompt = false /\
      contains "60-minute" prompt = false).
Proof.
  split; [reflexivity|]. split; [reflexivity|].
  eexists. split; [reflexivity|].
  repeat split; vm_compute; reflexivity.
Qed.

(** ** Handling of the language-model response *)

Section ResponseFacts.
Import Py Json.

Variable E : Type.

Lemma try_except_returns (A : Type) (m : io E A) (handler : exn -> io E A) :
  (forall e, exists v, snd (handler e) = Ok v) ->
  exists v, snd (try_except m handler) = Ok v.
Proof.
  intro H. destruct m as [l [a | e]]; simpl.
  - exists a. reflexivity.
  - destruct (H e) as (v & Hv). destruct (handler e) as [l' r].
    exists v. exact Hv.
Qed.

Lemma iobind_log (A B : Type) (l : list E) (a : A) (k : A -> io E B) :
  iobind (l, Ok a) k = ((l ++ fst (k a))%list, snd (k a)).
Proof. simpl. now destruct (k a). Qed.
End ResponseFacts.

Section PlannerResponses.
Import Py Json.

Variable create : string -> Q -> string -> string -> result string.
Variable json_loads : string -> result json.

Section Generator.
Import GenerateChapters.

Variable segs : list segment.
Variables (model : string) (temperature : Q) (m B : Z) (a : option Q).
Variables (log1 : list printed) (text prompt : string).
Hypothesis Htext : prepare_segments_for_gpt segs B 1 = (log1, Ok text).
Hypothesis Hprompt :
  build_chapters_prompt text (Some (inject_Z m)) 5 15 = Ok prompt.

Let answer :=
  try_except (request_chapters create json_loads model temperature prompt)
    (fun e => _ <~ print (ErrorGeneratingChapters e) ;; ret (JArr [])).

Lemma generator_steps :
  generate_chapters create json_loads segs model temperature m B a
  = (([GeneratingChaptersWith model; MinimumChapterLength m] ++ log1
        ++ fst answer)%list,
     snd answer).
Proof.
  unfold generate_chapters. fold answer.
  unfold print at 1 2. rewrite !iobind_log. cbn [fst snd].
  rewrite Htext, iobind_log. cbn [fst snd].
  rewrite Hprompt. unfold lift. rewrite iobind_log. cbn [fst snd app].
  reflexivity.
Qed.

Lemma generator_returns :
  exists v, snd (generate_chapters create json_loads segs model temperature
                   m B a) = Ok v.
Proof.
  rewrite generator_steps. cbn [snd]. apply try_except_returns.
  intro e. exists (JArr []). reflexivity.
Qed.

Lemma generator_call_fails (e : exn) :
  create model temperature system_message prompt = Raise e ->
  generate_chapters create json_loads segs model temperature m B a
  = (([GeneratingChaptersWith model; MinimumChapterLength m] ++ log1
        ++ [ErrorGeneratingChapters e])%list,
     Ok (JArr [])).
Proof.
  intro Hc. rewrite generator_steps. unfold answer, request_chapters.
  rewrite Hc. reflexivity.
Qed.

Lemma generator_unparseable (content : string) (e : exn) :
  create model temperature system_message prompt = Ok content ->
  json_loads content = Raise e ->
  generate_chapters create json_loads segs model temperature m B a
  = (([GeneratingChaptersWith model; MinimumChapterLength m] ++ log1
        ++ [ErrorGeneratingChapters e])%list,
     Ok (JArr [])).
Proof.
  intros Hc Hj. rewrite generator_steps. unfold answer, request_chapters.
  rewrite Hc. cbn [lift iobind]. rewrite Hj. reflexivity.
Qed.

Lemma generator_missing_key (content : string) (kv : list (string * json)) :
  create model temperature system_message prompt = Ok content ->
  json_loads content = Ok (JObj kv) ->
  lookup "chapters" kv = None ->
  generate_chapters create json_loads segs model temperature m B a
  = (([GeneratingChaptersWith model; MinimumChapterLength m] ++ log1
        ++ [GeneratedChapters 0])%list,
     Ok (JArr [])).
Proof.
  intros Hc Hj Hk. rewrite generator_steps. unfold answer, request_chapters.
  rewrite Hc. cbn [lift iobind]. rewrite Hj. cbn [iobind get].
  rewrite Hk. reflexivity.
Qed.
End Generator.

Section Transcriber.
Import TranscribePodcast.

Variable transcript_data : transcript.
Variables (log1 : list printed) (text prompt : string).
Hypothesis Htext :
  _prepare_segments_for_gpt (segments transcript_data) 50000
  = (log1, Ok text).
Hypothesis Hprompt : _build_chapters_prompt text = Ok prompt.

Let answer :=
  try_except
    (content <~ lift (create "gpt-4o-mini" (2 # 10) system_message prompt) ;;
     result <~ lift (json_loads content) ;;
     lift (get result "chapters" (JArr [])))
    (fun e => _ <~ print (ErrorGeneratingChapters e) ;; ret (JArr [])).

Lemma transcriber_steps :
  generate_chapters create json_loads transcript_data
  = ((GeneratingChapters :: log1 ++ fst answer)%list, snd answer).
Proof.
  unfold generate_chapters. fold answer.
  unfold print at 1. rewrite iobind_log. cbn [fst snd].
  rewrite Htext, iobind_log. cbn [fst snd].
  rewrite Hprompt. unfold lift. rewrite !iobind_log. cbn [fst snd app].
  reflexivity.
Qed.

Lemma transcriber_returns :
  exists v, snd (generate_chapters create json_loads transcript_data) = Ok v.
Proof.
  rewrite transcriber_steps. cbn [snd]. apply try_except_returns.
  intro e. exists (JArr []). reflexivity.
Qed.

Lemma transcriber_call_fails (e : exn) :
  create "gpt-4o-mini" (2 # 10) system_message prompt = Raise e ->
  generate_chapters create json_loads transcript_data
  = ((GeneratingChapters :: log1 ++ [ErrorGeneratingChapters e])%list,
     Ok (JArr [])).
Proof.
  intro Hc. rewrite transcriber_steps. unfold answer.
  rewrite Hc. reflexivity.
Qed.

Lemma transcriber_unparseable (content : string) (e : exn) :
  create "gpt-4o-mini" (2 # 10) system_message prompt = Ok content ->
  json_loads content = Raise e ->
  generate_chapters create json_loads transcript_data
  = ((GeneratingChapters :: log1 ++ [ErrorGeneratingChapters e])%list,
     Ok (JArr [])).
Proof.
  intros Hc Hj. rewrite transcriber_steps. unfold answer.
  rewrite Hc. cbn [lift iobind]. rewrite Hj. reflexivity.
Qed.

Lemma transcriber_missing_key (content : string)
    (kv : list (string * json)) :
  create "gpt-4o-mini" (2 # 10) system_message prompt = Ok content ->
  json_loads content = Ok (JObj kv) ->
  lookup "chapters" kv = None ->
  generate_chapters create json_loads transcript_data
  = ((GeneratingChapters :: log1)%list, Ok (JArr [])).
Proof.
  intros Hc Hj Hk. rewrite transcriber_steps. unfold answer.
  rewrite Hc. cbn [lift iobind]. rewrite Hj. cbn [iobind get].
  rewrite Hk. cbn [try_except fst snd app]. now rewrite app_nil_r.
Qed.
End Transcriber.
End PlannerResponses.

Import Json.

(** C7, as stated, fails on the report: when the response is the JSON
    object without a [chapters] key, the planner of [transcribe_podcast.py]
    returns the empty list and prints nothing about it. *)
Lemma missing_key_not_reported :
  let r := TranscribePodcast.generate_chapters
             create_empty_object loads_empty_object empty_transcript in
  loads_empty_object "{}" = Py.Ok (JObj []) /\
  lookup "chapters" [] = None /\
  r = ([TranscribePodcast.GeneratingChapters], Py.Ok (JArr [])) /\
  ~ transcriber_reported (fst r).
Proof.
  cbv zeta. repeat split.
  intros (e & He). vm_compute in He.
  destruct He as [He | []]. discriminate.
Qed.

(** C7, amended.  Once the prompt is built, neither planner raises: an
    exception of the call or of the parse is caught.  When the response is
    not parseable, the planner prints its error line and returns the empty
    list.  When the parsed object has no [chapters] key, the planner
    returns the empty list without an error line: [generate_chapters.py]
    prints that 0 chapters were generated, [transcribe_podcast.py] prints
    nothing. *)
Theorem malformed_response_handling
    (create : string -> Q -> string -> string -> Py.result string)
    (json_loads : string -> Py.result json) :
  (forall segs model temperature m B a log1 text prompt,
      GenerateChapters.prepare_segments_for_gpt segs B 1
      = (log1, Py.Ok text) ->
      GenerateChapters.build_chapters_prompt text (Some (inject_Z m)) 5 15
      = Py.Ok prompt ->
      let r := GenerateChapters.generate_chapters create json_loads segs
                 model temperature m B a in
      (exists v, snd r = Py.Ok v) /\
      (forall content e,
          create model temperature GenerateChapters.system_message prompt
          = Py.Ok content ->
          json_loads content = Py.Raise e ->
          snd r = Py.Ok (JArr []) /\ generator_reported (fst r)) /\
      (forall content kv,
          create model temperature GenerateChapters.system_message prompt
          = Py.Ok content ->
          json_loads content = Py.Ok (JObj kv) ->
          lookup "chapters" kv = None ->
          snd r = Py.Ok (JArr []) /\
          fst r = ([GenerateChapters.GeneratingChaptersWith model;
                    GenerateChapters.MinimumChapterLength m]
                     ++ log1 ++ [GenerateChapters.GeneratedChapters 0])%list))
  /\
  (forall transcript_data log1 text prompt,
      TranscribePodcast._prepare_segments_for_gpt
        (TranscribePodcast.segments transcript_data) 50000
      = (log1, Py.Ok text) ->
      TranscribePodcast._build_chapters_prompt text = Py.Ok prompt ->
      let r := TranscribePodcast.generate_chapters create json_loads
                 transcript_data in
      (exists v, snd r = Py.Ok v) /\
      (forall content e,
          create "gpt-4o-mini"%string (2 # 10)
                 TranscribePodcast.system_message prompt = Py.Ok content ->
          json_loads content = Py.Raise e ->
          snd r = Py.Ok (JArr []) /\ transcriber_reported (fst r)) /\
      (forall content kv,
          create "gpt-4o-mini"%string (2 # 10)
                 TranscribePodcast.system_message prompt = Py.Ok content ->
          json_loads content = Py.Ok (JObj kv) ->
          lookup "chapters" kv = None ->
          snd r = Py.Ok (JArr []) /\
          fst r = (TranscribePodcast.GeneratingChapters :: log1)%list)).
Proof.
  split.
  - intros segs model temperature m B a log1 text prompt Ht Hp r.
    split; [|split].
    + apply (generator_returns create json_loads segs model temperature m B a
               log1 text prompt Ht Hp).
    + intros content e Hc Hj. unfold r.
      rewrite (generator_unparseable create json_loads segs model temperature
                 m B a log1 text prompt Ht Hp content e Hc Hj).
      split; [reflexivity|]. exists e. cbn [fst].
      apply in_or_app. right. apply in_or_app. right. left. reflexivity.
    + intros content kv Hc Hj Hk. unfold r.
      rewrite (generator_missing_key create json_loads segs model temperature
                 m B a log1 text prompt Ht Hp content kv Hc Hj Hk).
      split; reflexivity.
  - intros td log1 text prompt Ht Hp r.
    split; [|split].
    + apply (transcriber_returns create json_loads td log1 text prompt Ht Hp).
    + intros content e Hc Hj. unfold r.
      rewrite (transcriber_unparseable create json_loads td log1 text prompt
                 Ht Hp content e Hc Hj).
      split; [reflexivity|]. exists e. cbn [fst].
      right. apply in_or_app. right. left. reflexivity.
    + intros content kv Hc Hj Hk. unfold r.
      rewrite (transcriber_missing_key create json_loads td log1 text prompt
                 Ht Hp content kv Hc Hj Hk).
      split; reflexivity.
Qed.

Lemma malformed_response_handling_witness :
  (let r := GenerateChapters.generate_chapters create_prose
              loads_empty_object short_episode "gpt-4o-mini"%string (3 # 10)
              5 50000 None in
   snd r = Py.Ok (JArr []) /\ generator_reported (fst r))
  /\
  (let r := TranscribePodcast.generate_chapters create_empty_object
              loads_empty_object empty_transcript in
   snd r = Py.Ok (JArr []) /\
   fst r = [TranscribePodcast.GeneratingChapters]).
Proof.
  split.
  - destruct (malformed_response_handling create_prose loads_empty_object)
      as [H _].
    edestruct (H short_episode "gpt-4o-mini"%string (3 # 10) 5%Z 50000%Z None)
      as (_ & Hbad & _).
    + reflexivity.
    + reflexivity.
    + apply (Hbad "Here are your chapters:"%string Py.JSONDecodeError);
        reflexivity.
  - destruct (malformed_response_handling create_empty_object
                loads_empty_object) as [_ H].
    edestruct (H empty_transcript) as (_ & _ & Hmiss).
    + reflexivity.
    + reflexivity.
    + apply (Hmiss "{}"%string []); reflexivity.
Defined.

(** * Further properties *)

(** ** The chunker *)

Section ChunkerMore.
Import Py SplitPodcast Spec Terms.
Local Open Scope Q_scope.

Lemma filter_map_comm {A B : Type} (f : A -> B) (p : B -> bool) (l : list A) :
  filter p (map f l) = map f (filter (fun a => p (f a)) l).
Proof.
  induction l as [|a l IH]; simpl; [reflexivity|].
  destruct (p (f a)); simpl; now rewrite IH.
Qed.

Lemma filter_filter {A : Type} (p q : A -> bool) (l : list A) :
  filter p (filter q l) = filter (fun a => q a && p a) l.
Proof.
  induction l as [|a l IH]; simpl; [reflexivity|].
  destruct (q a); simpl; [destruct (p a)|]; now rewrite IH.
Qed.

Lemma filter_ext_eq {A : Type} (p q : A -> bool) (l : list A) :
  (forall a, p a = q a) -> filter p l = filter q l.
Proof.
  intro H. induction l as [|a l IH]; simpl; [reflexivity|].
  now rewrite H, IH.
Qed.

(** A failing media invocation removes its own chunk and no other: the
    chunks returned are the chunks of the run in which every invocation
    succeeds, without those whose invocation failed. *)
Theorem failed_invocations_only_remove_their_chunk (w : world) (L O : Q) :
  match split_audio (all_ok w) L O with
  | Ok every =>
      split_audio w L O = Ok (filter (fun c => ffmpeg_ok w (index c)) every)
  | Raise e => split_audio w L O = Raise e
  end.
Proof.
  destruct (file_exists w) eqn:Hex.
  - destruct (Qeq_bool L 0) eqn:E.
    + unfold split_audio, div. simpl. rewrite Hex, E. reflexivity.
    + assert (HL : ~ L == 0).
      { intro HL. apply Qeq_bool_iff in HL. congruence. }
      rewrite (split_audio_windows (all_ok w) L O Hex HL).
      rewrite (split_audio_windows w L O Hex HL).
      f_equal. change (total_duration (all_ok w)) with (total_duration w).
      rewrite filter_map_comm, filter_filter.
      f_equal. apply filter_ext_eq. intro i.
      unfold kept. simpl. now rewrite andb_true_r.
  - unfold split_audio. simpl. rewrite Hex. reflexivity.
Qed.

Lemma seq_strongly_sorted (a n : nat) : StronglySorted lt (seq a n).
Proof.
  revert a. induction n as [|n IH]; intro a; simpl; constructor.
  - apply IH.
  - apply Forall_forall. intros x Hx. apply in_seq in Hx. lia.
Qed.

Lemma filter_strongly_sorted {A : Type} (R : A -> A -> Prop) (p : A -> bool)
    (l : list A) :
  StronglySorted R l -> StronglySorted R (filter p l).
Proof.
  induction 1 as [|a l Hl IH Ha]; simpl; [constructor|].
  destruct (p a); [|exact IH].
  constructor; [exact IH|].
  apply Forall_forall. intros x Hx. apply filter_In in Hx.
  rewrite Forall_forall in Ha. apply Ha. tauto.
Qed.

(** Whatever the input, every returned chunk lasts at least one second,
    the chunk indices increase strictly along the list, and the offset
    recorded for reconstruction exceeds the actual start by the overlap
    for every chunk but the one of index 0, where both are 0. *)
Theorem returned_chunks_invariants (w : world) (L O : Q)
    (chunks : list chunk_info) :
  split_audio w L O = Ok chunks ->
  Forall (fun c => 1 <= duration_seconds c) chunks /\
  StronglySorted lt (map index chunks) /\
  Forall (fun c =>
            start_offset_seconds c - actual_start_time c
            == (if Nat.eqb (index c) 0 then 0 else O)) chunks.
Proof.
  intro H.
  destruct (split_audio_inv w L O chunks H) as [-> | (Hex & HL & ->)].
  - repeat split; constructor.
  - set (N := ceil (total_duration w / L)).
    split; [|split].
    + apply Forall_forall. intros c Hc.
      apply in_map_iff in Hc. destruct Hc as (i & <- & Hi).
      apply filter_In in Hi. destruct Hi as [_ Hk].
      unfold kept in Hk. apply andb_true_iff in Hk. destruct Hk as [Hk _].
      apply negb_true_iff, ltb_ge in Hk. exact Hk.
    + rewrite map_map. simpl. rewrite map_id.
      apply filter_strongly_sorted, seq_strongly_sorted.
    + apply Forall_forall. intros c Hc.
      apply in_map_iff in Hc. destruct Hc as (i & <- & _).
      simpl. unfold start_time.
      destruct i as [|i]; simpl; [reflexivity|]. ring.
Qed.
End ChunkerMore.

Section ChunkerEdges.
Import Py SplitPodcast Spec Terms Inputs.
Local Open Scope Q_scope.

Lemma returned_chunks_invariants_witness :
  exists chunks : list chunk_info,
    split_audio world_1500 600 3 = Ok chunks /\
    Forall (fun c => 1 <= duration_seconds c) chunks /\
    StronglySorted lt (map index chunks) /\
    Forall (fun c =>
              start_offset_seconds c - actual_start_time c
              == (if Nat.eqb (index c) 0 then 0 else 3)) chunks.
Proof.
  eexists. split; [reflexivity|].
  apply (returned_chunks_invariants world_1500 600 3). reflexivity.
Defined.

(** The first two windows overlap by twice the overlap, every later pair
    of consecutive windows by the overlap exactly. *)
Theorem consecutive_windows_overlap (w : world) (L O : Q)
    (chunks : list chunk_info) (i : nat) (c1 c2 : chunk_info) :
  file_exists w = true ->
  (forall k, ffmpeg_ok w k = true) ->
  0 < total_duration w -> 0 < L -> 1 <= L + O ->
  split_audio w L O = Ok chunks ->
  nth_error chunks i = Some c1 ->
  nth_error chunks (S i) = Some c2 ->
  chunk_end c1 - actual_start_time c2
  == (if Nat.eqb (index c1) 0 then 2 * O else O).
Proof.
  intros Hex Hff HD HL HLO Hs H1 H2.
  destruct (produced_is_prefix w L O Hex Hff HD HL HLO) as (m & Hm & Hcase & _).
  rewrite Hs in Hm. injection Hm as ->.
  pose proof (num_chunks_pos w L HD HL) as HN.
  set (N := ceil (total_duration w / L)) in *.
  apply nth_window in H1. destruct H1 as [_ ->].
  apply nth_window in H2. destruct H2 as [Hi ->].
  assert (Hlt : (Z.of_nat i <? N - 1)%Z = true).
  { apply Z.ltb_lt. destruct Hcase as [-> | [-> _]]; lia. }
  unfold chunk_end, window, duration, start_time. simpl.
  fold N. rewrite Hlt. rewrite of_nat_S.
  destruct i as [|i]; simpl.
  - unfold of_nat. simpl. change (inject_Z 0) with 0. ring.
  - ring.
Qed.

Lemma consecutive_windows_overlap_witness :
  chunk_end {| index := 0; start_offset_seconds := 0;
               duration_seconds := 603; actual_start_time := 0 |}
  - actual_start_time {| index := 1; start_offset_seconds := 600;
                         duration_seconds := 603; actual_start_time := 597 |}
  == 2 * 3.
Proof.
  apply (consecutive_windows_overlap world_1500 600 3
           [ {| index := 0; start_offset_seconds := 0;
                duration_seconds := 603; actual_start_time := 0 |};
             {| index := 1; start_offset_seconds := 600;
                duration_seconds := 603; actual_start_time := 597 |};
             {| index := 2; start_offset_seconds := 1200;
                duration_seconds := 303; actual_start_time := 1197 |} ]
           0%nat); try reflexivity.
  discriminate.
Defined.

(** Edge inputs of the chunker.  A missing input file gives no chunk, and
    the duration is not even read.  With the file there and [D] the
    duration read for it: a chunk length of zero raises
    [ZeroDivisionError]; a duration that is not positive, or a negative
    chunk length, make the loop run zero times and give no chunk. *)
Theorem chunker_edge_cases (w : world) (L O : Q) :
  (file_exists w = false -> split_audio w L O = Ok []) /\
  (file_exists w = true -> L == 0 ->
   split_audio w L O = Raise ZeroDivisionError) /\
  (file_exists w = true -> 0 < L -> total_duration w <= 0 ->
   split_audio w L O = Ok []) /\
  (file_exists w = true -> L < 0 -> 0 <= total_duration w ->
   split_audio w L O = Ok []).
Proof.
  assert (Hnone : file_exists w = true -> ~ L == 0 ->
                  total_duration w / L <= 0 -> split_audio w L O = Ok []).
  { intros Hex HL Hq. rewrite (split_audio_windows w L O Hex HL).
    unfold range, ceil.
    assert (Hc : (Qceiling (total_duration w / L) <= 0)%Z).
    { change 0%Z with (Qceiling 0). apply Qceiling_resp_le. exact Hq. }
    replace (Z.to_nat (Qceiling (total_duration w / L))) with 0%nat by lia.
    reflexivity. }
  split; [|split; [|split]].
  - intro Hex. unfold split_audio. rewrite Hex. reflexivity.
  - intros Hex HL. unfold split_audio. rewrite Hex. simpl.
    rewrite (div_zero _ _ HL). reflexivity.
  - intros Hex HL HD. apply Hnone; [exact Hex| |].
    + intro E. rewrite E in HL. discriminate.
    + apply Qle_shift_div_r; [exact HL|]. rewrite Qmult_0_l. exact HD.
  - intros Hex HL HD. apply Hnone; [exact Hex| |].
    + intro E. rewrite E in HL. discriminate.
    + assert (E : total_duration w / L == - total_duration w / - L).
      { field. intro E. rewrite E in HL. discriminate. }
      rewrite E. apply Qle_shift_div_r; [lra|]. lra.
Qed.

Lemma chunker_edge_cases_witness :
  split_audio {| file_exists := false; total_duration := 1500;
                 ffmpeg_ok := fun _ => true |} 600 3 = Ok [] /\
  split_audio world_1500 0 3 = Raise ZeroDivisionError /\
  split_audio {| file_exists := true; total_duration := 0;
                 ffmpeg_ok := fun _ => true |} 600 3 = Ok [] /\
  split_audio world_1500 (-600) 3 = Ok [].
Proof.
  split; [|split; [|split]].
  - apply (proj1 (chunker_edge_cases _ 600 3)). reflexivity.
  - apply (proj1 (proj2 (chunker_edge_cases world_1500 0 3)));
      reflexivity.
  - apply (proj1 (proj2 (proj2 (chunker_edge_cases _ 600 3))));
      [reflexivity|reflexivity|discriminate].
  - apply (proj2 (proj2 (proj2 (chunker_edge_cases world_1500 (-600) 3))));
      [reflexivity|reflexivity|discriminate].
Defined.
End ChunkerEdges.

(** ** The segment merger *)

Section MergerMore.
Import Py Segments TranscribePodcast Spec Inputs.
Local Open Scope Q_scope.

Lemma in_merged (chunks_data : list chunk_data) (O : Q) (m : segment) :
  In m (segments (merge_transcripts chunks_data O)) ->
  exists (i : nat) (c : chunk_data) (seg : segment),
    nth_error chunks_data i = Some c /\
    In seg (transcript_segments c) /\
    m = shift (start_offset_seconds c) seg.
Proof.
  unfold merge_transcripts. simpl. intro Hin.
  apply (Permutation_in _ (sort_perm segment start _)) in Hin.
  rewrite collect_contributions in Hin.
  apply in_flat_map in Hin. destruct Hin as ([i c] & Hic & Hm).
  apply in_enumerate in Hic. unfold contribution in Hm. simpl in Hm.
  apply in_map_iff in Hm. destruct Hm as (seg & <- & Hseg).
  apply filter_In in Hseg. exists i, c, seg. tauto.
Qed.

(** Merging changes no text and turns no segment around: a merged
    segment is a raw segment with the same text and the offset of its
    chunk added to its start and to its end, so when no raw segment ends
    before it starts, no merged segment does. *)
Theorem merge_keeps_text_and_orientation (chunks_data : list chunk_data)
    (overlap_seconds : Q) :
  (forall m : segment,
      In m (segments (merge_transcripts chunks_data overlap_seconds)) ->
      exists (c : chunk_data) (seg : segment),
        In c chunks_data /\ In seg (transcript_segments c) /\
        text m = text seg /\
        start m = start seg + start_offset_seconds c /\
        end_ m = end_ seg + start_offset_seconds c) /\
  ((forall (c : chunk_data) (seg : segment),
       In c chunks_data -> In seg (transcript_segments c) ->
       start seg <= end_ seg) ->
   forall m : segment,
     In m (segments (merge_transcripts chunks_data overlap_seconds)) ->
     start m <= end_ m).
Proof.
  split.
  - intros m Hin.
    destruct (in_merged _ _ _ Hin) as (i & c & seg & Hc & Hseg & ->).
    exists c, seg. repeat split.
    + eapply nth_error_In. exact Hc.
    + exact Hseg.
  - intros Hraw m Hin.
    destruct (in_merged _ _ _ Hin) as (i & c & seg & Hc & Hseg & ->).
    pose proof (Hraw c seg (nth_error_In _ _ Hc) Hseg) as H.
    simpl. lra.
Qed.

Lemma merge_keeps_text_and_orientation_witness :
  start {| start := 3 + 597; end_ := 5 + 597; text := "so"%string |}
  <= end_ {| start := 3 + 597; end_ := 5 + 597; text := "so"%string |}.
Proof.
  apply (proj2 (merge_keeps_text_and_orientation boundary_chunks 3)).
  - intros c seg Hc Hseg. simpl in Hc.
    destruct Hc as [<- | [<- | []]]; simpl in Hseg.
    + destruct Hseg as [<- | []]. discriminate.
    + destruct Hseg as [<- | [<- | []]]; discriminate.
  - right. left. reflexivity.
Defined.

Lemma contribution_later (O : Q) (a : nat) (l : list chunk_data) :
  (0 < a)%nat ->
  flat_map (contribution O) (combine (seq a (List.length l)) l)
  = flat_map (fun c => contribution O (1%nat, c)) l.
Proof.
  revert a. induction l as [|c l IH]; intros a Ha; simpl; [reflexivity|].
  rewrite (IH (S a)) by lia. f_equal.
  unfold contribution, survives. simpl.
  replace (0 <? a)%nat with true by (symmetry; apply Nat.ltb_lt; exact Ha).
  reflexivity.
Qed.

(** The arrival order of a non-empty chunk list: everything of the first
    chunk, then the surviving segments of every later chunk. *)
Lemma collect_cons (O : Q) (c : chunk_data) (l : list chunk_data) :
  collect (c :: l) O
  = (contribution O (0%nat, c)
       ++ flat_map (fun c' => contribution O (1%nat, c')) l)%list.
Proof.
  rewrite collect_contributions. unfold enumerate. simpl.
  now rewrite contribution_later by lia.
Qed.

(** A chunk without segments, at any position after the first, contributes
    nothing and does not disturb the chunks after it: the merged transcript
    is the one obtained without that chunk. *)
Theorem empty_chunk_is_neutral (before after : list chunk_data)
    (empty : chunk_data) (overlap_seconds : Q) :
  before <> [] ->
  transcript_segments empty = [] ->
  merge_transcripts (before ++ empty :: after) overlap_seconds
  = merge_transcripts (before ++ after) overlap_seconds.
Proof.
  intros Hne Hempty. destruct before as [|c before]; [contradiction|].
  unfold merge_transcripts.
  assert (E : collect ((c :: before) ++ empty :: after) overlap_seconds
              = collect ((c :: before) ++ after) overlap_seconds).
  { simpl app. rewrite !collect_cons. f_equal.
    rewrite !flat_map_app. f_equal. simpl.
    unfold contribution at 1. simpl. rewrite Hempty. reflexivity. }
  now rewrite E.
Qed.

Lemma empty_chunk_is_neutral_witness :
  merge_transcripts
    ([ {| start_offset_seconds := 0;
          transcript_segments :=
            [ {| start := 600; end_ := 602; text := "so"%string |} ] |} ]
       ++ {| start_offset_seconds := 597; transcript_segments := [] |}
       :: [ {| start_offset_seconds := 1197;
               transcript_segments :=
                 [ {| start := 4; end_ := 5; text := "on"%string |} ] |} ])
    3
  = merge_transcripts
      ([ {| start_offset_seconds := 0;
            transcript_segments :=
              [ {| start := 600; end_ := 602; text := "so"%string |} ] |} ]
         ++ [ {| start_offset_seconds := 1197;
                 transcript_segments :=
                   [ {| start := 4; end_ := 5; text := "on"%string |} ] |} ])
      3.
Proof.
  apply empty_chunk_is_neutral; [discriminate|reflexivity].
Defined.
End MergerMore.

(** ** The budget sampler: rate pre-decimation *)

Section DecimationMore.
Import Py Text Segments Spec GenerateChapters Inputs.
Local Open Scope Q_scope.

Lemma stride_from_nth {A : Type} (k : nat) (l : list A) :
  (1 <= k)%nat ->
  forall skip i : nat,
    nth_error (stride_from k skip l) i = nth_error l (skip + i * k).
Proof.
  intro Hk. induction l as [|a r IH]; intros skip i.
  - simpl. now destruct i, (skip + _)%nat.
  - destruct skip as [|j]; simpl stride_from.
    + destruct i as [|i']; [reflexivity|].
      simpl nth_error at 1. rewrite IH.
      replace (0 + S i' * k)%nat with (S (k - 1 + i' * k)) by lia.
      reflexivity.
    + rewrite IH. reflexivity.
Qed.

Lemma stride_one {A : Type} (l : list A) : stride_from 1 0 l = l.
Proof.
  induction l as [|a r IH]; simpl; [reflexivity|]. now rewrite IH.
Qed.

(** What the sampler does after the rate pre-decimation is what it does
    on the decimated list at rate 1. *)
Lemma prepare_after_decimation (segs sliced : list segment) (B step : Z)
    (r : Q) :
  ltb r 1 = true ->
  div 1 r = Ok (inject_Z 1 / r) ->
  py_int (1 / r) = step ->
  slice_step segs step = Ok sliced ->
  prepare_segments_for_gpt segs B r
  = ((SamplingEvery step (List.length sliced)
        :: fst (prepare_segments_for_gpt sliced B 1))%list,
     snd (prepare_segments_for_gpt sliced B 1)).
Proof.
  intros Hr Hd Hstep Hslice. unfold prepare_segments_for_gpt.
  rewrite Hr. change (ltb 1 1) with false.
  change (inject_Z 1) with 1 in Hd. rewrite Hd.
  cbn [lift iobind]. rewrite Hstep, Hslice.
  cbn [lift iobind print ret app].
  destruct (render_all sliced) as [full total].
  destruct (total <=? B)%Z.
  - reflexivity.
  - cbn [print iobind app].
    destruct (sample_evenly sliced B total) as [[res idx]|e]; reflexivity.
Qed.

(** For a rate strictly between 0 and 1 the sampler works on every
    [step]-th segment, [step = floor(1 / sample_rate) >= 1], starting with
    the first: segment [i] of the decimated list is segment [i * step] of
    the input.  A rate above one half gives [step = 1] and removes
    nothing. *)
Theorem rate_decimation (segs : list segment) (B : Z) (r : Q) :
  0 < r -> r < 1 ->
  let step := Qfloor (1 / r) in
  exists sliced : list segment,
    (1 <= step)%Z /\
    (forall i : nat,
        nth_error sliced i = nth_error segs (i * Z.to_nat step)) /\
    snd (prepare_segments_for_gpt segs B r)
    = snd (prepare_segments_for_gpt sliced B 1) /\
    (1 # 2 < r -> sliced = segs).
Proof.
  intros H0 H1 step.
  assert (Hq : 1 <= 1 / r).
  { apply Qle_shift_div_l; [exact H0|]. lra. }
  assert (Hint : py_int (1 / r) = step).
  { unfold py_int. replace (Qle_bool 0 (1 / r)) with true; [reflexivity|].
    symmetry. apply Qle_bool_iff. lra. }
  assert (Hstep : (1 <= step)%Z).
  { change 1%Z with (Qfloor 1). apply Qfloor_resp_le. exact Hq. }
  exists (stride_from (Z.to_nat step) 0 segs).
  split; [exact Hstep|]. split; [|split].
  - intro i. rewrite stride_from_nth by lia. reflexivity.
  - rewrite (prepare_after_decimation segs (stride_from (Z.to_nat step) 0 segs)
               B step r).
    + reflexivity.
    + apply ltb_lt. exact H1.
    + apply div_ok. intro E. rewrite E in H0. discriminate.
    + exact Hint.
    + unfold slice_step.
      replace (step =? 0)%Z with false by (symmetry; apply Z.eqb_neq; lia).
      replace (0 <? step)%Z with true by (symmetry; apply Z.ltb_lt; lia).
      reflexivity.
  - intro Hhalf.
    assert (Hlt : 1 / r < 2).
    { apply Qlt_shift_div_r; [exact H0|]. lra. }
    assert (Hs2 : (step < 2)%Z).
    { rewrite Zlt_Qlt. eapply Qle_lt_trans; [apply Qfloor_le|exact Hlt]. }
    replace (Z.to_nat step) with 1%nat by lia. apply stride_one.
Qed.

Lemma rate_decimation_witness :
  exists sliced : list segment,
    (1 <= Qfloor (1 / (1 # 2)))%Z /\
    (forall i : nat,
        nth_error sliced i
        = nth_error two_short_segments (i * Z.to_nat (Qfloor (1 / (1 # 2))))) /\
    snd (prepare_segments_for_gpt two_short_segments 50000 (1 # 2))
    = snd (prepare_segments_for_gpt sliced 50000 1) /\
    (1 # 2 < 1 # 2 -> sliced = two_short_segments).
Proof.
  apply (rate_decimation two_short_segments 50000 (1 # 2)); reflexivity.
Defined.

(** A rate of 0 raises [ZeroDivisionError]; a rate below -1 makes the
    slice step 0 and raises [ValueError]. *)
Theorem rate_errors (segs : list segment) (B : Z) (r : Q) :
  (r == 0 ->
   snd (prepare_segments_for_gpt segs B r) = Raise ZeroDivisionError) /\
  (r < -1 ->
   snd (prepare_segments_for_gpt segs B r) = Raise ValueError).
Proof.
  split.
  - intro E. unfold prepare_segments_for_gpt.
    replace (ltb r 1) with true by (symmetry; apply ltb_lt; lra).
    rewrite (div_zero 1 r E). reflexivity.
  - intro Hr. unfold prepare_segments_for_gpt.
    replace (ltb r 1) with true by (symmetry; apply ltb_lt; lra).
    rewrite div_ok by (intro E; lra).
    cbn [lift iobind].
    assert (Hq : py_int (1 / r) = 0%Z).
    { apply py_int_small.
      - assert (E : 1 / r == (- (1)) / (- r)) by (field; lra).
        rewrite E. apply Qlt_shift_div_l; lra.
      - assert (E : 1 / r == (- (1)) / (- r)) by (field; lra).
        rewrite E. apply Qlt_shift_div_r; lra. }
    rewrite Hq. reflexivity.
Qed.

Lemma rate_errors_witness :
  snd (prepare_segments_for_gpt two_short_segments 50000 0)
  = Raise ZeroDivisionError /\
  snd (prepare_segments_for_gpt two_short_segments 50000 (-2))
  = Raise ValueError.
Proof.
  split.
  - apply (proj1 (rate_errors two_short_segments 50000 0)). reflexivity.
  - apply (proj2 (rate_errors two_short_segments 50000 (-2))). reflexivity.
Defined.
End DecimationMore.

(** ** The budget sampler: the even sample *)

Section EvenSampleMore.
Import Py Text Segments Spec GenerateChapters Inputs.
Local Open Scope Q_scope.

Lemma floor_succ_le (x y : Q) :
  x + 1 <= y -> (Qfloor x + 1 <= Qfloor y)%Z.
Proof.
  intro H. rewrite <- (Qfloor_Z (Qfloor x + 1)).
  apply Qfloor_resp_le. rewrite inject_Z_plus.
  pose proof (Qfloor_le x). change (inject_Z 1) with 1. lra.
Qed.

Lemma map_seq_strongly_sorted (f : nat -> Z) (m : nat) :
  (forall j k : nat, (j < k < m)%nat -> (f j < f k)%Z) ->
  forall (a n : nat), (a + n <= m)%nat ->
  StronglySorted Z.lt (map f (seq a n)).
Proof.
  intros Hf a n. revert a. induction n as [|n IH]; intros a Han; simpl.
  - constructor.
  - constructor; [apply IH; lia|].
    apply Forall_forall. intros z Hz. apply in_map_iff in Hz.
    destruct Hz as (k & <- & Hk). apply in_seq in Hk. apply Hf. lia.
Qed.

Variable segs : list segment.
Variable max_chars : Z.
Hypothesis Hne : segs <> [].
Hypothesis Hfit : average_line_length segs <= inject_Z max_chars.
Hypothesis Hover : (max_chars < total_length segs)%Z.

Let n : Q := inject_Z (Z.of_nat (List.length segs)).
Let s : Z := segments_to_include segs max_chars.
Let step : Q := n / inject_Z s.

Lemma include_positive : 0 < inject_Z s.
Proof.
  pose proof (include_ge_one segs Hne max_chars Hfit) as H.
  change 0 with (inject_Z 0). rewrite <- Zlt_Qlt. unfold s, segments_to_include.
  lia.
Qed.

(** Fewer segments are included than there are. *)
Lemma include_below_count : inject_Z s < n.
Proof.
  pose proof (include_le_quota segs Hne max_chars Hfit) as Hq.
  pose proof (average_ge_one segs Hne) as Havg.
  pose proof (count_pos segs Hne) as Hn.
  eapply Qle_lt_trans; [exact Hq|].
  apply Qlt_shift_div_r; [lra|].
  unfold n, average_line_length.
  assert (E : inject_Z (Z.of_nat (List.length segs))
              * (inject_Z (total_length segs)
                 / inject_Z (Z.of_nat (List.length segs)))
              == inject_Z (total_length segs)).
  { field. intro E. rewrite E in Hn. discriminate. }
  rewrite E. rewrite <- Zlt_Qlt. exact Hover.
Qed.

Lemma step_above_one : 1 < step.
Proof.
  pose proof include_positive as Hs. pose proof include_below_count as Hlt.
  unfold step. apply Qlt_shift_div_l; [exact Hs|]. lra.
Qed.

Lemma index_is_floor (k : nat) :
  py_int (inject_Z (Z.of_nat k) * step)
  = Qfloor (inject_Z (Z.of_nat k) * step).
Proof.
  pose proof step_above_one as Hst.
  assert (Hk : 0 <= inject_Z (Z.of_nat k)).
  { change 0 with (inject_Z 0). rewrite <- Zle_Qle. lia. }
  unfold py_int.
  replace (Qle_bool 0 (inject_Z (Z.of_nat k) * step)) with true;
    [reflexivity|].
  symmetry. apply Qle_bool_iff. apply Qmult_le_0_compat; [exact Hk|lra].
Qed.

Lemma index_increases (j k : nat) :
  (j < k)%nat ->
  (py_int (inject_Z (Z.of_nat j) * step)
   < py_int (inject_Z (Z.of_nat k) * step))%Z.
Proof.
  intro Hjk. pose proof step_above_one as Hst.
  rewrite !index_is_floor.
  assert (H : (Qfloor (inject_Z (Z.of_nat j) * step) + 1
               <= Qfloor (inject_Z (Z.of_nat k) * step))%Z).
  { apply floor_succ_le.
    assert (Hk : inject_Z (Z.of_nat j) + 1 <= inject_Z (Z.of_nat k)).
    { change 1 with (inject_Z 1). rewrite <- inject_Z_plus, <- Zle_Qle. lia. }
    assert (Hj : 0 <= inject_Z (Z.of_nat j)).
    { change 0 with (inject_Z 0). rewrite <- Zle_Qle. lia. }
    nra. }
  lia.
Qed.

Lemma selected_sorted : StronglySorted Z.lt (selected segs max_chars).
Proof.
  pose proof (include_ge_one segs Hne max_chars Hfit) as Hs1.
  fold (segments_to_include segs max_chars) in Hs1. fold s in Hs1.
  unfold selected, sampled_indices, range. fold s n step.
  apply (map_seq_strongly_sorted _ (Z.to_nat s)); [|lia].
  intros j k Hjk. apply index_increases. lia.
Qed.

Lemma selected_last :
  exists last : Z,
    nth_error (selected segs max_chars) (Z.to_nat s - 1) = Some last /\
    inject_Z (Z.of_nat (List.length segs) - 1 - last) < step.
Proof.
  pose proof (include_ge_one segs Hne max_chars Hfit) as Hs1.
  fold (segments_to_include segs max_chars) in Hs1. fold s in Hs1.
  pose proof include_positive as Hs. pose proof step_above_one as Hst.
  exists (py_int (inject_Z (Z.of_nat (Z.to_nat s - 1)) * step)).
  split.
  - unfold selected, sampled_indices, range.
    fold s n step. rewrite nth_error_map, nth_error_seq.
    replace (Z.to_nat s - 1 <? Z.to_nat s)%nat with true
      by (symmetry; apply Nat.ltb_lt; lia).
    reflexivity.
  - rewrite index_is_floor.
    set (x := inject_Z (Z.of_nat (Z.to_nat s - 1)) * step).
    pose proof (Qlt_floor x) as Hx.
    rewrite inject_Z_plus in Hx. change (inject_Z 1) with 1 in Hx.
    unfold Zminus. rewrite !inject_Z_plus, inject_Z_opp.
    change (inject_Z (- (1))) with (- (1)). fold n.
    assert (Hxe : x == n - step).
    { unfold x. replace (Z.of_nat (Z.to_nat s - 1)) with (s - 1)%Z by lia.
      unfold Zminus. rewrite inject_Z_plus.
      change (inject_Z (- (1))) with (- (1)). unfold step. field.
      intro E. rewrite E in Hs. discriminate. }
    rewrite inject_Z_opp. change (inject_Z 1) with 1.
    clearbody x. lra.
Qed.

(** Over the budget, with a budget of at least one average line, both
    copies of the sampler return the note and then the lines of the
    segments at the sampled indices.  These indices are in range and
    increase strictly, so no segment is rendered twice and the sample
    keeps the order of the transcript; the first index is 0 and the last
    is less than one step (the number of segments by the number of
    indices) away from the last segment. *)
Theorem sampled_indices_spread :
  exists indices : list Z,
    let rendered :=
      note (Z.of_nat (List.length indices)) (List.length segs)
      :: flat_map (pick segs) indices in
    sample_evenly segs max_chars (snd (render_all segs))
    = Ok (rendered, indices) /\
    snd (prepare_segments_for_gpt segs max_chars 1)
    = Ok (join "" rendered) /\
    snd (TranscribePodcast._prepare_segments_for_gpt segs max_chars)
    = Ok (join "" rendered) /\
    Forall (fun idx => (0 <= idx < Z.of_nat (List.length segs))%Z) indices /\
    StronglySorted Z.lt indices /\
    nth_error indices 0 = Some 0%Z /\
    exists last : Z,
      nth_error indices (List.length indices - 1) = Some last /\
      inject_Z (Z.of_nat (List.length segs) - 1 - last)
      < inject_Z (Z.of_nat (List.length segs))
        / inject_Z (Z.of_nat (List.length indices)).
Proof.
  pose proof (include_ge_one segs Hne max_chars Hfit) as Hs1.
  fold (segments_to_include segs max_chars) in Hs1. fold s in Hs1.
  destruct (sample_evenly_in_range segs Hne max_chars Hfit)
    as (Hrun & Hlen & _ & _ & Hfirst & Hall).
  fold (segments_to_include segs max_chars) in Hrun, Hlen, Hfirst, Hall.
  fold (selected segs max_chars) in Hrun, Hlen, Hfirst, Hall.
  fold s in Hrun, Hlen.
  destruct (sampler_sampled_when_over segs max_chars 1 eq_refl Hne Hfit
              Hover) as [Hg Ht].
  fold s in Hg, Ht.
  destruct selected_last as (last & Hlast & Hnear).
  assert (Hs : Z.of_nat (List.length (selected segs max_chars)) = s)
    by (rewrite Hlen; lia).
  exists (selected segs max_chars). cbv zeta. rewrite Hs.
  split; [exact Hrun|]. split; [exact Hg|]. split; [exact Ht|].
  split; [exact Hall|]. split; [apply selected_sorted|].
  split; [exact Hfirst|].
  exists last. rewrite Hlen. split; [exact Hlast|exact Hnear].
Qed.
End EvenSampleMore.

Section EvenSampleWitness.
Import Py Text Segments Spec GenerateChapters Terms Inputs.
Local Open Scope Q_scope.

Lemma sampled_indices_spread_witness :
  snd (prepare_segments_for_gpt five_segments 45 1)
  = Ok (join "" (note 3 5 :: flat_map (pick five_segments) [0; 1; 3]%Z)) /\
  snd (TranscribePodcast._prepare_segments_for_gpt five_segments 45)
  = Ok (join "" (note 3 5 :: flat_map (pick five_segments) [0; 1; 3]%Z)) /\
  StronglySorted Z.lt [0; 1; 3]%Z /\
  exists last : Z,
    nth_error [0; 1; 3]%Z 2 = Some last /\
    inject_Z (5 - 1 - last) < inject_Z 5 / inject_Z 3.
Proof.
  destruct (sampled_indices_spread five_segments 45)
    as (indices & Hrun & Hg & Ht & _ & Hsorted & _ & Hlast).
  - discriminate.
  - apply Qle_bool_iff. reflexivity.
  - reflexivity.
  - assert (E : indices = [0; 1; 3]%Z).
    { vm_compute in Hrun. congruence. }
    subst indices. auto.
Defined.
End EvenSampleWitness.

(** ** The sampler and the planner on an empty transcript *)

Section EmptyInput.
Import Py Text Segments Json Spec GenerateChapters Inputs.
Local Open Scope Q_scope.

(** On an empty segment list the sampler returns the empty string for a
    budget that is not negative, and raises [ZeroDivisionError] (0 / 0) for
    a negative budget; both copies agree. *)
Theorem sampler_on_no_segments (B : Z) (r : Q) :
  ltb r 1 = false ->
  ((0 <= B)%Z ->
   prepare_segments_for_gpt [] B r
   = ([UsingFullTranscript 0 0], Ok ""%string) /\
   TranscribePodcast._prepare_segments_for_gpt [] B = ([], Ok ""%string)) /\
  ((B < 0)%Z ->
   snd (prepare_segments_for_gpt [] B r) = Raise ZeroDivisionError /\
   snd (TranscribePodcast._prepare_segments_for_gpt [] B)
   = Raise ZeroDivisionError).
Proof.
  intro Hr. unfold prepare_segments_for_gpt,
    TranscribePodcast._prepare_segments_for_gpt.
  rewrite Hr. cbn [ret iobind app render_all fold_left].
  split; intro HB.
  - replace (0 <=? B)%Z with true by (symmetry; apply Z.leb_le; exact HB).
    split; reflexivity.
  - replace (0 <=? B)%Z with false by (symmetry; apply Z.leb_gt; exact HB).
    split; reflexivity.
Qed.

Lemma sampler_on_no_segments_witness :
  (prepare_segments_for_gpt [] 50000 1
   = ([UsingFullTranscript 0 0], Ok ""%string) /\
   TranscribePodcast._prepare_segments_for_gpt [] 50000
   = ([], Ok ""%string)) /\
  (snd (prepare_segments_for_gpt [] (-1) 1) = Raise ZeroDivisionError /\
   snd (TranscribePodcast._prepare_segments_for_gpt [] (-1))
   = Raise ZeroDivisionError).
Proof.
  split.
  - apply (proj1 (sampler_on_no_segments 50000 1 eq_refl)). discriminate.
  - apply (proj2 (sampler_on_no_segments (-1) 1 eq_refl)). reflexivity.
Defined.

(** A rendering in which the timestamp pattern does not occur, the empty
    rendering of an empty transcript among them, makes the prompt builder
    fall back to 3000 seconds: with the defaults the prompt speaks of a
    50-minute episode and asks for 8 to 12 chapters. *)
Theorem prompt_without_timestamps (segments_text : string)
    (actual : option Q) :
  findall_start segments_text = [] ->
  exists prompt : string,
    build_chapters_prompt segments_text actual 5 15 = Ok prompt /\
    occurs_in "cover the ENTIRE 50-minute episode." prompt /\
    occurs_in "- Create 8 to 12 chapters that span the FULL 50 minutes" prompt /\
    occurs_in "- The last chapter MUST extend to approximately 3000 seconds"
              prompt.
Proof.
  intro H. unfold build_chapters_prompt, duration_of_text. rewrite H.
  cbn [bind]. change (chapter_counts 50 5 15) with (Ok (3%Z, 10%Z)).
  cbn [bind]. eexists. split; [reflexivity|].
  repeat split; apply (occurs_in_app _ _ nl nl); apply occurs_in_join;
    eexists; unfold prompt_lines.
  - split; [left; reflexivity|].
    exists "Analyze this podcast transcript and create meaningful chapters that "%string,
      ""%string. reflexivity.
  - split; [do 16 right; left; reflexivity|]. apply occurs_in_refl.
  - split; [do 19 right; left; reflexivity|]. apply occurs_in_refl.
Qed.

Lemma prompt_without_timestamps_witness :
  exists prompt : string,
    build_chapters_prompt "" None 5 15 = Ok prompt /\
    occurs_in "cover the ENTIRE 50-minute episode." prompt /\
    occurs_in "- Create 8 to 12 chapters that span the FULL 50 minutes" prompt /\
    occurs_in "- The last chapter MUST extend to approximately 3000 seconds"
              prompt.
Proof.
  apply (prompt_without_timestamps "" None). reflexivity.
Defined.
End EmptyInput.

(** ** The chapter-count range and the planner's arguments *)

Section PlannerMore.
Import Py Text Segments Json Spec GenerateChapters Inputs.
Local Open Scope Q_scope.

Lemma chapter_counts_inv (dm m X minc ideal : Z) :
  chapter_counts dm m X = Ok (minc, ideal) ->
  (3 <= minc)%Z /\ exists b : Z, ideal = Z.min X (Z.max minc b).
Proof.
  unfold chapter_counts. intro H.
  destruct (div (inject_Z dm) (inject_Z (m * 3))) as [a|e]; [|discriminate H].
  cbn [bind] in H.
  destruct (div (inject_Z dm) (inject_Z m)) as [b|e]; [|discriminate H].
  cbn [bind] in H. injection H as <- <-.
  split; [lia|]. exists (py_int b). reflexivity.
Qed.

(** Whenever the prompt is built with a cap of at least 3, the number of
    chapters it is built around lies between 3 and the cap, so the range
    requested from the model starts at 1 or more and ends at the cap plus
    2 or less. *)
Theorem requested_chapter_range (segments_text : string) (actual : option Q)
    (m X : Z) (prompt : string) :
  (3 <= X)%Z ->
  build_chapters_prompt segments_text actual m X = Ok prompt ->
  exists ideal_chapters : Z,
    (3 <= ideal_chapters <= X)%Z /\
    occurs_in ("- Create " ++ dec (ideal_chapters - 2) ++ " to "
                 ++ dec (ideal_chapters + 2) ++ " chapters")%string prompt.
Proof.
  intros HX H. unfold build_chapters_prompt in H.
  destruct (duration_of_text segments_text) as [[dsec dmin]|e];
    [|discriminate H].
  cbn [bind] in H.
  destruct (chapter_counts dmin m X) as [[minc ideal]|e] eqn:Hc;
    [|discriminate H].
  cbn [bind] in H.
  pose proof (f_equal (fun r => match r with
                                | Ok p => p
                                | Raise _ => prompt
                                end) H) as E.
  cbv beta iota in E. rewrite <- E. clear H E.
  destruct (chapter_counts_inv _ _ _ _ _ Hc) as (Hmin & b & ->).
  exists (Z.min X (Z.max minc b)). split; [lia|].
  apply (occurs_in_app _ _ nl nl). apply occurs_in_join.
  eexists. split.
  - unfold prompt_lines. do 16 right. left. reflexivity.
  - exists ""%string,
      (" that span the FULL " ++ dec dmin ++ " minutes")%string.
    rewrite !string_app_assoc. reflexivity.
Qed.

Lemma requested_chapter_range_witness :
  exists ideal_chapters : Z,
    (3 <= ideal_chapters <= 15)%Z /\
    occurs_in ("- Create " ++ dec (ideal_chapters - 2) ++ " to "
                 ++ dec (ideal_chapters + 2) ++ " chapters")%string
      (nl ++ join nl (prompt_lines (full_rendering short_episode)
                        (inject_Z 90 + inject_Z 0 / inject_Z (10 ^ 1)) 1 5 3)
          ++ nl).
Proof.
  apply (requested_chapter_range (full_rendering short_episode) None 5 15).
  - discriminate.
  - reflexivity.
Defined.

Variable create : string -> Q -> string -> string -> result string.
Variable json_loads : string -> result json.

(** The [min_chapter_minutes] and [actual_duration_seconds] given to the
    planner reach neither the prompt nor the result: the returned chapters
    are the same for any two values, and a prompt built the way the planner
    builds it always demands at least 5 minutes per chapter. *)
Theorem min_chapter_minutes_is_ignored (segs : list segment) (model : string)
    (temperature : Q) (B m1 m2 : Z) (a1 a2 : option Q) :
  snd (generate_chapters create json_loads segs model temperature m1 B a1)
  = snd (generate_chapters create json_loads segs model temperature m2 B a2)
  /\
  forall (segments_text prompt : string),
    build_chapters_prompt segments_text (Some (inject_Z m1)) 5 15
    = Ok prompt ->
    occurs_in "- Each chapter MUST be AT LEAST 5 minutes (300 seconds) long"
              prompt.
Proof.
  split.
  - unfold generate_chapters. cbn [print iobind app].
    destruct (prepare_segments_for_gpt segs B 1) as [log [text|e]];
      [|reflexivity].
    cbn [iobind].
    change (build_chapters_prompt text (Some (inject_Z m1)) 5 15)
      with (build_chapters_prompt text (Some (inject_Z m2)) 5 15).
    destruct (lift (build_chapters_prompt text (Some (inject_Z m2)) 5 15))
      as [l [p|e]]; [|reflexivity].
    cbn [iobind].
    destruct (try_except _ _) as [l' r']. reflexivity.
  - intros text prompt H. unfold build_chapters_prompt in H.
    destruct (duration_of_text text) as [[dsec dmin]|e]; [|discriminate H].
    cbn [bind] in H.
    destruct (chapter_counts dmin 5 15) as [[minc ideal]|e];
      [|discriminate H].
    cbn [bind] in H.
    pose proof (f_equal (fun r => match r with
                                  | Ok p => p
                                  | Raise _ => prompt
                                  end) H) as E.
    cbv beta iota in E. rewrite <- E. clear H E.
    apply (occurs_in_app _ _ nl nl). apply occurs_in_join.
    eexists. split.
    + unfold prompt_lines. do 17 right. left. reflexivity.
    + apply occurs_in_refl.
Qed.
End PlannerMore.

Section PlannerMoreWitness.
Import Py Text Segments Json Spec GenerateChapters Inputs.

Lemma min_chapter_minutes_is_ignored_witness :
  occurs_in "- Each chapter MUST be AT LEAST 5 minutes (300 seconds) long"
            (nl ++ join nl (prompt_lines "" 3000 50 5 10) ++ nl).
Proof.
  apply (proj2 (min_chapter_minutes_is_ignored create_prose
                  loads_empty_object [] "gpt-4o-mini" (3 # 10) 50000 10 20
                  None None) ""%string).
  reflexivity.
Defined.
End PlannerMoreWitness.

(** ** What the planners return *)

Section ResponseMore.
Import Py Text Segments Json Spec Terms Inputs.
Local Open Scope Q_scope.

Lemma getitem_first {A : Type} (l : list A) (a : A) :
  getitem l 0 = Ok a -> nth_error l 0 = Some a.
Proof.
  unfold getitem. simpl. destruct l as [|x l]; simpl; congruence.
Qed.

Lemma getitem_last {A : Type} (l : list A) (a : A) :
  getitem l (-1) = Ok a -> nth_error l (List.length l - 1) = Some a.
Proof.
  unfold getitem. change (-1 <? 0)%Z with true. cbv iota.
  destruct (Z.of_nat (List.length l) + -1 <? 0)%Z eqn:E; [discriminate|].
  apply Z.ltb_ge in E.
  replace (Z.to_nat (Z.of_nat (List.length l) + -1))
    with (List.length l - 1)%nat by lia.
  destruct (nth_error l (List.length l - 1)); congruence.
Qed.

Variable create : string -> Q -> string -> string -> result string.
Variable json_loads : string -> result json.

(** The checks a value passes on its way out of the [try] block. *)
Lemma request_chapters_inv (model : string) (temperature : Q)
    (prompt : string) (log : list GenerateChapters.printed) (v : json) :
  GenerateChapters.request_chapters create json_loads model temperature prompt
  = (log, Ok v) ->
  (exists n, Json.length v = Ok n) /\
  (truthy v = true ->
   exists first fs last le q,
     at_index v 0 = Ok first /\ at_key first "start_seconds" = Ok fs /\
     at_index v (-1) = Ok last /\ at_key last "end_seconds" = Ok le /\
     div60 le = Ok q).
Proof.
  unfold GenerateChapters.request_chapters. intro H.
  destruct (create model temperature GenerateChapters.system_message prompt)
    as [content|e]; [|discriminate H].
  cbn [lift iobind] in H.
  destruct (json_loads content) as [result|e]; [|discriminate H].
  cbn [lift iobind] in H.
  destruct (get result "chapters" (JArr [])) as [chapters|e];
    [|discriminate H].
  cbn [lift iobind] in H.
  destruct (Json.length chapters) as [n|e] eqn:Hlen; [|discriminate H].
  cbn [lift iobind print app] in H.
  destruct (truthy chapters) eqn:Ht.
  - destruct (at_index chapters 0) as [first|e] eqn:H0; [|discriminate H].
    cbn [lift iobind app] in H.
    destruct (at_key first "start_seconds") as [fs|e] eqn:H1;
      [|discriminate H].
    cbn [lift iobind app] in H.
    destruct (at_index chapters (-1)) as [last|e] eqn:H2; [|discriminate H].
    cbn [lift iobind app] in H.
    destruct (at_key last "end_seconds") as [le|e] eqn:H3; [|discriminate H].
    cbn [lift iobind app] in H.
    destruct (div60 le) as [q|e] eqn:H4; [|discriminate H].
    cbn [lift iobind app print ret] in H.
    injection H as _ <-.
    split; [exists n; exact Hlen|]. intros _.
    exists first, fs, last, le, q. auto.
  - cbn [ret iobind app] in H. injection H as _ <-.
    split; [exists n; exact Hlen|]. rewrite Ht. discriminate.
Qed.

(** Whatever the services answer, a non-empty value returned by the
    planner of [generate_chapters.py] is a list whose first element is an
    object with a [start_seconds] entry and whose last element is an
    object with a numeric [end_seconds] entry. *)
Theorem generator_result_is_checked (segs : list segment) (model : string)
    (temperature : Q) (m B : Z) (a : option Q) (v : json) :
  snd (GenerateChapters.generate_chapters create json_loads segs model
         temperature m B a) = Ok v ->
  truthy v = true ->
  exists (l : list json) (first last fs le : json) (minutes : Q),
    v = JArr l /\
    nth_error l 0 = Some first /\
    nth_error l (List.length l - 1) = Some last /\
    at_key first "start_seconds" = Ok fs /\
    at_key last "end_seconds" = Ok le /\
    div60 le = Ok minutes.
Proof.
  unfold GenerateChapters.generate_chapters. cbn [print iobind app].
  destruct (GenerateChapters.prepare_segments_for_gpt segs B 1)
    as [log [text|e]]; [|discriminate].
  cbn [iobind].
  destruct (GenerateChapters.build_chapters_prompt text
              (Some (inject_Z m)) 5 15) as [prompt|e]; [|discriminate].
  cbn [lift iobind].
  destruct (GenerateChapters.request_chapters create json_loads model
              temperature prompt) as [l [v'|e]] eqn:Hr.
  - cbn [try_except snd]. intros Hv Ht. injection Hv as ->.
    destruct (request_chapters_inv _ _ _ _ _ Hr) as [_ Hin].
    destruct (Hin Ht) as (first & fs & last & le & q & H0 & H1 & H2 & H3 & H4).
    destruct v as [| | | s | l0 | kv]; try discriminate H0.
    + simpl in H0.
      destruct (getitem (list_ascii_of_string s) 0) as [c|e];
        [|discriminate H0].
      cbn [bind] in H0. injection H0 as <-. discriminate H1.
    + exists l0, first, last, fs, le, q.
      simpl in H0, H2.
      repeat split; auto using getitem_first, getitem_last.
  - cbn [try_except print iobind ret snd app]. intros Hv Ht.
    injection Hv as <-. discriminate Ht.
Qed.
End ResponseMore.

Section ResponseWitnesses.
Import Py Text Segments Json Spec Terms Inputs.
Local Open Scope Q_scope.

Lemma generator_result_is_checked_witness :
  exists (l : list json) (first last fs le : json) (minutes : Q),
    one_chapter = JArr l /\
    nth_error l 0 = Some first /\
    nth_error l (List.length l - 1) = Some last /\
    at_key first "start_seconds" = Ok fs /\
    at_key last "end_seconds" = Ok le /\
    div60 le = Ok minutes.
Proof.
  apply (generator_result_is_checked create_one_chapter loads_one_chapter
           short_episode "gpt-4o-mini" (3 # 10) 5 50000 None one_chapter);
    reflexivity.
Defined.

Variable create : string -> Q -> string -> string -> result string.
Variable json_loads : string -> result json.

(** The two planners treat the value under [chapters] differently: the
    planner of [transcribe_podcast.py] returns it as it is, whatever it
    is; the planner of [generate_chapters.py] answers a value that has no
    length (a number, a boolean, null) with its error line and the empty
    list. *)
Theorem chapters_value_checks_differ
    (transcript_data : TranscribePodcast.transcript)
    (tlog : list TranscribePodcast.printed) (ttext tprompt content : string)
    (segs : list segment) (model : string) (temperature : Q) (m B : Z)
    (a : option Q) (glog : list GenerateChapters.printed)
    (gtext gprompt gcontent : string)
    (kv gkv : list (string * json)) (v : json) (e : exn) :
  TranscribePodcast._prepare_segments_for_gpt
    (TranscribePodcast.segments transcript_data) 50000 = (tlog, Ok ttext) ->
  TranscribePodcast._build_chapters_prompt ttext = Ok tprompt ->
  create "gpt-4o-mini"%string (2 # 10) TranscribePodcast.system_message tprompt
  = Ok content ->
  json_loads content = Ok (JObj kv) ->
  lookup "chapters" kv = Some v ->
  GenerateChapters.prepare_segments_for_gpt segs B 1 = (glog, Ok gtext) ->
  GenerateChapters.build_chapters_prompt gtext (Some (inject_Z m)) 5 15
  = Ok gprompt ->
  create model temperature GenerateChapters.system_message gprompt
  = Ok gcontent ->
  json_loads gcontent = Ok (JObj gkv) ->
  lookup "chapters" gkv = Some v ->
  Json.length v = Raise e ->
  TranscribePodcast.generate_chapters create json_loads transcript_data
  = ((TranscribePodcast.GeneratingChapters :: tlog)%list, Ok v) /\
  GenerateChapters.generate_chapters create json_loads segs model temperature
    m B a
  = (([GenerateChapters.GeneratingChaptersWith model;
       GenerateChapters.MinimumChapterLength m] ++ glog
        ++ [GenerateChapters.ErrorGeneratingChapters e])%list,
     Ok (JArr [])).
Proof.
  intros Ht Hp Hc Hj Hk Hgt Hgp Hgc Hgj Hgk Hlen. split.
  - rewrite (transcriber_steps create json_loads transcript_data tlog ttext
               tprompt Ht Hp).
    rewrite Hc. cbn [lift iobind]. rewrite Hj. cbn [iobind get].
    rewrite Hk. cbn [try_except fst snd app]. now rewrite app_nil_r.
  - rewrite (generator_steps create json_loads segs model temperature m B a
               glog gtext gprompt Hgt Hgp).
    unfold GenerateChapters.request_chapters.
    rewrite Hgc. cbn [lift iobind]. rewrite Hgj. cbn [iobind get].
    rewrite Hgk. cbn [iobind]. rewrite Hlen. reflexivity.
Qed.

(** An exception raised by the chat call itself is caught by both
    planners: each prints its error line and returns the empty list. *)
Theorem chat_failure_is_caught
    (transcript_data : TranscribePodcast.transcript)
    (tlog : list TranscribePodcast.printed) (ttext tprompt : string)
    (segs : list segment) (model : string) (temperature : Q) (m B : Z)
    (a : option Q) (glog : list GenerateChapters.printed)
    (gtext gprompt : string) (e e' : exn) :
  TranscribePodcast._prepare_segments_for_gpt
    (TranscribePodcast.segments transcript_data) 50000 = (tlog, Ok ttext) ->
  TranscribePodcast._build_chapters_prompt ttext = Ok tprompt ->
  create "gpt-4o-mini"%string (2 # 10) TranscribePodcast.system_message tprompt
  = Raise e ->
  GenerateChapters.prepare_segments_for_gpt segs B 1 = (glog, Ok gtext) ->
  GenerateChapters.build_chapters_prompt gtext (Some (inject_Z m)) 5 15
  = Ok gprompt ->
  create model temperature GenerateChapters.system_message gprompt
  = Raise e' ->
  TranscribePodcast.generate_chapters create json_loads transcript_data
  = ((TranscribePodcast.GeneratingChapters :: tlog
        ++ [TranscribePodcast.ErrorGeneratingChapters e])%list,
     Ok (JArr [])) /\
  GenerateChapters.generate_chapters create json_loads segs model temperature
    m B a
  = (([GenerateChapters.GeneratingChaptersWith model;
       GenerateChapters.MinimumChapterLength m] ++ glog
        ++ [GenerateChapters.ErrorGeneratingChapters e'])%list,
     Ok (JArr [])).
Proof.
  intros Ht Hp Hc Hgt Hgp Hgc. split.
  - apply (transcriber_call_fails create json_loads transcript_data tlog
             ttext tprompt Ht Hp e Hc).
  - apply (generator_call_fails create json_loads segs model temperature m B
             a glog gtext gprompt Hgt Hgp e' Hgc).
Qed.
End ResponseWitnesses.

Section ResponseWitnesses2.
Import Py Text Segments Json Spec Terms Inputs.
Local Open Scope Q_scope.

Lemma chapters_value_checks_differ_witness :
  TranscribePodcast.generate_chapters create_five loads_five empty_transcript
  = ([TranscribePodcast.GeneratingChapters], Ok (JNum 5)) /\
  GenerateChapters.generate_chapters create_five loads_five [] "gpt-4o-mini"
    (3 # 10) 5 50000 None
  = ([GenerateChapters.GeneratingChaptersWith "gpt-4o-mini";
      GenerateChapters.MinimumChapterLength 5;
      GenerateChapters.UsingFullTranscript 0 0;
      GenerateChapters.ErrorGeneratingChapters TypeError],
     Ok (JArr [])).
Proof.
  eapply (chapters_value_checks_differ create_five loads_five
            empty_transcript [] ""%string _ chapters_five [] "gpt-4o-mini"
            (3 # 10) 5 50000 None [GenerateChapters.UsingFullTranscript 0 0]
            ""%string _ chapters_five
            [("chapters"%string, JNum 5)] [("chapters"%string, JNum 5)]
            (JNum 5) TypeError); reflexivity.
Defined.

Lemma chat_failure_is_caught_witness :
  TranscribePodcast.generate_chapters create_failing loads_five
    empty_transcript
  = ([TranscribePodcast.GeneratingChapters;
      TranscribePodcast.ErrorGeneratingChapters APIError],
     Ok (JArr [])) /\
  GenerateChapters.generate_chapters create_failing loads_five [] "gpt-4o-mini"
    (3 # 10) 5 50000 None
  = ([GenerateChapters.GeneratingChaptersWith "gpt-4o-mini";
      GenerateChapters.MinimumChapterLength 5;
      GenerateChapters.UsingFullTranscript 0 0;
      GenerateChapters.ErrorGeneratingChapters APIError],
     Ok (JArr [])).
Proof.
  eapply (chat_failure_is_caught create_failing loads_five empty_transcript
            [] ""%string _ [] "gpt-4o-mini" (3 # 10) 5 50000 None
            [GenerateChapters.UsingFullTranscript 0 0] ""%string _
            APIError APIError); reflexivity.
Defined.
End ResponseWitnesses2.

(** ** [process_podcast] *)

Section PipelineFacts.
Import Py Text Segments Json TranscribePodcast Pipeline Spec Terms Inputs.
Local Open Scope Q_scope.

Variable whisper : string -> result whisper_response.
Variable create : string -> Q -> string -> string -> result string.
Variable json_loads : string -> result json.
Variable insert : list segment_record -> result (list json).
Variables now1 now2 : string.

Lemma iobind_raise {E A B : Type} (l : list E) (e : exn) (k : A -> io E B) :
  iobind (l, Raise e) k = (l, Raise e).
Proof. reflexivity. Qed.

Lemma iobind_fst {E A B : Type} (m : io E A) (k : A -> io E B) :
  fst (iobind m k)
  = match snd m with
    | Ok a => (fst m ++ fst (k a))%list
    | Raise _ => fst m
    end.
Proof.
  destruct m as [l [a|e]]; simpl; [|reflexivity]. now destruct (k a).
Qed.

Lemma iobind_snd {E A B : Type} (m : io E A) (k : A -> io E B) :
  snd (iobind m k)
  = match snd m with
    | Ok a => snd (k a)
    | Raise e => Raise e
    end.
Proof.
  destruct m as [l [a|e]]; simpl; [|reflexivity]. now destruct (k a).
Qed.

Lemma transcribe_chunk_ok (f : string) (i : nat) (r : whisper_response) :
  whisper f = Ok r ->
  transcribe_chunk whisper f i
  = ([Say (TranscribingChunk i f)], Ok (chunk_of_response r)).
Proof. intro H. unfold transcribe_chunk. rewrite H. reflexivity. Qed.

Lemma transcribe_chunk_fails (f : string) (i : nat) (e : exn) :
  whisper f = Raise e ->
  transcribe_chunk whisper f i
  = ([Say (TranscribingChunk i f); Say (ErrorTranscribing i e)], Raise e).
Proof. intro H. unfold transcribe_chunk. rewrite H. reflexivity. Qed.

Lemma body_quiet (count : nat) (O : Q) (acc : list chunk_entry)
    (ic : nat * string) :
  Forall quiet (fst (chunk_loop_body whisper count O acc ic)).
Proof.
  destruct ic as [i f]. unfold chunk_loop_body.
  destruct (whisper f) as [r|e] eqn:Hw.
  - rewrite (transcribe_chunk_ok f i r Hw). cbn [print iobind app].
    destruct (i <? count - 1)%nat; cbn [print ret iobind app fst];
      repeat constructor.
  - rewrite (transcribe_chunk_fails f i e Hw). cbn [print iobind app fst].
    repeat constructor.
Qed.

(** The transcription loop neither writes a file nor calls the
    database. *)
Lemma loop_quiet (count : nat) (O : Q) (l : list (nat * string))
    (acc : list chunk_entry) :
  Forall quiet (fst (for_each (chunk_loop_body whisper count O) l acc)).
Proof.
  revert acc. induction l as [|ic l IH]; intro acc; simpl for_each.
  - constructor.
  - rewrite iobind_fst.
    pose proof (body_quiet count O acc ic) as Hb.
    destruct (snd (chunk_loop_body whisper count O acc ic)) as [acc'|e].
    + apply Forall_app. split; [exact Hb|apply IH].
    + exact Hb.
Qed.

Lemma loop_fails (count : nat) (O : Q) (l : list (nat * string))
    (acc : list chunk_entry) :
  (exists ic e, In ic l /\ whisper (snd ic) = Raise e) ->
  exists e, snd (for_each (chunk_loop_body whisper count O) l acc) = Raise e.
Proof.
  revert acc. induction l as [|[i f] l IH]; intros acc (ic & e & Hin & He).
  - contradiction.
  - simpl for_each. rewrite iobind_snd.
    destruct (whisper f) as [r|e'] eqn:Hw.
    + unfold chunk_loop_body at 1. rewrite (transcribe_chunk_ok f i r Hw).
      cbn [print iobind app].
      assert (Hrest : exists ic e, In ic l /\ whisper (snd ic) = Raise e).
      { destruct Hin as [<- | Hin]; [simpl in He; congruence|].
        exists ic, e. auto. }
      destruct (i <? count - 1)%nat; cbn [print ret iobind app snd];
        apply IH; exact Hrest.
    + exists e'. unfold chunk_loop_body.
      rewrite (transcribe_chunk_fails f i e' Hw). reflexivity.
Qed.

Lemma loop_succeeds (count : nat) (O : Q)
    (responses : string -> whisper_response) (l : list (nat * string))
    (acc : list chunk_entry) :
  (forall ic, In ic l -> whisper (snd ic) = Ok (responses (snd ic))) ->
  snd (for_each (chunk_loop_body whisper count O) l acc)
  = Ok (acc ++ map (entry_at O responses) l)%list.
Proof.
  revert acc. induction l as [|[i f] l IH]; intros acc H.
  - simpl. now rewrite app_nil_r.
  - simpl for_each. rewrite iobind_snd.
    assert (Hw : whisper f = Ok (responses f))
      by (apply (H (i, f)); left; reflexivity).
    unfold chunk_loop_body at 1. rewrite (transcribe_chunk_ok f i _ Hw).
    cbn [print iobind app].
    assert (Hl : forall ic, In ic l ->
                            whisper (snd ic) = Ok (responses (snd ic)))
      by (intros ic Hic; apply H; right; exact Hic).
    destruct (i <? count - 1)%nat; cbn [print ret iobind app snd];
      rewrite (IH _ Hl), <- app_assoc; reflexivity.
Qed.

(** A failing transcription aborts the run: [process_podcast] raises, and
    up to that point it has written no file and made no database call.
    The same holds when there is no chunk file at all, where the
    exception is [ValueError] and nothing is printed either. *)
Theorem failed_transcription_aborts (episode_id : string)
    (chunk_files : list string) (overlap_seconds : Q) :
  let run := process_podcast whisper create json_loads insert now1 now2
               episode_id chunk_files overlap_seconds in
  (chunk_files = [] -> run = ([], Raise ValueError)) /\
  ((exists f e, In f chunk_files /\ whisper f = Raise e) ->
   (exists e, snd run = Raise e) /\ Forall quiet (fst run)).
Proof.
  intro run. split.
  - intros ->. reflexivity.
  - intros (f & e & Hin & He).
    assert (Hf : exists e',
               snd (for_each (chunk_loop_body whisper
                                (List.length chunk_files) overlap_seconds)
                             (enumerate chunk_files) []) = Raise e').
    { apply loop_fails.
      destruct (In_nth_error _ _ Hin) as (k & Hk).
      exists (k, f), e. split; [|exact He].
      apply in_enumerate. exact Hk. }
    pose proof (loop_quiet (List.length chunk_files) overlap_seconds
                  (enumerate chunk_files) []) as Hq.
    destruct Hf as (e' & He').
    unfold run, process_podcast.
    destruct chunk_files as [|f0 rest]; [contradiction|].
    cbn [print iobind app].
    destruct (for_each _ _ _) as [l r]. simpl in He', Hq.
    subst r. cbn [iobind fst snd].
    split; [exists e'; reflexivity|].
    constructor; [exact I|exact Hq].
Qed.
End PipelineFacts.

Section PipelineWitness1.
Import Py Text Segments Json TranscribePodcast Pipeline Spec Terms Inputs.

Lemma failed_transcription_aborts_witness :
  (exists e,
      snd (process_podcast whisper_second_fails create_one_chapter
             loads_one_chapter insert_ok "t1" "t2" "episode" two_chunk_files
             3) = Raise e) /\
  Forall quiet
    (fst (process_podcast whisper_second_fails create_one_chapter
            loads_one_chapter insert_ok "t1" "t2" "episode" two_chunk_files
            3)).
Proof.
  apply (proj2 (failed_transcription_aborts whisper_second_fails
                  create_one_chapter loads_one_chapter insert_ok "t1" "t2"
                  "episode" two_chunk_files 3)).
  exists "chunk_002.mp3"%string, APIError.
  split; [right; left; reflexivity|reflexivity].
Defined.
End PipelineWitness1.

Section PipelineOrder.
Import Py Text Segments Json TranscribePodcast Pipeline Spec Terms Inputs.
Local Open Scope Q_scope.

Variable whisper : string -> result whisper_response.
Variable create : string -> Q -> string -> string -> result string.
Variable json_loads : string -> result json.
Variable insert : list segment_record -> result (list json).
Variables now1 now2 : string.

Lemma quiet_no_insert (l : list effect) : Forall quiet l -> Forall no_insert l.
Proof.
  intro H. eapply Forall_impl; [|exact H]. intros [] Hq; simpl in *; tauto.
Qed.

Lemma planner_no_insert (l : list printed) : Forall no_insert (map Planner l).
Proof. apply Forall_forall. intros ev H. apply in_map_iff in H.
  destruct H as (p & <- & _). exact I. Qed.

Lemma save_chapters_no_insert (chapters : json) :
  Forall no_insert (fst (save_chapters_locally chapters)).
Proof.
  unfold save_chapters_locally. destruct (negb (truthy chapters)).
  - repeat constructor.
  - rewrite iobind_fst. cbn [print fst snd]. rewrite iobind_fst.
    destruct (Json.length chapters); cbn [lift print fst snd];
      repeat constructor.
Qed.

(** The database stage inserts the records of the merged transcript and
    nothing else. *)
Lemma save_to_supabase_inserts (episode_id : string) (merged : transcript) :
  Forall (fun ev => no_insert ev \/ ev = Insert (records_of episode_id merged))
         (fst (save_to_supabase insert episode_id merged)).
Proof.
  unfold save_to_supabase. rewrite iobind_fst. cbn [print fst snd].
  fold (records_of episode_id merged).
  destruct (records_of episode_id merged) as [|r rs] eqn:E.
  - constructor; [left; exact I|constructor].
  - rewrite iobind_fst. cbn [print fst snd]. rewrite iobind_fst.
    destruct (insert (r :: rs)) as [data|e]; cbn [lift fst snd].
    + rewrite iobind_fst. cbn [print ret fst snd app].
      constructor; [left; exact I|].
      constructor; [right; reflexivity|].
      constructor; [left; exact I|constructor].
    + constructor; [left; exact I|].
      constructor; [right; reflexivity|constructor].
Qed.

(** The effects of a run: either no database call at all, or a segment
    of effects without database call in which both local files are
    written, followed by effects whose only database call inserts the
    records of the transcript written. *)
Lemma run_shape (episode_id : string) (chunk_files : list string) (O : Q) :
  let log := fst (process_podcast whisper create json_loads insert now1 now2
                    episode_id chunk_files O) in
  Forall no_insert log \/
  exists (merged : transcript) (cd : list chunk_entry) (A B : list effect),
    log = (A ++ B)%list /\
    Forall no_insert A /\
    In (Write "transcript_full.json"
          (TranscriptFull episode_id merged (List.length cd) now1)) A /\
    In (Write "chunk_transcripts.json" (ChunkTranscripts episode_id cd now2))
       A /\
    Forall (fun ev => no_insert ev \/ ev = Insert (records_of episode_id merged))
           B.
Proof.
  intro log.
  assert (G : forall lg : list effect,
             lg = log ->
             Forall no_insert lg \/
             exists (merged : transcript) (cd : list chunk_entry)
                    (A B : list effect),
               lg = (A ++ B)%list /\
               Forall no_insert A /\
               In (Write "transcript_full.json"
                     (TranscriptFull episode_id merged (List.length cd) now1))
                  A /\
               In (Write "chunk_transcripts.json"
                     (ChunkTranscripts episode_id cd now2)) A /\
               Forall (fun ev => no_insert ev
                                 \/ ev = Insert (records_of episode_id merged))
                      B); [|apply (G log eq_refl)].
  intro lg. unfold log, process_podcast. clear log.
  destruct chunk_files as [|f0 rest]; [intros ->; left; constructor|].
  set (files := f0 :: rest).
  rewrite iobind_fst. cbn [print fst snd].
  rewrite iobind_fst.
  pose proof (loop_quiet whisper (List.length files) O (enumerate files) [])
    as Hq.
  apply quiet_no_insert in Hq.
  destruct (for_each _ _ _) as [L [cd|e]]; cbn [fst snd] in *.
  2:{ intros ->. left. constructor; [exact I|exact Hq]. }
  set (merged := merge_transcripts (map to_chunk_data cd) O).
  do 4 (rewrite iobind_fst; cbn [print fst snd]).
  rewrite iobind_fst. unfold embed at 1 2. cbn [fst snd].
  destruct (generate_chapters create json_loads merged) as [pl [chapters|e]];
    cbn [fst snd].
  2:{ intros ->. left. constructor; [exact I|].
      apply Forall_app. split; [exact Hq|].
      repeat (constructor; [exact I|]). apply planner_no_insert. }
  rewrite iobind_fst.
  match goal with
  | |- context [match snd ?t with _ => _ end] => remember t as sc eqn:Hsc
  end.
  assert (Hch : Forall no_insert (fst sc)).
  { rewrite Hsc.
    destruct (truthy chapters); [apply save_chapters_no_insert|constructor]. }
  clear Hsc. destruct sc as [cl [[]|e]]; cbn [fst snd] in *.
  2:{ intros ->. left. constructor; [exact I|].
      apply Forall_app. split; [exact Hq|].
      repeat (constructor; [exact I|]).
      apply Forall_app. split; [apply planner_no_insert|exact Hch]. }
  do 2 (rewrite iobind_fst; cbn [print fst snd]).
  intro Hlg. right. exists merged, cd.
  exists ([Say (FoundChunks (List.length files))] ++ L
            ++ [Say MergingTranscripts; Say SavingLocally;
                Write "transcript_full.json"
                  (TranscriptFull episode_id merged (List.length cd) now1);
                Say SavedFullTranscript]
            ++ map Planner pl ++ cl
            ++ [Write "chunk_transcripts.json"
                  (ChunkTranscripts episode_id cd now2);
                Say SavedChunkTranscripts])%list.
  eexists. split; [|split; [|split; [|split]]].
  - rewrite Hlg. simpl. rewrite <- !app_assoc. simpl. rewrite <- !app_assoc.
    reflexivity.
  - constructor; [exact I|].
    apply Forall_app. split; [exact Hq|].
    repeat (constructor; [exact I|]).
    apply Forall_app. split; [apply planner_no_insert|].
    apply Forall_app. split; [exact Hch|]. repeat constructor.
  - simpl. right. apply in_or_app. right. simpl. right. right. left.
    reflexivity.
  - simpl. right. apply in_or_app. right. simpl. do 4 right.
    apply in_or_app. right. apply in_or_app. right. simpl. left. reflexivity.
  - clear Hlg. rewrite iobind_fst.
    match goal with
    | |- context [match snd ?t with _ => _ end] => remember t as db eqn:Hdbe
    end.
    assert (Hdb : Forall (fun ev => no_insert ev
                                    \/ ev = Insert (records_of episode_id merged))
                    (fst db)).
    { rewrite Hdbe.
      pose proof (save_to_supabase_inserts episode_id merged) as Hs.
      cbn [print iobind app].
      destruct (save_to_supabase insert episode_id merged) as [sl [data|e]];
        cbn [fst snd iobind print ret try_except app] in *.
      - constructor; [left; exact I|].
        apply Forall_app. split; [exact Hs|].
        constructor; [left; exact I|constructor].
      - constructor; [left; exact I|].
        apply Forall_app. split; [exact Hs|].
        constructor; [left; exact I|].
        constructor; [left; exact I|constructor]. }
    clear Hdbe. destruct db as [dl [records|e]]; cbn [fst snd] in *;
      [|exact Hdb].
    apply Forall_app. split; [exact Hdb|].
    destruct (Json.length chapters) as [n|e]; simpl;
      repeat (constructor; [left; exact I|]); constructor.
Qed.
End PipelineOrder.

Section PipelineOrderTheorem.
Import Py Text Segments Json TranscribePodcast Pipeline Spec Terms Inputs.
Local Open Scope Q_scope.

Lemma insert_beyond_prefix (A B pre post : list effect)
    (recs : list segment_record) :
  Forall no_insert A ->
  (A ++ B)%list = (pre ++ Insert recs :: post)%list ->
  exists C, pre = (A ++ C)%list /\ B = (C ++ Insert recs :: post)%list.
Proof.
  intro HA. revert pre. induction HA as [|a A Ha HA IH]; intros pre H.
  - exists pre. auto.
  - destruct pre as [|p pre]; simpl in H.
    + injection H as -> _. contradiction.
    + injection H as -> H. destruct (IH pre H) as (C & -> & ->).
      exists C. auto.
Qed.

Variable whisper : string -> result whisper_response.
Variable create : string -> Q -> string -> string -> result string.
Variable json_loads : string -> result json.
Variable insert : list segment_record -> result (list json).
Variables now1 now2 : string.

(** Local files come first: whenever a run reaches the database, it has
    already written [transcript_full.json] and [chunk_transcripts.json],
    and what it inserts are the records of the segments of the transcript
    it has written. *)
Theorem local_files_before_database (episode_id : string)
    (chunk_files : list string) (overlap_seconds : Q)
    (pre post : list effect) (recs : list segment_record) :
  fst (process_podcast whisper create json_loads insert now1 now2 episode_id
         chunk_files overlap_seconds)
  = (pre ++ Insert recs :: post)%list ->
  exists (merged : transcript) (cd : list chunk_entry),
    In (Write "transcript_full.json"
          (TranscriptFull episode_id merged (List.length cd) now1)) pre /\
    In (Write "chunk_transcripts.json" (ChunkTranscripts episode_id cd now2))
       pre /\
    recs = records_of episode_id merged.
Proof.
  intro H.
  destruct (run_shape whisper create json_loads insert now1 now2 episode_id
              chunk_files overlap_seconds)
    as [Hno | (merged & cd & A & B & HAB & HA & Hfull & Hchunks & HB)].
  - rewrite H in Hno. rewrite Forall_forall in Hno.
    exfalso. apply (Hno (Insert recs)). apply in_or_app. right. left.
    reflexivity.
  - rewrite H in HAB. symmetry in HAB.
    destruct (insert_beyond_prefix A B pre post recs HA HAB) as (C & -> & ->).
    exists merged, cd. split; [|split].
    + apply in_or_app. left. exact Hfull.
    + apply in_or_app. left. exact Hchunks.
    + rewrite Forall_forall in HB.
      destruct (HB (Insert recs)) as [Hn | He].
      * apply in_or_app. right. left. reflexivity.
      * contradiction.
      * congruence.
Qed.
End PipelineOrderTheorem.

Section PipelineSummary.
Import Py Text Segments Json TranscribePodcast Pipeline Spec Terms Inputs.
Local Open Scope Q_scope.

Variable whisper : string -> result whisper_response.
Variable create : string -> Q -> string -> string -> result string.
Variable json_loads : string -> result json.
Variable insert : list segment_record -> result (list json).
Variables now1 now2 : string.

Variable responses : string -> whisper_response.
Variable episode_id : string.
Variable chunk_files : list string.
Variable O : Q.
Hypothesis Hfiles : chunk_files <> [].
Hypothesis Hwhisper :
  forall f, In f chunk_files -> whisper f = Ok (responses f).

Let merged := merged_of O responses chunk_files.
Let run :=
  process_podcast whisper create json_loads insert now1 now2 episode_id
    chunk_files O.

Lemma loop_result :
  snd (for_each (chunk_loop_body whisper (List.length chunk_files) O)
                (enumerate chunk_files) [])
  = Ok (entries O responses chunk_files).
Proof.
  rewrite (loop_succeeds whisper (List.length chunk_files) O responses).
  - reflexivity.
  - intros [i f] Hin. apply Hwhisper. simpl.
    apply in_enumerate in Hin. eapply nth_error_In. exact Hin.
Qed.

Lemma database_stage_result :
  snd (try_except
         (_ <~ print (Say AttemptingDatabase) ;;
          records <~ save_to_supabase insert episode_id merged ;;
          _ <~ print (Say (DatabaseSuccess (List.length records))) ;;
          ret records)
         (fun e =>
            _ <~ print (Say (DatabaseFailed e)) ;;
            _ <~ print (Say SafelySavedLocally) ;;
            ret []))
  = Ok (match records_of episode_id merged with
        | [] => []
        | _ :: _ =>
            match insert (records_of episode_id merged) with
            | Ok data => data
            | Raise _ => []
            end
        end).
Proof.
  unfold save_to_supabase. fold (records_of episode_id merged).
  destruct (records_of episode_id merged) as [|r rs]; [reflexivity|].
  destruct (insert (r :: rs)) as [data|e]; reflexivity.
Qed.

(** When every transcription answers and the value the planner returns
    has a length, [process_podcast] returns its summary whatever the
    database does: [chapters_count] is that length and [segments_count]
    is the number of rows the insertion answered, 0 when the insertion
    raises or there is no segment to insert. *)
Theorem run_summary (pl : list printed) (v : json) (n : Z) :
  generate_chapters create json_loads merged = (pl, Ok v) ->
  Json.length v = Ok n ->
  snd run
  = Ok {| summary_episode_id := episode_id;
          segments_count := rows_saved insert (records_of episode_id merged);
          chapters_count := n |}.
Proof.
  intros Hplan Hlen.
  pose proof loop_result as Hloop.
  pose proof database_stage_result as Hdb.
  unfold run, process_podcast. fold merged in Hdb.
  set (m := merged) in *. unfold merged, merged_of in m.
  clearbody run.
  destruct chunk_files as [|f0 rest]; [contradiction|].
  set (files := f0 :: rest) in *.
  rewrite iobind_snd. cbn [print snd].
  rewrite iobind_snd, Hloop.
  fold m.
  do 4 (rewrite iobind_snd; cbn [print snd]).
  rewrite iobind_snd. unfold embed. rewrite Hplan. cbn [snd].
  rewrite iobind_snd.
  assert (Hsave : snd (if truthy v then save_chapters_locally v else ret tt)
                  = Ok tt).
  { destruct (truthy v) eqn:Ht; [|reflexivity].
    unfold save_chapters_locally. rewrite Ht. cbn [negb].
    rewrite iobind_snd. cbn [print snd]. rewrite iobind_snd.
    cbn [lift snd]. rewrite Hlen. reflexivity. }
  match goal with
  | |- context [match snd ?t with _ => _ end] =>
      replace (snd t) with (@Ok unit tt)
  end.
  do 2 (rewrite iobind_snd; cbn [print snd]).
  rewrite iobind_snd, Hdb.
  do 5 (rewrite iobind_snd; cbn [print snd]).
  rewrite iobind_snd. cbn [lift snd]. rewrite Hlen.
  do 2 (rewrite iobind_snd; cbn [print snd]).
  rewrite iobind_snd. cbn [lift ret snd].
  unfold rows_saved.
  destruct (records_of episode_id m) as [|r rs]; [reflexivity|].
  destruct (insert (r :: rs)); reflexivity.
Qed.
End PipelineSummary.

Section PipelineWitness2.
Import Py Text Segments Json TranscribePodcast Pipeline Spec Terms Inputs.
Local Open Scope Q_scope.

Lemma local_files_before_database_witness :
  exists (merged : transcript) (cd : list chunk_entry),
    In (Write "transcript_full.json"
          (TranscriptFull "episode" merged (List.length cd) "t1"))
       (firstn 14
          (fst (process_podcast whisper_ok create_one_chapter
                  loads_one_chapter insert_ok "t1" "t2" "episode"
                  ["chunk_001.mp3"%string] 3))) /\
    In (Write "chunk_transcripts.json" (ChunkTranscripts "episode" cd "t2"))
       (firstn 14
          (fst (process_podcast whisper_ok create_one_chapter
                  loads_one_chapter insert_ok "t1" "t2" "episode"
                  ["chunk_001.mp3"%string] 3))) /\
    [ {| rec_episode_id := "episode"; rec_start_seconds := 4 + 0;
         rec_end_seconds := 6 + 0; rec_text := "So, welcome." |} ]
    = records_of "episode" merged.
Proof.
  apply (local_files_before_database whisper_ok create_one_chapter
           loads_one_chapter insert_ok "t1" "t2" "episode"
           ["chunk_001.mp3"%string] 3 _
           (skipn 15
              (fst (process_podcast whisper_ok create_one_chapter
                      loads_one_chapter insert_ok "t1" "t2" "episode"
                      ["chunk_001.mp3"%string] 3)))).
  reflexivity.
Defined.

Lemma run_summary_witness :
  snd (process_podcast whisper_ok create_one_chapter loads_one_chapter
         insert_failing "t1" "t2" "episode" two_chunk_files 3)
  = Ok {| summary_episode_id := "episode";
          segments_count := 0;
          chapters_count := 1 |}.
Proof.
  eapply (run_summary whisper_ok create_one_chapter loads_one_chapter
            insert_failing "t1" "t2" (fun _ => one_segment_response)
            "episode" two_chunk_files 3).
  - discriminate.
  - intros f _. reflexivity.
  - reflexivity.
  - reflexivity.
Defined.
End PipelineWitness2.

Section PipelineChaptersValue.
Import Py Text Segments Json TranscribePodcast Pipeline Spec Terms Inputs.
Local Open Scope Q_scope.

Variable whisper : string -> result whisper_response.
Variable create : string -> Q -> string -> string -> result string.
Variable json_loads : string -> result json.
Variable insert : list segment_record -> result (list json).
Variables now1 now2 : string.

Variable responses : string -> whisper_response.
Variable episode_id : string.
Variable chunk_files : list string.
Variable O : Q.
Hypothesis Hfiles : chunk_files <> [].
Hypothesis Hwhisper :
  forall f, In f chunk_files -> whisper f = Ok (responses f).

Let merged := merged_of O responses chunk_files.
Let run :=
  process_podcast whisper create json_loads insert now1 now2 episode_id
    chunk_files O.

Lemma quiet_is_no_insert (l : list effect) :
  Forall quiet l -> Forall no_insert l.
Proof.
  apply Forall_impl. intros [ | | | | ] H; try exact I; contradiction.
Qed.

Lemma quiet_not_write (l : list effect) (f : string) (d : document) :
  Forall quiet l -> ~ In (Write f d) l.
Proof.
  intros H Hin. rewrite Forall_forall in H. exact (H _ Hin).
Qed.

Lemma planner_quiet (pl : list printed) : Forall quiet (map Planner pl).
Proof. induction pl; simpl; constructor; [exact I|assumption]. Qed.

(** A truthy value without a length under the [chapters] key (a number
    other than 0, or [true]) stops the run in [save_chapters_locally]:
    [chapters.json] is the last thing written, [chunk_transcripts.json]
    is never written and the database is never called. *)
Theorem number_for_chapters_stops_before_database (pl : list printed)
    (v : json) (e : exn) :
  generate_chapters create json_loads merged = (pl, Ok v) ->
  truthy v = true ->
  Json.length v = Raise e ->
  snd run = Raise e /\
  exists pre,
    fst run = (pre ++ [Write "chapters.json" (ChaptersFile v)])%list /\
    Forall no_insert pre /\
    (forall d, ~ In (Write "chunk_transcripts.json" d) pre).
Proof.
  intros Hplan Ht Hlen.
  pose proof (loop_result whisper responses chunk_files O Hwhisper) as Hloop.
  pose proof (loop_quiet whisper (List.length chunk_files) O
                (enumerate chunk_files) []) as Hq.
  unfold run, process_podcast. clearbody run.
  set (m := merged) in *. unfold merged, merged_of in m.
  destruct chunk_files as [|f0 rest]; [contradiction|].
  set (files := f0 :: rest) in *.
  set (loop := for_each _ _ _) in *.
  assert (Hsave : (if truthy v then save_chapters_locally v else ret tt)
                  = ([Write "chapters.json" (ChaptersFile v)], Raise e)).
  { rewrite Ht. unfold save_chapters_locally. rewrite Ht. cbn [negb].
    cbn [print iobind]. rewrite Hlen. reflexivity. }
  split.
  - rewrite iobind_snd. cbn [print snd].
    rewrite iobind_snd, Hloop. fold m.
    do 4 (rewrite iobind_snd; cbn [print snd]).
    rewrite iobind_snd. unfold embed. rewrite Hplan. cbn [snd].
    rewrite iobind_snd, Hsave. reflexivity.
  - rewrite iobind_fst. cbn [print snd fst].
    rewrite iobind_fst, Hloop. fold m.
    do 4 (rewrite iobind_fst; cbn [print snd fst]).
    rewrite iobind_fst. unfold embed. rewrite Hplan. cbn [snd fst].
    rewrite iobind_fst, Hsave. cbn [snd fst].
    eexists.
    split; [rewrite !app_assoc; reflexivity|].
    split.
    + repeat (apply Forall_app; split);
        try (apply quiet_is_no_insert; first [exact Hq|apply planner_quiet]);
        repeat constructor.
    + intros d Hin.
      repeat (apply in_app_or in Hin; destruct Hin as [Hin|Hin]).
      all: try (revert Hin; apply quiet_not_write;
                first [exact Hq|apply planner_quiet|solve [repeat constructor]]).
      destruct Hin as [Hin|[]]. discriminate Hin.
Qed.

Ltac find_in tac :=
  first
    [ solve [tac]
    | lazymatch goal with
      | |- In _ (_ ++ _)%list =>
          apply in_or_app; first [left; find_in tac | right; find_in tac]
      | |- In _ (_ :: _) => first [left; reflexivity | right; find_in tac]
      end ].

Lemma database_stage_log :
  records_of episode_id merged <> [] ->
  In (Insert (records_of episode_id merged))
     (fst (try_except
             (_ <~ print (Say AttemptingDatabase) ;;
              records <~ save_to_supabase insert episode_id merged ;;
              _ <~ print (Say (DatabaseSuccess (List.length records))) ;;
              ret records)
             (fun e =>
                _ <~ print (Say (DatabaseFailed e)) ;;
                _ <~ print (Say SafelySavedLocally) ;;
                ret []))).
Proof.
  unfold save_to_supabase. fold (records_of episode_id merged).
  destruct (records_of episode_id merged) as [|r rs]; [congruence|].
  intros _. destruct (insert (r :: rs)) as [data|e]; simpl; auto.
Qed.

(** A falsy value without a length under the [chapters] key ([null],
    [false] or 0) is only noticed by the [len(chapters)] of the closing
    summary: the run raises there, after it has written
    [chunk_transcripts.json], inserted the segments into the database and
    rewritten [transcript_full.json] with that value as its chapters. *)
Theorem null_chapters_fail_after_database (pl : list printed) (v : json)
    (e : exn) :
  generate_chapters create json_loads merged = (pl, Ok v) ->
  truthy v = false ->
  Json.length v = Raise e ->
  let saved := rows_saved insert (records_of episode_id merged) in
  let count := List.length (entries O responses chunk_files) in
  snd run = Raise e /\
  In (Write "chunk_transcripts.json"
        (ChunkTranscripts episode_id (entries O responses chunk_files) now2))
     (fst run) /\
  (records_of episode_id merged <> [] ->
   In (Insert (records_of episode_id merged)) (fst run)) /\
  In (Write "transcript_full.json"
        (TranscriptFullUpdated episode_id merged count now1 v saved
           (0 <? saved)%nat))
     (fst run).
Proof.
  intros Hplan Ht Hlen saved count.
  pose proof (loop_result whisper responses chunk_files O Hwhisper) as Hloop.
  pose proof (database_stage_result insert responses episode_id chunk_files O)
    as Hdb.
  pose proof database_stage_log as Hdl.
  unfold run, process_podcast. clearbody run.
  fold merged in Hdb.
  assert (Hsaved : saved
                   = List.length
                       (match records_of episode_id merged with
                        | [] => []
                        | _ :: _ =>
                            match insert (records_of episode_id merged) with
                            | Ok data => data
                            | Raise _ => []
                            end
                        end)).
  { unfold saved, rows_saved.
    destruct (records_of episode_id merged) as [|r rs]; [reflexivity|].
    destruct (insert (r :: rs)); reflexivity. }
  clearbody saved.
  set (m := merged) in *. unfold merged, merged_of in m.
  destruct chunk_files as [|f0 rest]; [contradiction|].
  set (files := f0 :: rest) in *.
  set (loop := for_each _ _ _) in *.
  assert (Hsave : (if truthy v then save_chapters_locally v else ret tt)
                  = ([], Ok tt)).
  { rewrite Ht. reflexivity. }
  split; [|split; [|split]].
  - rewrite iobind_snd. cbn [print snd].
    rewrite iobind_snd, Hloop. fold m.
    do 4 (rewrite iobind_snd; cbn [print snd]).
    rewrite iobind_snd. unfold embed. rewrite Hplan. cbn [snd].
    rewrite iobind_snd, Hsave. cbn [snd].
    do 2 (rewrite iobind_snd; cbn [print snd]).
    rewrite iobind_snd, Hdb.
    do 5 (rewrite iobind_snd; cbn [print snd]).
    rewrite iobind_snd. cbn [lift snd]. rewrite Hlen. reflexivity.
  - rewrite iobind_fst. cbn [print snd fst].
    rewrite iobind_fst, Hloop. fold m.
    do 4 (rewrite iobind_fst; cbn [print snd fst]).
    rewrite iobind_fst. unfold embed. rewrite Hplan. cbn [snd fst].
    rewrite iobind_fst, Hsave. cbn [snd fst].
    rewrite iobind_fst. cbn [print snd fst].
    find_in fail.
  - intro Hne.
    rewrite iobind_fst. cbn [print snd fst].
    rewrite iobind_fst, Hloop. fold m.
    do 4 (rewrite iobind_fst; cbn [print snd fst]).
    rewrite iobind_fst. unfold embed. rewrite Hplan. cbn [snd fst].
    rewrite iobind_fst, Hsave. cbn [snd fst].
    do 2 (rewrite iobind_fst; cbn [print snd fst]).
    rewrite iobind_fst, Hdb.
    find_in ltac:(apply Hdl; exact Hne).
  - rewrite iobind_fst. cbn [print snd fst].
    rewrite iobind_fst, Hloop. fold m.
    do 4 (rewrite iobind_fst; cbn [print snd fst]).
    rewrite iobind_fst. unfold embed. rewrite Hplan. cbn [snd fst].
    rewrite iobind_fst, Hsave. cbn [snd fst].
    do 2 (rewrite iobind_fst; cbn [print snd fst]).
    rewrite iobind_fst, Hdb.
    rewrite iobind_fst. cbn [print snd fst].
    rewrite Hsaved. find_in fail.
Qed.
End PipelineChaptersValue.

Section PipelineWitness3.
Import Py Text Segments Json TranscribePodcast Pipeline Spec Terms Inputs.
Local Open Scope Q_scope.

Lemma number_for_chapters_stops_before_database_witness :
  snd (process_podcast whisper_ok create_five loads_five insert_ok "t1" "t2"
         "episode" two_chunk_files 3) = Raise TypeError /\
  exists pre,
    fst (process_podcast whisper_ok create_five loads_five insert_ok "t1"
           "t2" "episode" two_chunk_files 3)
    = (pre ++ [Write "chapters.json" (ChaptersFile (JNum 5))])%list /\
    Forall no_insert pre /\
    (forall d, ~ In (Write "chunk_transcripts.json" d) pre).
Proof.
  eapply (number_for_chapters_stops_before_database whisper_ok create_five
            loads_five insert_ok "t1" "t2" (fun _ => one_segment_response)
            "episode" two_chunk_files 3).
  - discriminate.
  - intros f _. reflexivity.
  - reflexivity.
  - reflexivity.
  - reflexivity.
Defined.

Lemma null_chapters_fail_after_database_witness :
  snd (process_podcast whisper_ok create_null loads_null insert_ok "t1" "t2"
          "episode" two_chunk_files 3) = Raise TypeError /\
  In (Write "chunk_transcripts.json"
        (ChunkTranscripts "episode"
           (entries 3 (fun _ => one_segment_response) two_chunk_files) "t2"))
     (fst (process_podcast whisper_ok create_null loads_null insert_ok "t1" "t2"
          "episode" two_chunk_files 3)) /\
  (records_of "episode" (merged_of 3 (fun _ => one_segment_response) two_chunk_files) <> [] ->
   In (Insert (records_of "episode" (merged_of 3 (fun _ => one_segment_response) two_chunk_files)))
      (fst (process_podcast whisper_ok create_null loads_null insert_ok "t1" "t2"
          "episode" two_chunk_files 3))) /\
  In (Write "transcript_full.json"
        (TranscriptFullUpdated "episode" (merged_of 3 (fun _ => one_segment_response) two_chunk_files) 2 "t1" JNull 2 true))
     (fst (process_podcast whisper_ok create_null loads_null insert_ok "t1" "t2"
          "episode" two_chunk_files 3)).
Proof.
  eapply (null_chapters_fail_after_database whisper_ok create_null
            loads_null insert_ok "t1" "t2" (fun _ => one_segment_response)
            "episode" two_chunk_files 3).
  - discriminate.
  - intros f _. reflexivity.
  - reflexivity.
  - reflexivity.
  - reflexivity.
Defined.
End PipelineWitness3.

(** ** The chunker and [process_podcast] together *)

Section SplitterAndTranscriber.
Import Py SplitPodcast Spec Terms Inputs.
Local Open Scope Q_scope.

Lemma nth_filter_seq (f : nat -> bool) (n a p i : nat) :
  nth_error (filter f (seq a n)) p = Some i ->
  (a + p <= i)%nat /\ (i < a + n)%nat /\
  ((forall j, (a <= j < i)%nat -> f j = true) <-> i = (a + p)%nat).
Proof.
  revert a p. induction n as [|n IH]; intros a p H; simpl in H.
  - destruct p; discriminate.
  - destruct (f a) eqn:Hfa.
    + destruct p as [|p]; simpl in H.
      * injection H as <-. split; [lia|]. split; [lia|].
        split; [intros _; lia|]. intros _ j Hj. lia.
      * destruct (IH (S a) p H) as (Hle & Hlt & Hiff).
        split; [lia|]. split; [lia|]. split.
        -- intro Hall. assert (i = (S a + p)%nat); [|lia].
           apply Hiff. intros j Hj. apply Hall. lia.
        -- intros Hi j Hj. destruct (Nat.eq_dec j a) as [->|Hne];
             [exact Hfa|].
           apply (proj2 Hiff); lia.
    + destruct (IH (S a) p H) as (Hle & Hlt & _).
      split; [lia|]. split; [lia|]. split.
      * intro Hall. rewrite Hall in Hfa by lia. discriminate.
      * intro Hi. lia.
Qed.

(** The offset [process_podcast] gives the chunk file at position [p],
    against where [split_audio] (run with chunks of 600 seconds and the
    same overlap, [0 <= O < 600]) cut the [p]-th chunk it returned: the
    two are equal exactly when the chunk has index [p], which is the case
    exactly when no earlier media invocation failed; otherwise the chunk
    has a larger index and the offset is too small by at least
    [600 - O] seconds. *)
Theorem transcriber_offsets_match_splitter (w : world) (O : Q)
    (chunks : list chunk_info) (p : nat) (c : chunk_info) :
  split_audio w 600 O = Ok chunks ->
  0 <= O -> O < 600 ->
  nth_error chunks p = Some c ->
  (p <= index c)%nat /\
  ((forall j, (j < index c)%nat -> ffmpeg_ok w j = true) <-> index c = p) /\
  (actual_start_time c == Pipeline.start_offset O p <-> index c = p) /\
  ((p < index c)%nat ->
   Pipeline.start_offset O p + (600 - O) <= actual_start_time c).
Proof.
  intros Hsplit HO HO600 Hnth.
  destruct (split_audio_inv w 600 O chunks Hsplit) as [-> | (_ & _ & ->)].
  { destruct p; discriminate. }
  set (N := ceil (total_duration w / 600)) in *.
  rewrite nth_error_map in Hnth.
  destruct (nth_error (filter (kept w 600 O N) (range N)) p) as [i|] eqn:Hi;
    [|discriminate].
  injection Hnth as <-. cbn [index actual_start_time window].
  unfold range in Hi.
  destruct (nth_filter_seq _ _ _ _ _ Hi) as (Hle & Hlt & Hiff).
  simpl in Hle, Hlt.
  assert (Hkept : forall j, (j < i)%nat -> kept w 600 O N j = ffmpeg_ok w j).
  { intros j Hj. unfold kept, duration.
    assert (Hb : (Z.of_nat j <? N - 1)%Z = true) by (apply Z.ltb_lt; lia).
    rewrite Hb.
    assert (Hd : ltb (600 + O) 1 = false) by (apply ltb_ge; lra).
    rewrite Hd. reflexivity. }
  assert (Hsame : i = p ->
                  start_time 600 O i == Pipeline.start_offset O p).
  { intros <-. unfold start_time, Pipeline.start_offset, of_nat.
    destruct (Nat.eqb i 0) eqn:E; [|reflexivity].
    apply Nat.eqb_eq in E. subst i. reflexivity. }
  assert (Hlater : (p < i)%nat ->
                   Pipeline.start_offset O p + (600 - O)
                   <= start_time 600 O i).
  2:{ split; [exact Hle|]. split; [|split; [|exact Hlater]].
      - rewrite <- Hiff. split; intros H j Hj.
        + rewrite Hkept by lia. apply H. lia.
        + rewrite <- Hkept by lia. apply H. lia.
      - split; [|exact Hsame]. intro Heq.
        destruct (Nat.eq_dec i p) as [E|E]; [exact E|].
        assert (Hp : (p < i)%nat) by lia.
        apply Hlater in Hp. rewrite Heq in Hp. lra. }
  intro Hp. unfold start_time, Pipeline.start_offset.
  assert (Hi0 : Nat.eqb i 0 = false) by (apply Nat.eqb_neq; lia).
  rewrite Hi0.
  assert (Hip : of_nat p + 1 <= of_nat i).
  { rewrite <- of_nat_S. unfold of_nat. rewrite <- Zle_Qle. lia. }
  fold (of_nat p).
  pose proof (of_nat_nonneg p) as Hp0.
  destruct (Nat.eqb p 0) eqn:E.
  - apply Nat.eqb_eq in E. subst p.
    change (of_nat 0) with 0 in *. lra.
  - lra.
Qed.

Lemma transcriber_offsets_match_splitter_witness :
  (1 <= 2)%nat /\
  ((forall j, (j < 2)%nat -> ffmpeg_ok world_second_fails j = true)
   <-> 2%nat = 1%nat) /\
  (1197 == Pipeline.start_offset 3 1 <-> 2%nat = 1%nat) /\
  ((1 < 2)%nat -> Pipeline.start_offset 3 1 + (600 - 3) <= 1197).
Proof.
  apply (transcriber_offsets_match_splitter world_second_fails 3
           [ window world_second_fails 600 3 3 0;
             window world_second_fails 600 3 3 2 ] 1
           (window world_second_fails 600 3 3 2)).
  - reflexivity.
  - discriminate.
  - reflexivity.
  - reflexivity.
Defined.
End SplitterAndTranscriber.

Section PipelineTimes.
Import Py Text Segments Json TranscribePodcast Pipeline Spec Terms Inputs.
Local Open Scope Q_scope.

Variable whisper : string -> result whisper_response.
Variable create : string -> Q -> string -> string -> result string.
Variable json_loads : string -> result json.
Variable insert : list segment_record -> result (list json).
Variables now1 now2 : string.

Variable responses : string -> whisper_response.
Variable episode_id : string.
Variable chunk_files : list string.
Variable O : Q.
Hypothesis Hfiles : chunk_files <> [].
Hypothesis Hwhisper :
  forall f, In f chunk_files -> whisper f = Ok (responses f).

Let merged := merged_of O responses chunk_files.
Let run :=
  process_podcast whisper create json_loads insert now1 now2 episode_id
    chunk_files O.

Lemma nth_combine_seq {B : Type} (l : list B) (a n i k : nat) (b : B) :
  nth_error (combine (seq a n) l) i = Some (k, b) ->
  k = (a + i)%nat /\ nth_error l i = Some b.
Proof.
  revert a l i. induction n as [|n IH]; intros a l i H; simpl in H.
  - destruct i; discriminate.
  - destruct l as [|x l]; [destruct i; discriminate|].
    destruct i as [|i]; simpl in H.
    + injection H as <- <-. split; [lia|reflexivity].
    + destruct (IH _ _ _ H) as [-> Hn]. split; [lia|exact Hn].
Qed.

Lemma nth_enumerate {B : Type} (l : list B) (i k : nat) (b : B) :
  nth_error (enumerate l) i = Some (k, b) -> k = i /\ nth_error l i = Some b.
Proof. intro H. apply nth_combine_seq in H. exact H. Qed.

Lemma enumerate_nth {B : Type} (l : list B) (i : nat) (b : B) :
  nth_error l i = Some b -> nth_error (enumerate l) i = Some (i, b).
Proof.
  intro H.
  destruct (nth_error (enumerate l) i) as [[k b']|] eqn:E.
  - destruct (nth_enumerate l i k b' E) as [-> Hb]. congruence.
  - exfalso. apply nth_error_None in E. unfold enumerate in E.
    rewrite length_combine, length_seq, Nat.min_id in E.
    assert (Hn : nth_error l i <> None) by congruence.
    apply nth_error_Some in Hn. lia.
Qed.

(** The transcript a run writes to [transcript_full.json], when every
    transcription answers: its segments are the segments of the answers,
    stripped, those of the file at position [i >= 1] without the ones that
    start before the overlap, each moved by the offset of its file; so no
    segment of the file at position [i] starts before [600 * i]. *)
Theorem run_transcript_segments :
  In (Write "transcript_full.json"
        (TranscriptFull episode_id merged
           (List.length (entries O responses chunk_files)) now1))
     (fst run) /\
  (forall m : segment,
      In m (segments merged) <->
      exists (i : nat) (f : string) (raw : list segment) (seg : segment),
        nth_error chunk_files i = Some f /\
        response_segments (responses f) = Some raw /\
        In seg raw /\
        (i = 0%nat \/ O <= start seg) /\
        m = {| start := start seg + start_offset O i;
               end_ := end_ seg + start_offset O i;
               text := strip (text seg) |}) /\
  (forall (i : nat) (seg : segment),
      (0 < i)%nat -> O <= start seg ->
      inject_Z (Z.of_nat i) * 600 <= start seg + start_offset O i).
Proof.
  split; [|split].
  - pose proof (loop_result whisper responses chunk_files O Hwhisper)
      as Hloop.
    unfold run, process_podcast. clearbody run.
    set (m := merged) in *. unfold merged, merged_of in m.
    destruct chunk_files as [|f0 rest]; [contradiction|].
    set (files := f0 :: rest) in *.
    rewrite iobind_fst. cbn [print snd fst].
    rewrite iobind_fst, Hloop. fold m.
    do 3 (rewrite iobind_fst; cbn [print snd fst]).
    apply in_or_app. right. apply in_or_app. right.
    apply in_or_app. right. apply in_or_app. right.
    apply in_or_app. left. left. reflexivity.
  - intro m. unfold merged, merged_of, merge_transcripts.
    cbn [segments].
    assert (HP : Permutation
                   (sort start
                      (collect (map to_chunk_data
                                  (entries O responses chunk_files)) O))
                   (flat_map (contribution O)
                      (enumerate (map to_chunk_data
                                    (entries O responses chunk_files))))).
    { rewrite sort_perm, collect_contributions. reflexivity. }
    split.
    + intro Hin. apply (Permutation_in _ HP) in Hin.
      apply in_flat_map in Hin. destruct Hin as ([i c] & Hic & Hm).
      apply in_enumerate in Hic.
      rewrite nth_error_map in Hic.
      unfold entries in Hic. rewrite nth_error_map in Hic.
      destruct (nth_error (enumerate chunk_files) i) as [[k f]|] eqn:Hk;
        [|discriminate].
      destruct (nth_enumerate _ _ _ _ Hk) as [-> Hf].
      injection Hic as <-.
      unfold contribution in Hm. cbn [fst snd] in Hm.
      unfold to_chunk_data, entry_at, chunk_of_response in Hm.
      cbn [fst snd start_offset_seconds transcript_segments offset
           transcript_of ct_segments] in Hm.
      apply in_map_iff in Hm. destruct Hm as (s' & <- & Hs').
      apply filter_In in Hs'. destruct Hs' as [Hs' Hsv].
      destruct (response_segments (responses f)) as [raw|] eqn:Hraw;
        [|contradiction].
      apply in_map_iff in Hs'. destruct Hs' as (seg & <- & Hseg).
      exists i, f, raw, seg.
      split; [exact Hf|]. split; [exact Hraw|]. split; [exact Hseg|].
      split; [|reflexivity].
      unfold survives in Hsv. cbn [start] in Hsv.
      apply negb_true_iff, andb_false_iff in Hsv.
      destruct Hsv as [Hi | Hlt].
      * left. apply Nat.ltb_ge in Hi. lia.
      * right. apply ltb_ge. exact Hlt.
    + intros (i & f & raw & seg & Hf & Hraw & Hseg & Hkeep & ->).
      apply (Permutation_in _ (Permutation_sym HP)).
      apply in_flat_map.
      exists (i, to_chunk_data (entry_at O responses (i, f))).
      split.
      * apply in_enumerate. rewrite nth_error_map. unfold entries.
        rewrite nth_error_map, (enumerate_nth _ _ _ Hf). reflexivity.
      * unfold contribution. cbn [fst snd].
        unfold to_chunk_data, entry_at, chunk_of_response.
        cbn [fst snd start_offset_seconds transcript_segments offset
             transcript_of ct_segments].
        rewrite Hraw.
        apply (in_map (shift (start_offset O i))
                 _ {| start := start seg; end_ := end_ seg;
                      text := strip (text seg) |}).
        apply filter_In. split.
        -- apply (in_map (fun s => {| start := start s; end_ := end_ s;
                                      text := strip (text s) |})).
           exact Hseg.
        -- unfold survives. cbn [start].
           apply negb_true_iff, andb_false_iff.
           destruct Hkeep as [-> | Hle]; [left; reflexivity|].
           right. apply ltb_ge. exact Hle.
  - intros i seg Hi Hle. unfold start_offset.
    assert (E : Nat.eqb i 0 = false) by (apply Nat.eqb_neq; lia).
    rewrite E.
    generalize (inject_Z (Z.of_nat i)). intro q. lra.
Qed.
End PipelineTimes.

Section PipelineWitness4.
Import Py Text Segments Json TranscribePodcast Pipeline Spec Terms Inputs.
Local Open Scope Q_scope.

Lemma run_transcript_segments_witness :
  In {| start := 4 + start_offset 3 1; end_ := 6 + start_offset 3 1;
        text := "So, welcome." |}
     (segments (merged_of 3 (fun _ => one_segment_response) two_chunk_files)).
Proof.
  apply (proj1 (proj2 (run_transcript_segments whisper_ok create_one_chapter
                         loads_one_chapter insert_ok "t1" "t2"
                         (fun _ => one_segment_response) "episode"
                         two_chunk_files 3 ltac:(discriminate)
                         ltac:(intros f _; reflexivity)))).
  exists 1%nat, "chunk_002.mp3"%string,
    [ {| start := 4; end_ := 6; text := " So, welcome. "%string |} ],
    {| start := 4; end_ := 6; text := " So, welcome. "%string |}.
  split; [reflexivity|]. split; [reflexivity|].
  split; [left; reflexivity|]. split; [right; discriminate|reflexivity].
Defined.
End PipelineWitness4.

(** ** [generate_chapters.py]: [main] *)

Section ChapterGeneratorMainFacts.
Import Py Text Segments Json GenerateChapters ChapterGeneratorMain Spec Terms
  Inputs.
Local Open Scope Q_scope.

Lemma div60_numeric (v : json) (q : Q) : div60 v = Ok q -> numeric v.
Proof. destruct v; simpl; intro H; try discriminate; exact I. Qed.

Lemma numeric_div60 (v : json) : numeric v -> exists q, div60 v = Ok q.
Proof. destruct v; simpl; intro H; try contradiction; eauto. Qed.

Lemma chapter_body_ok (i : nat) (c : json) :
  snd (chapter_body (i, c)) = Ok tt <-> displayable c.
Proof.
  unfold chapter_body, displayable. split.
  - intro H.
    destruct (at_key c "start_seconds") as [s|] eqn:Hs; [|discriminate H].
    cbn [lift iobind app] in H.
    destruct (div60 s) as [qs|] eqn:Hqs; [|discriminate H].
    cbn [lift iobind app] in H.
    destruct (at_key c "end_seconds") as [e|] eqn:He; [|discriminate H].
    cbn [lift iobind app] in H.
    destruct (div60 e) as [qe|] eqn:Hqe; [|discriminate H].
    cbn [lift iobind app] in H.
    destruct (at_key c "title") as [t|] eqn:Ht; [|discriminate H].
    exists s, e, t. repeat split; eauto using div60_numeric.
  - intros (s & e & t & Hs & Hns & He & Hne & Ht).
    destruct (numeric_div60 s Hns) as (qs & Hqs).
    destruct (numeric_div60 e Hne) as (qe & Hqe).
    destruct c as [| | | |l0|fields]; try discriminate Ht.
    rewrite Hs. cbn [lift iobind app]. rewrite Hqs. cbn [lift iobind app].
    rewrite He. cbn [lift iobind app]. rewrite Hqe. cbn [lift iobind app].
    rewrite Ht. cbn [lift iobind app print has_key at_key].
    destruct (lookup "summary" fields); reflexivity.
Qed.

Lemma unit_result (r : result unit) (u : unit) : r = Ok u -> r = Ok tt.
Proof. destruct u. auto. Qed.

Lemma for_in_ok {E A : Type} (body : A -> io E unit) (l : list A) :
  snd (for_in l body) = Ok tt <-> Forall (fun x => snd (body x) = Ok tt) l.
Proof.
  induction l as [|a l IH]; simpl for_in.
  - split; [constructor|reflexivity].
  - rewrite iobind_snd. split.
    + intro H. destruct (snd (body a)) as [[]|] eqn:Ha; [|discriminate].
      constructor; [exact Ha|]. apply IH. exact H.
    + intro H. inversion H as [|? ? Ha Hl]. subst. rewrite Ha.
      apply IH. exact Hl.
Qed.

Lemma for_in_log {E A : Type} (P : E -> Prop) (body : A -> io E unit)
    (l : list A) :
  (forall a, Forall P (fst (body a))) -> Forall P (fst (for_in l body)).
Proof.
  intro H. induction l as [|a l IH]; simpl for_in.
  - constructor.
  - rewrite iobind_fst. destruct (snd (body a)).
    + apply Forall_app. split; [apply H|exact IH].
    + apply H.
Qed.

Lemma forall_numbered {A : Type} (P : A -> Prop) (l : list A) (n : nat) :
  Forall (fun ic : nat * A => P (snd ic)) (combine (seq n (List.length l)) l)
  <-> Forall P l.
Proof.
  revert n. induction l as [|a l IH]; intro n; simpl.
  - split; constructor.
  - split; intro H; inversion H; subst; constructor; try assumption;
      apply (IH (S n)); assumption.
Qed.

Lemma print_chapters_ok (v : json) :
  snd (print_chapters v) = Ok tt <->
  exists l, items v = Ok l /\ Forall displayable l.
Proof.
  unfold print_chapters.
  do 3 (rewrite iobind_snd; cbn [print snd]).
  rewrite iobind_snd. cbn [lift snd].
  destruct (items v) as [l|e].
  - rewrite iobind_snd.
    assert (Hloop : snd (for_in (combine (seq 1 (List.length l)) l)
                           chapter_body) = Ok tt
                    <-> Forall displayable l).
    { rewrite for_in_ok, <- (forall_numbered displayable l 1).
      split; apply Forall_impl; intros [i c]; apply chapter_body_ok. }
    split.
    + intro H. exists l. split; [reflexivity|]. apply Hloop.
      destruct (snd (for_in _ _)) as [[]|]; [reflexivity|discriminate].
    + intros (l' & E & Hl). injection E as <-.
      apply Hloop in Hl. rewrite Hl. reflexivity.
  - split; [discriminate|]. intros (l & E & _). discriminate.
Qed.

Lemma chapter_body_no_dump (ic : nat * json) :
  Forall no_dump (fst (chapter_body ic)).
Proof.
  destruct ic as [i c]. unfold chapter_body.
  destruct (at_key c "start_seconds") as [s|]; [|constructor].
  cbn [lift iobind app].
  destruct (div60 s) as [qs|]; [|constructor]. cbn [lift iobind app].
  destruct (at_key c "end_seconds") as [e|]; [|constructor].
  cbn [lift iobind app].
  destruct (div60 e) as [qe|]; [|constructor]. cbn [lift iobind app].
  destruct (at_key c "title") as [t|]; [|constructor].
  cbn [lift iobind app print].
  destruct (has_key "summary" c) as [[|]|]; cbn [lift iobind app print ret fst];
    try (repeat constructor).
  destruct (at_key c "summary"); cbn [lift iobind app print ret fst];
    repeat constructor.
Qed.

Lemma print_chapters_no_dump (v : json) :
  Forall no_dump (fst (print_chapters v)).
Proof.
  unfold print_chapters.
  do 3 (rewrite iobind_fst; cbn [print snd fst]).
  repeat (apply Forall_app; split; [repeat constructor|]).
  rewrite iobind_fst. cbn [lift snd fst].
  destruct (items v) as [l|]; [|constructor].
  cbn [app]. rewrite iobind_fst.
  pose proof (for_in_log no_dump chapter_body
                (combine (seq 1 (List.length l)) l) chapter_body_no_dump)
    as Hl.
  destruct (snd (for_in _ _)); [|exact Hl].
  apply Forall_app. split; [exact Hl|]. repeat constructor.
Qed.

Lemma displayable_is_object (c : json) :
  displayable c -> exists fields, c = JObj fields.
Proof.
  intros (s & e & t & Hs & _). destruct c; try discriminate Hs. eauto.
Qed.

(** A truthy value all of whose elements can be displayed is a non-empty
    list. *)
Lemma displayed_value_is_list (v : json) (l : list json) :
  truthy v = true -> items v = Ok l -> Forall displayable l ->
  v = JArr l /\ l <> [].
Proof.
  intros Ht Hi Hl. destruct v as [| | |s|l0|fields]; try discriminate Hi.
  - injection Hi as <-. destruct s as [|c s]; [discriminate Ht|].
    simpl in Hl. inversion Hl as [|? ? Hc _].
    destruct (displayable_is_object _ Hc). discriminate.
  - injection Hi as <-. split; [reflexivity|].
    destruct l0; [discriminate Ht|discriminate].
  - injection Hi as <-. destruct fields as [|kv fields]; [discriminate Ht|].
    simpl in Hl. inversion Hl as [|? ? Hc _].
    destruct (displayable_is_object _ Hc). discriminate.
Qed.

Variable api_key : option string.
Variable load : string -> result loaded.
Variable create : string -> Q -> string -> string -> result string.
Variable json_loads : string -> result json.

Lemma map_generator_no_dump (pl : list printed) :
  Forall no_dump (map Generator pl).
Proof. induction pl; simpl; constructor; [exact I|assumption]. Qed.

(** The exit code of [main] tells what happened to the chapters file: code
    1 means that nothing was written; code 0 means that a non-empty list
    of chapters was written to the output file and that each of them has a
    title and numeric [start_seconds] and [end_seconds]; there is no other
    code. *)
Theorem main_exit_code (a : args) :
  let r := main api_key load create json_loads a in
  (forall c, snd r = Ok c -> c = 0%Z \/ c = 1%Z) /\
  (snd r = Ok 1%Z -> Forall no_dump (fst r)) /\
  (snd r = Ok 0%Z ->
   exists l, l <> [] /\
             In (Dump (output_file a) (JArr l)) (fst r) /\
             Forall displayable l).
Proof.
  unfold main.
  destruct (match api_key with Some k => String.eqb k "" | None => true end).
  { cbn. split; [intros c H; injection H as <-; auto|].
    split; [intros _; repeat constructor|discriminate]. }
  destruct (load (transcript_file a)) as [[|segs]|e].
  { cbn. split; [intros c H; injection H as <-; auto|].
    split; [intros _; repeat constructor|discriminate]. }
  2:{ cbn. split; [discriminate|]. split; discriminate. }
  cbn [lift print iobind app].
  set (dpart := match segs with
                | [] => ret tt
                | _ :: _ => _
                end).
  assert (Hd : Forall no_dump (fst dpart)).
  { unfold dpart. destruct segs as [|s0 segs']; [constructor|].
    destruct (getitem (s0 :: segs') (-1)); repeat constructor. }
  destruct dpart as [dl [[]|e]].
  2:{ cbn. split; [discriminate|]. split; discriminate. }
  cbn [iobind]. cbn [fst] in Hd.
  destruct (generate_chapters create json_loads segs (model a)
              (temperature a) (min_minutes a) (max_chars a) None)
    as [pl [v|e]].
  2:{ cbn. split; [discriminate|]. split; discriminate. }
  unfold Pipeline.embed. cbn [fst snd iobind].
  pose proof (map_generator_no_dump pl) as Hpl.
  destruct (truthy v) eqn:Ht; cbn [negb].
  2:{ cbn. split; [intros c H; injection H as <-; auto|].
      split; [|discriminate]. intros _.
      constructor; [exact I|]. constructor; [exact I|].
      apply Forall_app. split; [exact Hd|].
      apply Forall_app. split; [exact Hpl|]. repeat constructor. }
  unfold save_chapters. cbn [print iobind app lift].
  destruct (Json.length v) as [n|e] eqn:Hn.
  2:{ cbn. split; [discriminate|]. split; discriminate. }
  cbn [iobind app print].
  pose proof (print_chapters_ok v) as Hok.
  destruct (print_chapters v) as [cl [[]|e]]; cbn [snd] in Hok.
  2:{ cbn. split; [discriminate|]. split; discriminate. }
  cbn [iobind ret fst snd].
  split; [intros c H; injection H as <-; auto|].
  split; [discriminate|]. intros _.
  destruct (proj1 Hok eq_refl) as (l & Hitems & Hl).
  destruct (displayed_value_is_list v l Ht Hitems Hl) as [-> Hne].
  exists l. split; [exact Hne|]. split; [|exact Hl].
  right. right. apply in_or_app. right. apply in_or_app. right.
  left. reflexivity.
Qed.

Lemma getitem_last_defined {A : Type} (x : A) (l : list A) :
  exists y, getitem (x :: l) (-1) = Ok y.
Proof.
  unfold getitem. change (-1 <? 0)%Z with true. cbv iota.
  assert (H : (0 <= Z.of_nat (List.length (x :: l)) + -1)%Z)
    by (cbn [List.length]; lia).
  apply Z.ltb_ge in H. rewrite H. apply Z.ltb_ge in H.
  destruct (nth_error (x :: l)
              (Z.to_nat (Z.of_nat (List.length (x :: l)) + -1))) as [y|] eqn:E.
  - eauto.
  - apply nth_error_None in E. cbn [List.length] in *. lia.
Qed.

(** [main] saves before it displays: a truthy value returned by the
    generator is written to the output file whatever it holds; the exit
    code is 0 exactly when the value is a list of chapters that can all be
    displayed; otherwise [main] raises, with the file already written. *)
Theorem main_saves_before_display (a : args) (k : string)
    (segs : list segment) (pl : list printed) (v : json) :
  api_key = Some k -> k <> ""%string ->
  load (transcript_file a) = Ok (Segments segs) ->
  generate_chapters create json_loads segs (model a) (temperature a)
    (min_minutes a) (max_chars a) None = (pl, Ok v) ->
  truthy v = true ->
  let r := main api_key load create json_loads a in
  In (Dump (output_file a) v) (fst r) /\
  (snd r = Ok 0%Z \/ exists e, snd r = Raise e) /\
  (snd r = Ok 0%Z <-> exists l, v = JArr l /\ Forall displayable l).
Proof.
  intros Hkey Hk Hload Hgen Ht. unfold main.
  rewrite Hkey. apply String.eqb_neq in Hk. rewrite Hk, Hload.
  cbn [lift print iobind app].
  set (dpart := match segs with
                | [] => ret tt
                | _ :: _ => _
                end).
  assert (Hd : exists dl, dpart = (dl, Ok tt)).
  { unfold dpart. destruct segs as [|s0 segs']; [eexists; reflexivity|].
    destruct (getitem_last_defined s0 segs') as (y & ->). eexists. reflexivity. }
  destruct Hd as (dl & ->). cbn [iobind].
  rewrite Hgen. unfold Pipeline.embed. cbn [fst snd iobind].
  rewrite Ht. cbn [negb].
  unfold save_chapters. cbn [print iobind app lift].
  pose proof (print_chapters_ok v) as Hok.
  destruct (Json.length v) as [n|e] eqn:Hn.
  - cbn [iobind app print].
    destruct (print_chapters v) as [cl [[]|e]]; cbn [snd] in Hok;
      cbn [iobind ret fst snd].
    + split; [|split; [left; reflexivity|]].
      * right. right. apply in_or_app. right. apply in_or_app. right.
        left. reflexivity.
      * split; [intros _|reflexivity].
        destruct (proj1 Hok eq_refl) as (l & Hitems & Hl).
        destruct (displayed_value_is_list v l Ht Hitems Hl) as [-> _].
        eauto.
    + split; [|split; [right; eexists; reflexivity|]].
      * right. right. apply in_or_app. right. apply in_or_app. right.
        left. reflexivity.
      * split; [discriminate|]. intros (l & -> & Hl).
        assert (H : @Raise unit e = Ok tt); [|discriminate H].
        apply Hok. exists l. split; [reflexivity|exact Hl].
  - cbn [iobind app print fst snd].
    split; [|split; [right; eexists; reflexivity|]].
    + right. right. apply in_or_app. right. apply in_or_app. right.
      left. reflexivity.
    + split; [discriminate|]. intros (l & -> & _). discriminate Hn.
Qed.
End ChapterGeneratorMainFacts.

Section ChapterGeneratorMainWitness.
Import Py Text Segments Json GenerateChapters ChapterGeneratorMain Spec Terms
  Inputs.
Local Open Scope Q_scope.

Lemma main_exit_code_witness :
  exists l, l <> [] /\
    In (Dump (output_file (default_args "episode/transcript_full.json"))
          (JArr l))
       (fst (main (Some "key"%string) (fun _ => Ok (Segments short_episode))
               create_one_chapter loads_one_chapter
               (default_args "episode/transcript_full.json"))) /\
    Forall displayable l.
Proof.
  apply (proj2 (proj2 (main_exit_code (Some "key"%string)
                         (fun _ => Ok (Segments short_episode))
                         create_one_chapter loads_one_chapter
                         (default_args "episode/transcript_full.json")))).
  reflexivity.
Defined.

Lemma main_saves_before_display_witness :
  In (Dump (BesideInput "episode/transcript_full.json") one_chapter)
     (fst (main (Some "key"%string) (fun _ => Ok (Segments short_episode))
             create_one_chapter loads_one_chapter
             (default_args "episode/transcript_full.json"))) /\
  (snd (main (Some "key"%string) (fun _ => Ok (Segments short_episode))
         create_one_chapter loads_one_chapter
         (default_args "episode/transcript_full.json")) = Ok 0%Z \/
   exists e,
     snd (main (Some "key"%string) (fun _ => Ok (Segments short_episode))
         create_one_chapter loads_one_chapter
         (default_args "episode/transcript_full.json")) = Raise e) /\
  (snd (main (Some "key"%string) (fun _ => Ok (Segments short_episode))
          create_one_chapter loads_one_chapter
          (default_args "episode/transcript_full.json")) = Ok 0%Z
   <-> exists l, one_chapter = JArr l /\ Forall displayable l).
Proof.
  eapply (main_saves_before_display (Some "key"%string)
            (fun _ => Ok (Segments short_episode))
            create_one_chapter loads_one_chapter
            (default_args "episode/transcript_full.json") "key"%string
            short_episode).
  - reflexivity.
  - discriminate.
  - reflexivity.
  - reflexivity.
  - reflexivity.
Defined.
End ChapterGeneratorMainWitness.

Section PipelineSleeps.
Import Py Text Segments Json TranscribePodcast Pipeline Spec Terms Inputs.
Local Open Scope Q_scope.

Variable whisper : string -> result whisper_response.
Variable create : string -> Q -> string -> string -> result string.
Variable json_loads : string -> result json.
Variable insert : list segment_record -> result (list json).
Variables now1 now2 : string.

Lemma sleeps_app (a b : list effect) :
  sleeps (a ++ b) = (sleeps a ++ sleeps b)%list.
Proof. apply flat_map_app. Qed.

Lemma sleeps_cons (ev : effect) (l : list effect) :
  sleeps (ev :: l)
  = (match ev with Sleep seconds => [seconds] | _ => [] end ++ sleeps l)%list.
Proof. reflexivity. Qed.

Lemma no_sleep_sleeps (l : list effect) : Forall no_sleep l -> sleeps l = [].
Proof.
  induction 1 as [|ev l Hev _ IH]; [reflexivity|].
  unfold sleeps in *. simpl. rewrite IH.
  destruct ev; try reflexivity. contradiction.
Qed.

Lemma planner_no_sleep (l : list printed) : Forall no_sleep (map Planner l).
Proof. induction l; simpl; constructor; [exact I|assumption]. Qed.

Lemma save_chapters_no_sleep (chapters : json) :
  Forall no_sleep (fst (save_chapters_locally chapters)).
Proof.
  unfold save_chapters_locally. destruct (negb (truthy chapters)).
  - repeat constructor.
  - rewrite iobind_fst. cbn [print fst snd]. rewrite iobind_fst.
    destruct (Json.length chapters); cbn [lift print fst snd];
      repeat constructor.
Qed.

Lemma database_stage_no_sleep (episode_id : string) (merged : transcript) :
  Forall no_sleep
    (fst (try_except
            (_ <~ print (Say AttemptingDatabase) ;;
             records <~ save_to_supabase insert episode_id merged ;;
             _ <~ print (Say (DatabaseSuccess (List.length records))) ;;
             ret records)
            (fun e =>
               _ <~ print (Say (DatabaseFailed e)) ;;
               _ <~ print (Say SafelySavedLocally) ;;
               ret []))).
Proof.
  unfold save_to_supabase.
  destruct (map _ (segments merged)) as [|r rs]; [repeat constructor|].
  destruct (insert (r :: rs)); repeat constructor.
Qed.

(** The transcription loop pauses after every chunk but the last. *)
Lemma loop_sleeps (responses : string -> whisper_response) (O : Q)
    (count : nat) (l : list string) (a : nat) (acc : list chunk_entry) :
  (forall f, In f l -> whisper f = Ok (responses f)) ->
  (a + List.length l = count)%nat ->
  sleeps (fst (for_each (chunk_loop_body whisper count O)
                 (combine (seq a (List.length l)) l) acc))
  = repeat 1%Z (List.length l - 1).
Proof.
  revert a acc. induction l as [|f l IH]; intros a acc Hw Hc.
  - reflexivity.
  - cbn [List.length seq combine for_each].
    rewrite iobind_fst.
    assert (Hf : whisper f = Ok (responses f)) by (apply Hw; left; reflexivity).
    unfold chunk_loop_body at 1 2.
    rewrite (transcribe_chunk_ok whisper f a _ Hf).
    cbn [print iobind app].
    assert (Hrest : sleeps (fst (for_each (chunk_loop_body whisper count O)
                                   (combine (seq (S a) (List.length l)) l)
                                   (acc ++ [ {| file := f; index := a;
                                                offset := start_offset O a;
                                                transcript_of :=
                                                  chunk_of_response
                                                    (responses f) |} ])))
                    = repeat 1%Z (List.length l - 1)).
    { apply IH; [intros g Hg; apply Hw; right; exact Hg|].
      cbn [List.length] in Hc. lia. }
    cbn [List.length] in Hc.
    destruct (a <? count - 1)%nat eqn:E; cbn [print ret iobind app fst snd];
      rewrite !sleeps_cons, Hrest; cbn [app].
    + apply Nat.ltb_lt in E.
      destruct (List.length l) as [|n]; [lia|].
      cbn. rewrite Nat.sub_0_r. reflexivity.
    + apply Nat.ltb_ge in E.
      destruct (List.length l) as [|n]; [reflexivity|lia].
Qed.

(** When every transcription answers, a run over [n] chunk files pauses
    [n - 1] times, one second each: after every chunk but the last, and
    nowhere else. *)
Theorem one_pause_between_chunks (responses : string -> whisper_response)
    (episode_id : string) (chunk_files : list string) (O : Q) :
  chunk_files <> [] ->
  (forall f, In f chunk_files -> whisper f = Ok (responses f)) ->
  sleeps (fst (process_podcast whisper create json_loads insert now1 now2
                 episode_id chunk_files O))
  = repeat 1%Z (List.length chunk_files - 1).
Proof.
  intros Hfiles Hwhisper.
  pose proof (loop_result whisper responses chunk_files O Hwhisper) as Hloop.
  pose proof (loop_sleeps responses O (List.length chunk_files) chunk_files
                0 [] Hwhisper eq_refl) as Hs.
  fold (enumerate chunk_files) in Hs.
  unfold process_podcast.
  destruct chunk_files as [|f0 rest]; [contradiction|].
  set (files := f0 :: rest) in *.
  rewrite iobind_fst. cbn [print fst snd].
  rewrite iobind_fst, Hloop.
  rewrite !sleeps_app, Hs.
  change (sleeps [Say (FoundChunks (List.length files))]) with (@nil Z).
  cbn [app].
  match goal with
  | |- (_ ++ sleeps ?t)%list = _ =>
      assert (Ht : Forall no_sleep t); [|rewrite (no_sleep_sleeps t Ht)]
  end.
  2:{ apply app_nil_r. }
  set (merged := merge_transcripts _ O).
  do 4 (rewrite iobind_fst; cbn [print fst snd app];
        constructor; [exact I|]).
  rewrite iobind_fst. unfold embed at 1 2. cbn [fst snd].
  destruct (generate_chapters create json_loads merged) as [pl [chapters|e]];
    cbn [fst snd]; [|apply planner_no_sleep].
  apply Forall_app. split; [apply planner_no_sleep|].
  rewrite iobind_fst.
  match goal with
  | |- context [match snd ?t with _ => _ end] => remember t as sc eqn:Hsc
  end.
  assert (Hch : Forall no_sleep (fst sc)).
  { rewrite Hsc.
    destruct (truthy chapters); [apply save_chapters_no_sleep|constructor]. }
  clear Hsc. destruct sc as [cl [[]|e]]; cbn [fst snd] in *; [|exact Hch].
  apply Forall_app. split; [exact Hch|].
  do 2 (rewrite iobind_fst; cbn [print fst snd app];
        constructor; [exact I|]).
  rewrite iobind_fst.
  pose proof (database_stage_no_sleep episode_id merged) as Hdb.
  match goal with
  | |- context [match snd ?t with _ => _ end] => remember t as db eqn:Hdbe
  end.
  clear Hdbe. destruct db as [dl [records|e]]; cbn [fst snd] in *;
    [|exact Hdb].
  apply Forall_app. split; [exact Hdb|].
  destruct (Json.length chapters) as [n|e]; simpl; repeat constructor.
Qed.
End PipelineSleeps.

Section PipelineWitness5.
Import Py Text Segments Json TranscribePodcast Pipeline Spec Terms Inputs.
Local Open Scope Q_scope.

Lemma one_pause_between_chunks_witness :
  sleeps (fst (process_podcast whisper_ok create_one_chapter
                 loads_one_chapter insert_ok "t1" "t2" "episode"
                 two_chunk_files 3))
  = repeat 1%Z (List.length two_chunk_files - 1).
Proof.
  apply (one_pause_between_chunks whisper_ok create_one_chapter
           loads_one_chapter insert_ok "t1" "t2"
           (fun _ => one_segment_response) "episode" two_chunk_files 3).
  - discriminate.
  - intros f _. reflexivity.
Defined.
End PipelineWitness5.
